(** * MedScribe-AI backend: approval workflow and patient reconciliation

    A shallow embedding of the Express route handlers of the backend
    (routes of the assistant, doctor, hospital-admin, super-admin and
    profile routers, and the auth middleware) over an explicit model of
    the relational store they query.

    Conventions of the embedding.
    - A handler [h] becomes a function from the request data and the
      store before the request to the JSON response and the store after
      it. The sequence of [await supabase...] calls becomes explicit
      state passing.
    - Every call to the store can fail upstream. An [Env] value tells,
      per call site, whether that call returns an [error]; a failed write
      leaves the table as it was.
    - [profiles] and [hospitals] are keyed by their primary key [id] and
      are finite maps; the link tables are lists of rows in the order in
      which a [select] returns them.
    - JavaScript strings are sequences of UTF-16 code units. A
      character of a Rocq [string] stands for one code unit below 256
      (it is not a byte of an encoding), and [\s], [trim] and
      [toLowerCase] are modelled on all of them: the white space below
      256 is TAB, LF, VT, FF, CR, SPACE and U+00A0, and the capitals
      below 256 are A-Z, U+00C0-U+00D6 and U+00D8-U+00DE. Strings with a
      code unit from 256 on are outside the type. [undefined] and [null]
      are [None]. *)

From Stdlib Require Import Ascii.
From stdpp Require Import base option list strings gmap.

(** ** JavaScript values *)

Module Js.

(** [!!v] for a string that may be [undefined] or [null]: the value
    when it is a non-empty string. *)
Definition truthy (v : option string) : option string :=
  match v with
  | Some s => if decide (s = "") then None else Some s
  | None => None
  end.

(** [a || b] on strings that may be missing *)
Definition or_else (a b : option string) : option string :=
  match truthy a with Some v => Some v | None => b end.

(** [a ?? b] *)
Definition nullish {A} (a b : option A) : option A :=
  match a with Some x => Some x | None => b end.

(** The code units below 256 matched by [\s] and removed by [trim]
    (WhiteSpace and LineTerminator of ECMAScript): TAB, LF, VT, FF, CR,
    SPACE and NO-BREAK SPACE (U+00A0). *)
Definition is_white (c : ascii) : bool :=
  let n := Ascii.nat_of_ascii c in
  (Nat.leb 9 n && Nat.leb n 13) || Nat.eqb n 32 || Nat.eqb n 160.

(** [toLowerCase] on one code unit below 256: A-Z, U+00C0-U+00D6 and
    U+00D8-U+00DE move up by 32; U+00D7 (the multiplication sign) and
    every other code unit stay. *)
Definition lower_char (c : ascii) : ascii :=
  let n := Ascii.nat_of_ascii c in
  if (Nat.leb 65 n && Nat.leb n 90)
     || (Nat.leb 192 n && Nat.leb n 222 && negb (Nat.eqb n 215))
  then Ascii.ascii_of_nat (n + 32) else c.

Fixpoint toLowerCase (s : string) : string :=
  match s with
  | EmptyString => EmptyString
  | String c r => String (lower_char c) (toLowerCase r)
  end.

Fixpoint trimStart (s : string) : string :=
  match s with
  | EmptyString => EmptyString
  | String c r => if is_white c then trimStart r else s
  end.

Fixpoint trimEnd (s : string) : string :=
  match s with
  | EmptyString => EmptyString
  | String c r =>
      match trimEnd r with
      | EmptyString => if is_white c then EmptyString else String c EmptyString
      | r' => String c r'
      end
  end.

Definition trim (s : string) : string := trimEnd (trimStart s).

(** [s.replace(/\s+/g, " ")]: every maximal run of white space becomes
    one space. [in_run] tells that the previous character was white. *)
Fixpoint collapse_go (in_run : bool) (s : string) : string :=
  match s with
  | EmptyString => EmptyString
  | String c r =>
      if is_white c
      then (if in_run then collapse_go true r
            else String " "%char (collapse_go true r))
      else String c (collapse_go false r)
  end.

Definition collapse_spaces (s : string) : string := collapse_go false s.

(** [startsWith] *)
Fixpoint startsWith (p s : string) : bool :=
  match p, s with
  | EmptyString, _ => true
  | String a p', String b s' => if decide (a = b) then startsWith p' s' else false
  | String _ _, EmptyString => false
  end.

(** [s.split(" ")]: the pieces between single spaces. *)
Fixpoint split_go (cur : string) (s : string) : list string :=
  match s with
  | EmptyString => [String.rev cur]
  | String c r =>
      if decide (c = " "%char) then String.rev cur :: split_go EmptyString r
      else split_go (String c cur) r
  end.

Definition split_space (s : string) : list string := split_go EmptyString s.

End Js.

(** ** Data model (the tables of the store) *)

Inductive Role := super_admin | hospital_admin | doctor | doctor_assistant | patient.
Inductive ApprovalStatus := pending | approved | rejected.

#[global] Instance Role_eq_dec : EqDecision Role.
Proof. solve_decision. Defined.
#[global] Instance ApprovalStatus_eq_dec : EqDecision ApprovalStatus.
Proof. solve_decision. Defined.

(** The [user_role] enum of the database, as text. *)
Definition role_name (r : Role) : string :=
  match r with
  | super_admin => "super_admin"
  | hospital_admin => "hospital_admin"
  | doctor => "doctor"
  | doctor_assistant => "doctor_assistant"
  | patient => "patient"
  end.

Definition allowedRoles : list Role :=
  [super_admin; hospital_admin; doctor; doctor_assistant; patient].

Definition role_of_string (s : string) : option Role :=
  List.find (λ r, bool_decide (role_name r = s)) allowedRoles.

(** A row of [profiles], without its key [id]. *)
Record Profile := mkProfile {
  full_name : option string;
  phone : option string;
  gender : option string;
  dob : option string;
  role : Role;
  approval_status : ApprovalStatus
}.

(** A row of [hospitals], without its key [id]. *)
Record Hospital := mkHospital {
  h_name : string;
  h_address : string;
  hospital_type : string;
  admin_profile_id : option string;
  status : ApprovalStatus
}.

Record DoctorProfile := mkDoctorProfile {
  dp_profile_id : string;
  dp_specialization : string;
  dp_hospital_id : option string;
  dp_license_number : string;
  dp_cnic : string;
  dp_approval_status : ApprovalStatus
}.

Record DoctorAssistantProfile := mkAssistantLink {
  da_profile_id : string;
  da_doctor_profile_id : option string;
  da_hospital_id : option string;
  da_approval_status : ApprovalStatus
}.

Record PatientProfile := mkPatientProfile {
  pp_profile_id : string;
  pp_hospital_id : option string;
  pp_cnic : string;
  pp_created_by : option string;
  pp_created_at : string
}.

#[global] Instance Profile_eq_dec : EqDecision Profile.
Proof. solve_decision. Defined.
#[global] Instance Hospital_eq_dec : EqDecision Hospital.
Proof. solve_decision. Defined.
#[global] Instance DoctorProfile_eq_dec : EqDecision DoctorProfile.
Proof. solve_decision. Defined.
#[global] Instance DoctorAssistantProfile_eq_dec : EqDecision DoctorAssistantProfile.
Proof. solve_decision. Defined.
#[global] Instance PatientProfile_eq_dec : EqDecision PatientProfile.
Proof. solve_decision. Defined.

Record Store := mkStore {
  profiles : gmap string Profile;
  hospitals : gmap string Hospital;
  doctor_profiles : list DoctorProfile;
  doctor_assistant_profiles : list DoctorAssistantProfile;
  patient_profiles : list PatientProfile
}.

(** An account of the identity provider, as [supabase.auth.getUser]
    returns it. *)
Record UserMetadata := mkMeta {
  meta_role : option string;
  meta_full_name : option string;
  meta_phone : option string;
  meta_gender : option string;
  meta_dob : option string
}.

Record User := mkUser {
  user_id : string;
  user_email : option string;
  user_metadata : option UserMetadata
}.

(** ** The environment of one request *)

(** The call sites at which a handler talks to the store. *)
Inductive Call :=
  | ReadCallerProfile
  | ReadAssistantLink | ReadPatientProfiles | ReadProfile | ReadHospitals
  | ReadDoctorProfile
  | UpdateProfile | UpdatePatientLink | UpdateDoctorProfile
  | UpdateAssistantLink | UpdateHospitals
  | InsertProfile | InsertPatientProfile | InsertAssistantLink.

Record Env := mkEnv {
  (** does the store answer this call with an [error]? *)
  fails : Call → bool;
  (** the key the database generates for a row inserted without [id] *)
  gen_id : string;
  (** the default of [created_at] for a row inserted now *)
  now : string;
  (** [supabase.auth.getUser(token)]: the account, or the provider's
      error with its optional message *)
  getUser : string → User + option string;
  (** the answer of [supabase.auth.admin.createUser]: the id of the new
      account, or the provider's error with its optional message *)
  createUser : string + option string
}.

(** ** Responses *)

Inductive PatientStatus := created | already_exists | linked.

Record PatientJson := mkPatientJson {
  pj_id : string;
  pj_full_name : option string;
  pj_phone : option string;
  pj_gender : option string;
  pj_dob : option string;
  pj_cnic : string;
  pj_created_at : string
}.

Record AssistantJson := mkAssistantJson {
  aj_id : string;
  aj_full_name : string;
  aj_email : string;
  aj_phone : option string;
  aj_approval_status : ApprovalStatus
}.

Inductive Body :=
  | ErrorBody (error : string)
  | SuccessBody
  | PatientBody (st : PatientStatus) (p : PatientJson)
  | ProfileBody (u : User) (id : string) (p : Profile)
  | AssistantBody (a : AssistantJson)
  | NotFoundBody
  | FoundBody (id : string) (p : Profile) (cnic : string)
      (hospitals : list (string * string)).

Record Response := mkResponse { code : nat; body : Body }.

Definition json (b : Body) : Response := mkResponse 200 b.
Definition fail (c : nat) (msg : string) : Response := mkResponse c (ErrorBody msg).

(** ** Queries on the store *)

Module Db.

(** [.single()]: the result has exactly one row, otherwise the call
    returns an error (PGRST116). *)
Definition single {A} (rows : list A) : option A :=
  match rows with
  | [r] => Some r
  | _ => None
  end.

Definition with_profiles (m : gmap string Profile) (st : Store) : Store :=
  mkStore m (hospitals st) (doctor_profiles st)
    (doctor_assistant_profiles st) (patient_profiles st).

Definition with_hospitals (m : gmap string Hospital) (st : Store) : Store :=
  mkStore (profiles st) m (doctor_profiles st)
    (doctor_assistant_profiles st) (patient_profiles st).

Definition with_doctor_profiles (l : list DoctorProfile) (st : Store) : Store :=
  mkStore (profiles st) (hospitals st) l
    (doctor_assistant_profiles st) (patient_profiles st).

Definition with_assistant_links (l : list DoctorAssistantProfile) (st : Store) : Store :=
  mkStore (profiles st) (hospitals st) (doctor_profiles st) l (patient_profiles st).

Definition with_patient_profiles (l : list PatientProfile) (st : Store) : Store :=
  mkStore (profiles st) (hospitals st) (doctor_profiles st)
    (doctor_assistant_profiles st) l.

(** The columns an [update] of [profiles] sets; [None] leaves the
    column as it is. *)
Record ProfilePatch := mkPatch {
  set_full_name : option string;
  set_phone : option string;
  set_gender : option string;
  set_dob : option string;
  set_approval_status : option ApprovalStatus
}.

(** [Object.keys(payload).length > 0] *)
Definition patch_is_empty (p : ProfilePatch) : bool :=
  match p with
  | mkPatch None None None None None => true
  | _ => false
  end.

Definition apply_patch (p : ProfilePatch) (r : Profile) : Profile :=
  mkProfile
    (match set_full_name p with Some v => Some v | None => full_name r end)
    (match set_phone p with Some v => Some v | None => phone r end)
    (match set_gender p with Some v => Some v | None => gender r end)
    (match set_dob p with Some v => Some v | None => dob r end)
    (role r)
    (match set_approval_status p with Some v => v | None => approval_status r end).

(** [from("profiles").update(p).eq("id", id)] *)
Definition update_profile (id : string) (p : ProfilePatch) (st : Store) : Store :=
  with_profiles (alter (apply_patch p) id (profiles st)) st.

Definition approval (s : ApprovalStatus) : ProfilePatch :=
  mkPatch None None None None (Some s).

(** [from("profiles").insert(row)] with key [id]: refused when the key
    is taken. *)
Definition insert_profile (id : string) (r : Profile) (st : Store) : option Store :=
  match profiles st !! id with
  | Some _ => None
  | None => Some (with_profiles (<[id := r]> (profiles st)) st)
  end.

(** [from("hospitals").update({status}).eq("admin_profile_id", id)] *)
Definition set_hospital_status (s : ApprovalStatus) (h : Hospital) : Hospital :=
  mkHospital (h_name h) (h_address h) (hospital_type h) (admin_profile_id h) s.

Definition update_hospitals_of_admin (id : string) (s : ApprovalStatus)
    (st : Store) : Store :=
  with_hospitals
    ((λ h, if decide (admin_profile_id h = Some id)
           then set_hospital_status s h else h) <$> hospitals st) st.

(** [from("doctor_profiles").update({approval_status}).eq("profile_id", id)] *)
Definition set_doctor_status (s : ApprovalStatus) (d : DoctorProfile) : DoctorProfile :=
  mkDoctorProfile (dp_profile_id d) (dp_specialization d) (dp_hospital_id d)
    (dp_license_number d) (dp_cnic d) s.

Definition update_doctor_profile (id : string) (s : ApprovalStatus)
    (st : Store) : Store :=
  with_doctor_profiles
    ((λ d, if decide (dp_profile_id d = id) then set_doctor_status s d else d)
       <$> doctor_profiles st) st.

(** [from("doctor_assistant_profiles").update({approval_status}).eq("profile_id", id)] *)
Definition set_assistant_status (s : ApprovalStatus)
    (a : DoctorAssistantProfile) : DoctorAssistantProfile :=
  mkAssistantLink (da_profile_id a) (da_doctor_profile_id a) (da_hospital_id a) s.

Definition update_assistant_link (id : string) (s : ApprovalStatus)
    (st : Store) : Store :=
  with_assistant_links
    ((λ a, if decide (da_profile_id a = id) then set_assistant_status s a else a)
       <$> doctor_assistant_profiles st) st.

(** [from("patient_profiles").update({hospital_id, created_by})
      .eq("profile_id", pid).eq("cnic", cnic)] *)
Definition rehome (hospitalId by_ : string) (r : PatientProfile) : PatientProfile :=
  mkPatientProfile (pp_profile_id r) (Some hospitalId) (pp_cnic r) (Some by_)
    (pp_created_at r).

Definition update_patient_link (pid cnic hospitalId by_ : string)
    (st : Store) : Store :=
  with_patient_profiles
    ((λ r, if decide (pp_profile_id r = pid ∧ pp_cnic r = cnic)
           then rehome hospitalId by_ r else r) <$> patient_profiles st) st.

(** [from("patient_profiles").select(...).eq("cnic", cnic)] *)
Definition patients_by_cnic (cnic : string) (st : Store) : list PatientProfile :=
  filter (λ r, pp_cnic r = cnic) (patient_profiles st).

(** [from("doctor_assistant_profiles").select(...).eq("profile_id", id)] *)
Definition assistant_links_of (id : string) (st : Store) : list DoctorAssistantProfile :=
  filter (λ r, da_profile_id r = id) (doctor_assistant_profiles st).

(** [from("doctor_profiles").select(...).eq("profile_id", id)] *)
Definition doctor_profiles_of (id : string) (st : Store) : list DoctorProfile :=
  filter (λ r, dp_profile_id r = id) (doctor_profiles st).

End Db.

(** ** The assistant router: POST /api/assistant/patients *)

Module Assistant.

Record PatientRequest := mkPatientRequest {
  req_fullName : option string;
  req_cnic : option string;
  req_phone : option string;
  req_gender : option string;
  req_dob : option string
}.

Definition normalize (s : string) : string :=
  Js.toLowerCase (Js.collapse_spaces (Js.trim s)).

Definition msg_required := "fullName and cnic are required fields".
Definition msg_not_linked :=
  "Assistant is not properly linked to a hospital. Please contact admin.".
Definition msg_check_failed := "Failed to check existing patients".
Definition msg_load_failed := "Failed to load existing patient information".
Definition msg_name_mismatch :=
  "A patient with this CNIC already exists, but the name does not match. Please verify the CNIC with the patient or contact admin.".
Definition msg_link_failed :=
  "Existing patient found, but failed to link to this hospital. Please try again.".
Definition msg_create_failed := "Failed to create new patient profile".
Definition msg_created_not_linked :=
  "Patient profile created, but failed to link it to this hospital.".

(** Step 1: the hospital of the calling assistant; [None] when the
    read fails, is not a single row, or the row has no hospital. *)
Definition assistant_hospital (env : Env) (assistantProfileId : string)
    (st : Store) : option string :=
  if fails env ReadAssistantLink then None
  else match Db.single (Db.assistant_links_of assistantProfileId st) with
       | Some link => Js.truthy (da_hospital_id link)
       | None => None
       end.

(** The optional update of the demographic columns. *)
Definition changed (submitted stored : option string) : option string :=
  match Js.truthy submitted with
  | Some v => if decide (stored = Some v) then None else Some v
  | None => None
  end.

Definition updatePayload (existingProfile : Profile) (fullName : string)
    (b : PatientRequest) : Db.ProfilePatch :=
  Db.mkPatch
    (match Js.truthy (full_name existingProfile) with
     | None => Some fullName
     | Some n => if decide (normalize n = normalize fullName)
                 then None else Some fullName
     end)
    (changed (req_phone b) (phone existingProfile))
    (changed (req_gender b) (gender existingProfile))
    (changed (req_dob b) (dob existingProfile))
    None.

Definition refresh (env : Env) (id : string) (p : Db.ProfilePatch)
    (st : Store) : Store :=
  if Db.patch_is_empty p then st
  else if fails env UpdateProfile then st
  else Db.update_profile id p st.

Definition patient_json (id fullName cnic created_at : string)
    (b : PatientRequest) (existingProfile : Profile) : PatientJson :=
  mkPatientJson id (Some fullName)
    (Js.nullish (req_phone b) (phone existingProfile))
    (Js.nullish (req_gender b) (gender existingProfile))
    (Js.nullish (req_dob b) (dob existingProfile))
    cnic created_at.

(** CASE A: rows with this CNIC exist; [targetRow] is the first one. *)
Definition case_A (env : Env) (assistantProfileId hospitalId fullName cnic : string)
    (b : PatientRequest) (targetRow : PatientProfile)
    (existingPatientProfiles : list PatientProfile)
    (st : Store) : Response * Store :=
  let existingProfileId := pp_profile_id targetRow in
  if fails env ReadProfile then (fail 500 msg_load_failed, st)
  else match profiles st !! existingProfileId with
  | None => (fail 500 msg_load_failed, st)
  | Some existingProfile =>
    if match Js.truthy (full_name existingProfile) with
       | Some n => bool_decide (normalize n ≠ normalize fullName)
       | None => false
       end
    then (fail 400 msg_name_mismatch, st)
    else
      let alreadyInThisHospital :=
        List.find (λ p, bool_decide (pp_hospital_id p = Some hospitalId))
          existingPatientProfiles in
      let st1 :=
        refresh env existingProfileId
          (updatePayload existingProfile fullName b) st in
      match alreadyInThisHospital with
      | Some row =>
          (json (PatientBody already_exists
                   (patient_json existingProfileId fullName cnic
                      (pp_created_at row) b existingProfile)), st1)
      | None =>
          if fails env UpdatePatientLink then (fail 500 msg_link_failed, st1)
          else
            (json (PatientBody linked
                     (patient_json existingProfileId fullName cnic
                        (pp_created_at targetRow) b existingProfile)),
             Db.update_patient_link (pp_profile_id targetRow) cnic
               hospitalId assistantProfileId st1)
      end
  end.

(** CASE B: no row with this CNIC; create the patient. *)
Definition case_B (env : Env) (assistantProfileId hospitalId fullName cnic : string)
    (b : PatientRequest) (st : Store) : Response * Store :=
  let newProfile :=
    mkProfile (Some fullName) (req_phone b) (req_gender b) (req_dob b)
      patient approved in
  if fails env InsertProfile then (fail 500 msg_create_failed, st)
  else match Db.insert_profile (gen_id env) newProfile st with
  | None => (fail 500 msg_create_failed, st)
  | Some st1 =>
    if fails env InsertPatientProfile
    then (fail 500 msg_created_not_linked, st1)
    else
      let newPatientProfile :=
        mkPatientProfile (gen_id env) (Some hospitalId) cnic
          (Some assistantProfileId) (now env) in
      (mkResponse 201
         (PatientBody created
            (mkPatientJson (gen_id env) (full_name newProfile)
               (phone newProfile) (gender newProfile) (dob newProfile)
               cnic (pp_created_at newPatientProfile))),
       Db.with_patient_profiles (patient_profiles st1 ++ [newPatientProfile]) st1)
  end.

(** The handler; [profile] is [req.profile], set by the middleware. *)
Definition post_patients (env : Env) (profile : option (string * Profile))
    (b : PatientRequest) (st : Store) : Response * Store :=
  match Js.truthy (req_fullName b), Js.truthy (req_cnic b) with
  | Some fullName, Some cnic =>
    match profile with
    | None => (fail 401 "Unauthorized", st)
    | Some (assistantProfileId, _) =>
      match assistant_hospital env assistantProfileId st with
      | None => (fail 400 msg_not_linked, st)
      | Some hospitalId =>
        if fails env ReadPatientProfiles then (fail 500 msg_check_failed, st)
        else match Db.patients_by_cnic cnic st with
             | targetRow :: rest =>
                 case_A env assistantProfileId hospitalId fullName cnic b
                   targetRow (targetRow :: rest) st
             | [] =>
                 case_B env assistantProfileId hospitalId fullName cnic b st
             end
      end
    end
  | _, _ => (fail 400 msg_required, st)
  end.

End Assistant.

(** ** The auth middleware (middleware/auth.ts) *)

Module Middleware.

Record Request := mkRequest {
  authorization : option string;
  user : option User;
  profile : option (string * Profile)
}.

(** The token of a header that starts with [Bearer ]:
    [authHeader.split(" ")[1]]. *)
Definition bearer (authHeader : option string) : option string :=
  match authHeader with
  | Some h =>
      if Js.startsWith "Bearer " h
      then Some (default "" (Js.split_space h !! 1%nat))
      else None
  | None => None
  end.

Definition msg_missing_token := "Missing or invalid token".
Definition msg_invalid_token := "Invalid token".
Definition msg_no_profile := "Profile not found".
Definition msg_forbidden := "Forbidden".
Definition msg_pending := "Account is pending approval. Please wait.".

(** Attaches [req.user] and [req.profile], or answers itself. *)
Definition authMiddleware (env : Env) (req : Request) (st : Store)
    : Request + Response :=
  match bearer (authorization req) with
  | None => inr (fail 401 msg_missing_token)
  | Some token =>
    match getUser env token with
    | inr message => inr (fail 401 (default msg_invalid_token (Js.truthy message)))
    | inl u =>
      if fails env ReadCallerProfile then inr (fail 403 msg_no_profile)
      else match profiles st !! user_id u with
           | None => inr (fail 403 msg_no_profile)
           | Some p =>
               inl (mkRequest (authorization req) (Some u) (Some (user_id u, p)))
           end
    end
  end.

(** [None] stands for [next()]. *)
Definition requireRole (roles : list Role) (req : Request) : option Response :=
  match profile req with
  | None => Some (fail 403 msg_forbidden)
  | Some (_, p) =>
      if bool_decide (role p ∈ roles) then None
      else Some (fail 403 msg_forbidden)
  end.

Definition requireApprovedRole (roles : list Role) (req : Request)
    : option Response :=
  match profile req with
  | None => Some (fail 403 msg_forbidden)
  | Some (_, p) =>
      if bool_decide (role p ∈ roles)
      then (if bool_decide (approval_status p ≠ approved)
            then Some (fail 403 msg_pending) else None)
      else Some (fail 403 msg_forbidden)
  end.

(** [router.use(authMiddleware, guard)] in front of a handler. *)
Definition use (env : Env) (guard : Request → option Response)
    (handler : Request → Store → Response * Store)
    (req : Request) (st : Store) : Response * Store :=
  match authMiddleware env req st with
  | inr r => (r, st)
  | inl req' =>
      match guard req' with
      | Some r => (r, st)
      | None => handler req' st
      end
  end.

End Middleware.

(** ** The assistant router: GET /api/assistant/patients/search *)

Module AssistantSearch.

(** [Array.from(new Set(ids))]: first occurrences, in order. *)
Fixpoint unique (seen : list string) (ids : list string) : list string :=
  match ids with
  | [] => []
  | i :: r =>
      if bool_decide (i ∈ seen) then unique seen r
      else i :: unique (i :: seen) r
  end.

Definition get_patients_search (env : Env) (query_cnic : option string)
    (st : Store) : Response * Store :=
  match Js.truthy (Js.trim <$> query_cnic) with
  | None => (fail 400 "cnic query parameter is required", st)
  | Some cnic =>
    if fails env ReadPatientProfiles then (fail 500 "Failed to search patient", st)
    else match Db.patients_by_cnic cnic st with
    | [] => (json NotFoundBody, st)
    | first :: rest =>
      if fails env ReadProfile
      then (fail 500 "Failed to load patient information", st)
      else match profiles st !! pp_profile_id first with
      | None => (fail 500 "Failed to load patient information", st)
      | Some p =>
        let hospitalIds :=
          unique [] (omap (λ r, Js.truthy (pp_hospital_id r)) (first :: rest)) in
        let hospitalRows :=
          match hospitalIds with
          | [] => []
          | _ =>
            if fails env ReadHospitals then []
            else (λ kv, (kv.1, h_name kv.2)) <$>
                 filter (λ kv, kv.1 ∈ hospitalIds) (map_to_list (hospitals st))
          end in
        (json (FoundBody (pp_profile_id first) p cnic hospitalRows), st)
      end
    end
  end.

End AssistantSearch.

(** ** The doctor router: POST /api/doctor/assistants *)

Module Doctor.

Record AssistantRequest := mkAssistantRequest {
  req_fullName : option string;
  req_email : option string;
  req_phone : option string;
  req_password : option string
}.

Definition msg_required := "fullName, email and password are required".
Definition msg_no_doctor_profile := "Doctor profile not found. Please complete setup.".
Definition msg_create_user_failed := "Failed to create assistant user".
Definition msg_profile_failed := "Assistant user created but failed to create profile".
Definition msg_link_failed :=
  "Assistant user created but failed to link to doctor. Contact support.".

(** POST /assistants with everything it leaves behind: the response,
    the tables after the call, and the account that
    [supabase.auth.admin.createUser] has added at the identity provider.
    The accounts of the provider are not a table of [Store]; the account
    is created before the first insert and no later step of the handler
    removes it, so it stays when an insert fails. *)
Definition post_assistants_run (env : Env) (profile : option (string * Profile))
    (b : AssistantRequest) (st : Store) : Response * Store * option string :=
  match Js.truthy (req_fullName b), Js.truthy (req_email b),
        Js.truthy (req_password b) with
  | Some fullName, Some email, Some _ =>
    match profile with
    | None => (fail 401 "Unauthorized", st, None)
    | Some (doctorProfileId, _) =>
      match (if fails env ReadDoctorProfile then None
             else Db.single (Db.doctor_profiles_of doctorProfileId st)) with
      | None => (fail 400 msg_no_doctor_profile, st, None)
      | Some doctorProfile =>
        match createUser env with
        | inr message =>
            (fail 400 (default msg_create_user_failed (Js.truthy message)), st,
             None)
        | inl assistantId =>
          if fails env InsertProfile
          then (fail 500 msg_profile_failed, st, Some assistantId)
          else match Db.insert_profile assistantId
                       (mkProfile (Some fullName) (req_phone b) None None
                          doctor_assistant pending) st with
          | None => (fail 500 msg_profile_failed, st, Some assistantId)
          | Some st1 =>
            if fails env InsertAssistantLink
            then (fail 500 msg_link_failed, st1, Some assistantId)
            else
              (mkResponse 201
                 (AssistantBody
                    (mkAssistantJson assistantId fullName email (req_phone b)
                       pending)),
               Db.with_assistant_links
                 (doctor_assistant_profiles st1 ++
                  [mkAssistantLink assistantId (Some doctorProfileId)
                     (dp_hospital_id doctorProfile) pending]) st1,
               Some assistantId)
          end
        end
      end
    end
  | _, _, _ => (fail 400 msg_required, st, None)
  end.

(** The response and the tables after POST /assistants. *)
Definition post_assistants (env : Env) (profile : option (string * Profile))
    (b : AssistantRequest) (st : Store) : Response * Store :=
  (post_assistants_run env profile b st).1.


End Doctor.

(** ** The hospital-admin router: approve and reject doctors and assistants *)

Module HospitalAdmin.

Definition msg_doctor_failed := "Failed to update doctor profile".
Definition msg_doctor_approved_partial := "Doctor approved but profile update failed".
Definition msg_doctor_rejected_partial := "Doctor rejected but profile update failed".
Definition msg_assistant_failed := "Failed to update assistant link".
Definition msg_assistant_approved_partial :=
  "Assistant approved but profile update failed".
Definition msg_assistant_rejected_partial :=
  "Assistant rejected but profile update failed".

(** POST /doctors/:profileId/approve. The handler reads only
    [req.params.profileId]; [req] is the request the middleware passed. *)
Definition approve_doctor (env : Env) (req : Middleware.Request)
    (profileId : string) (st : Store) : Response * Store :=
  if fails env UpdateDoctorProfile then (fail 500 msg_doctor_failed, st)
  else
    let st1 := Db.update_doctor_profile profileId approved st in
    if fails env UpdateProfile then (fail 500 msg_doctor_approved_partial, st1)
    else (json SuccessBody, Db.update_profile profileId (Db.approval approved) st1).

(** POST /doctors/:profileId/reject *)
Definition reject_doctor (env : Env) (req : Middleware.Request)
    (profileId : string) (st : Store) : Response * Store :=
  if fails env UpdateDoctorProfile then (fail 500 msg_doctor_failed, st)
  else
    let st1 := Db.update_doctor_profile profileId rejected st in
    if fails env UpdateProfile then (fail 500 msg_doctor_rejected_partial, st1)
    else (json SuccessBody, Db.update_profile profileId (Db.approval rejected) st1).

(** POST /assistants/:profileId/approve *)
Definition approve_assistant (env : Env) (req : Middleware.Request)
    (profileId : string) (st : Store) : Response * Store :=
  if fails env UpdateAssistantLink then (fail 500 msg_assistant_failed, st)
  else
    let st1 := Db.update_assistant_link profileId approved st in
    if fails env UpdateProfile then (fail 500 msg_assistant_approved_partial, st1)
    else (json SuccessBody, Db.update_profile profileId (Db.approval approved) st1).

(** POST /assistants/:profileId/reject *)
Definition reject_assistant (env : Env) (req : Middleware.Request)
    (profileId : string) (st : Store) : Response * Store :=
  if fails env UpdateAssistantLink then (fail 500 msg_assistant_failed, st)
  else
    let st1 := Db.update_assistant_link profileId rejected st in
    if fails env UpdateProfile then (fail 500 msg_assistant_rejected_partial, st1)
    else (json SuccessBody, Db.update_profile profileId (Db.approval rejected) st1).

(** The four coupled operations, for statements about all of them. *)
Inductive Coupled := DoctorApprove | DoctorReject | AssistantApprove | AssistantReject.

Definition run (op : Coupled) :=
  match op with
  | DoctorApprove => approve_doctor
  | DoctorReject => reject_doctor
  | AssistantApprove => approve_assistant
  | AssistantReject => reject_assistant
  end.

Definition target (op : Coupled) : ApprovalStatus :=
  match op with
  | DoctorApprove | AssistantApprove => approved
  | DoctorReject | AssistantReject => rejected
  end.

(** The first write of the operation, on the role-specific table. *)
Definition first_call (op : Coupled) : Call :=
  match op with
  | DoctorApprove | DoctorReject => UpdateDoctorProfile
  | AssistantApprove | AssistantReject => UpdateAssistantLink
  end.

Definition first_write (op : Coupled) (profileId : string) (st : Store) : Store :=
  match op with
  | DoctorApprove | DoctorReject => Db.update_doctor_profile profileId (target op) st
  | AssistantApprove | AssistantReject =>
      Db.update_assistant_link profileId (target op) st
  end.

Definition msg_failed (op : Coupled) : string :=
  match op with
  | DoctorApprove | DoctorReject => msg_doctor_failed
  | AssistantApprove | AssistantReject => msg_assistant_failed
  end.

Definition msg_partial (op : Coupled) : string :=
  match op with
  | DoctorApprove => msg_doctor_approved_partial
  | DoctorReject => msg_doctor_rejected_partial
  | AssistantApprove => msg_assistant_approved_partial
  | AssistantReject => msg_assistant_rejected_partial
  end.

(** The hospitals a hospital admin owns, as GET /pending-doctors and
    GET /pending-assistants resolve them:
    [from("hospitals").eq("admin_profile_id", adminProfileId)]. *)
Definition hospitals_of_admin (adminProfileId : string) (st : Store) : list string :=
  (map_to_list (filter (λ kv, admin_profile_id kv.2 = Some adminProfileId)
                  (hospitals st))).*1.

End HospitalAdmin.

(** ** The super-admin router: approve and reject hospital admins *)

Module SuperAdmin.

Definition msg_profile_failed := "Failed to update profile".
Definition msg_rejected_partial := "Profile rejected but hospital update failed".

(** POST /hospital-admins/:profileId/approve *)
Definition approve_hospital_admin (env : Env) (profileId : string)
    (st : Store) : Response * Store :=
  if fails env UpdateProfile then (fail 500 msg_profile_failed, st)
  else (json SuccessBody, Db.update_profile profileId (Db.approval approved) st).

(** POST /hospital-admins/:profileId/reject *)
Definition reject_hospital_admin (env : Env) (profileId : string)
    (st : Store) : Response * Store :=
  if fails env UpdateProfile then (fail 500 msg_profile_failed, st)
  else
    let st1 := Db.update_profile profileId (Db.approval rejected) st in
    if fails env UpdateHospitals then (fail 500 msg_rejected_partial, st1)
    else (json SuccessBody, Db.update_hospitals_of_admin profileId rejected st1).

End SuperAdmin.

(** ** The profile router: GET /api/profile/me *)

(** The handler that checks the token itself and provisions a profile
    for an account that has none. *)
Module ProfileRoute.

Definition msg_create_failed := "Failed to create profile".

Definition meta (u : User) (f : UserMetadata → option string) : option string :=
  user_metadata u ≫= f.

(** [(user.user_metadata?.role as string) || "doctor"] *)
Definition inferredRole (u : User) : string :=
  default "doctor" (Js.truthy (meta u meta_role)).

(** The row the handler inserts, once the database has accepted the
    text of the role as a value of its enum. *)
Definition new_profile (u : User) (r : Role) : Profile :=
  mkProfile (Js.or_else (meta u meta_full_name) (user_email u))
    (Js.truthy (meta u meta_phone))
    (Js.truthy (meta u meta_gender))
    (Js.truthy (meta u meta_dob))
    r pending.

Definition auto_create (env : Env) (u : User) (roleText : string)
    (st : Store) : Response * Store :=
  if fails env InsertProfile then (fail 500 msg_create_failed, st)
  else match role_of_string roleText with
  | None => (fail 500 msg_create_failed, st)
  | Some r =>
    match Db.insert_profile (user_id u) (new_profile u r) st with
    | None => (fail 500 msg_create_failed, st)
    | Some st1 => (json (ProfileBody u (user_id u) (new_profile u r)), st1)
    end
  end.

Definition get_me (env : Env) (authHeader : option string) (st : Store)
    : Response * Store :=
  match Middleware.bearer authHeader with
  | None => (fail 401 Middleware.msg_missing_token, st)
  | Some token =>
    match getUser env token with
    | inr message =>
        (fail 401 (default Middleware.msg_invalid_token (Js.truthy message)), st)
    | inl u =>
      match (if fails env ReadProfile then None else profiles st !! user_id u) with
      | Some p => (json (ProfileBody u (user_id u) p), st)
      | None => auto_create env u (inferredRole u) st
      end
    end
  end.

End ProfileRoute.

(** The variant of the route (routes/profile.route.ts) that is mounted
    behind [authMiddleware] and falls back to [patient]. *)
Module ProfileRouteGuarded.

(** [allowedRoles.includes(metaRole) ? metaRole : "patient"] *)
Definition inferredRole (u : User) : Role :=
  default patient
    (role_of_string (default "" (Js.truthy (ProfileRoute.meta u meta_role)))).

Definition handler (env : Env) (req : Middleware.Request) (st : Store)
    : Response * Store :=
  match Middleware.user req with
  | None => (fail 401 "Unauthorized", st)
  | Some u =>
    match Middleware.profile req with
    | Some (id, p) => (json (ProfileBody u id p), st)
    | None =>
        ProfileRoute.auto_create env u (role_name (inferredRole u)) st
    end
  end.

Definition get_me (env : Env) (req : Middleware.Request) (st : Store)
    : Response * Store :=
  match Middleware.authMiddleware env req st with
  | inr r => (r, st)
  | inl req' => handler env req' st
  end.

End ProfileRouteGuarded.

(** ** The routers: middleware in front of the handlers *)

Module Routers.
Import Middleware.

(** [router.use(authMiddleware, requireRole("doctor_assistant"))] *)
Definition assistant_post_patients (env : Env) (req : Request)
    (b : Assistant.PatientRequest) (st : Store) : Response * Store :=
  use env (requireRole [doctor_assistant])
    (λ r, Assistant.post_patients env (profile r) b) req st.

Definition assistant_get_patients_search (env : Env) (req : Request)
    (query_cnic : option string) (st : Store) : Response * Store :=
  use env (requireRole [doctor_assistant])
    (λ _, AssistantSearch.get_patients_search env query_cnic) req st.

(** [router.use(authMiddleware, requireRole("doctor"))] *)
Definition doctor_post_assistants (env : Env) (req : Request)
    (b : Doctor.AssistantRequest) (st : Store) : Response * Store :=
  use env (requireRole [doctor])
    (λ r, Doctor.post_assistants env (profile r) b) req st.

(** [router.use(authMiddleware, requireApprovedRole("hospital_admin"))] *)
Definition hospital_admin (env : Env) (op : HospitalAdmin.Coupled)
    (req : Request) (profileId : string) (st : Store) : Response * Store :=
  use env (requireApprovedRole [hospital_admin])
    (λ r, HospitalAdmin.run op env r profileId) req st.

(** [router.use(authMiddleware, requireRole("super_admin"))] *)
Definition superadmin_approve_hospital_admin (env : Env) (req : Request)
    (profileId : string) (st : Store) : Response * Store :=
  use env (requireRole [super_admin])
    (λ _, SuperAdmin.approve_hospital_admin env profileId) req st.

Definition superadmin_reject_hospital_admin (env : Env) (req : Request)
    (profileId : string) (st : Store) : Response * Store :=
  use env (requireRole [super_admin])
    (λ _, SuperAdmin.reject_hospital_admin env profileId) req st.

End Routers.

(** ** Sample data *)

Module Sample.

Definition env_ok : Env :=
  mkEnv (λ _, false) "p-100" "2025-01-01T00:00:00Z"
    (λ _, inr None) (inr None).

Definition assistant_row : Profile :=
  mkProfile (Some "Asma") None None None doctor_assistant pending.

Definition links : list DoctorAssistantProfile :=
  [mkAssistantLink "a1" (Some "d1") (Some "H1") approved;
   mkAssistantLink "a2" (Some "d2") (Some "H2") pending].

(** No patient yet; two assistants, of hospitals H1 and H2. *)
Definition st_empty : Store :=
  mkStore {[ "a1" := assistant_row; "a2" := assistant_row ]} ∅ [] links [].

Definition ali : Profile :=
  mkProfile (Some "Ali Khan") None None None patient approved.

Definition ali_row : PatientProfile :=
  mkPatientProfile "p-100" (Some "H1") "12345-1234567-1" (Some "a1")
    "2025-01-01T00:00:00Z".

(** "Ali Khan" is registered under H1 with CNIC 12345-1234567-1. *)
Definition st_ali : Store :=
  mkStore {[ "a1" := assistant_row; "a2" := assistant_row; "p-100" := ali ]}
    ∅ [] links [ali_row].

Definition submit (name : string) : Assistant.PatientRequest :=
  Assistant.mkPatientRequest (Some name) (Some "12345-1234567-1") None None None.

Definition ali_json : PatientJson :=
  mkPatientJson "p-100" (Some "Ali Khan") None None None "12345-1234567-1"
    "2025-01-01T00:00:00Z".

(** Two hospitals with their admins; a doctor and an assistant of H2,
    both pending. *)
Definition admin_row : Profile :=
  mkProfile (Some "Admin") None None None hospital_admin approved.

Definition doc2_row : DoctorProfile :=
  mkDoctorProfile "doc2" "Cardiology" (Some "H2") "L-2" "35202-0000000-2" pending.

Definition as2_row : DoctorAssistantProfile :=
  mkAssistantLink "as2" (Some "doc2") (Some "H2") pending.

Definition st_scope : Store :=
  mkStore
    {[ "adm1" := admin_row; "adm2" := admin_row;
       "doc2" := mkProfile (Some "Dr Two") None None None doctor pending;
       "as2" := mkProfile (Some "Asma") None None None doctor_assistant pending ]}
    {[ "H1" := mkHospital "One" "Street 1" "private" (Some "adm1") approved;
       "H2" := mkHospital "Two" "Street 2" "public" (Some "adm2") pending ]}
    [doc2_row] [as2_row] [].

Definition account (id : string) : User := mkUser id None None.

(** The identity provider knows the token [t-<id>] of each account. *)
Definition env_tokens : Env :=
  mkEnv (λ _, false) "p-100" "2025-01-01T00:00:00Z"
    (λ token,
       if decide (token = "t-adm1") then inl (account "adm1")
       else if decide (token = "t-doc2") then inl (account "doc2")
       else if decide (token = "t-as2") then inl (account "as2")
       else if decide (token = "t-new") then inl (account "u-1")
       else inr None)
    (inl "as3").

Definition request (token : string) : Middleware.Request :=
  Middleware.mkRequest (Some ("Bearer " +:+ token)) None None.

End Sample.

(** ** The super-admin router: hospitals and users *)

Module SuperAdminHospitals.

Definition msg_approve_failed := "Failed to approve hospital".
Definition msg_reject_failed := "Failed to reject hospital".

(** [from("hospitals").update({status}).eq("id", hospitalId)] *)
Definition update_hospital (hospitalId : string) (s : ApprovalStatus)
    (st : Store) : Store :=
  Db.with_hospitals (alter (Db.set_hospital_status s) hospitalId (hospitals st)) st.

(** POST /hospitals/:hospitalId/approve *)
Definition approve_hospital (env : Env) (hospitalId : string) (st : Store)
    : Response * Store :=
  if fails env UpdateHospitals then (fail 500 msg_approve_failed, st)
  else (json SuccessBody, update_hospital hospitalId approved st).

(** POST /hospitals/:hospitalId/reject *)
Definition reject_hospital (env : Env) (hospitalId : string) (st : Store)
    : Response * Store :=
  if fails env UpdateHospitals then (fail 500 msg_reject_failed, st)
  else (json SuccessBody, update_hospital hospitalId rejected st).

End SuperAdminHospitals.

Module SuperAdminUsers.

Definition msg_nothing := "Nothing to update (role or approval_status required)".
Definition msg_update_failed := "Failed to update user profile".

(** The [approval_status] enum of the database, as text. *)
Definition status_name (s : ApprovalStatus) : string :=
  match s with
  | pending => "pending"
  | approved => "approved"
  | rejected => "rejected"
  end.

Definition status_of_string (s : string) : option ApprovalStatus :=
  List.find (λ a, bool_decide (status_name a = s)) [pending; approved; rejected].

(** The columns of the [update] object: a key is present when the body
    field is truthy. The database refuses a text that is not a value of
    the column's enum. *)
Definition parse_column {A} (parse : string → option A) (v : option string)
    : option (option A) :=
  match Js.truthy v with
  | None => Some None
  | Some text => match parse text with
                 | Some a => Some (Some a)
                 | None => None
                 end
  end.

Definition apply_update (r : option Role) (a : option ApprovalStatus)
    (p : Profile) : Profile :=
  mkProfile (full_name p) (phone p) (gender p) (dob p)
    (default (role p) r) (default (approval_status p) a).

(** PATCH /users/:userId (the handler registered first for this path) *)
Definition patch_user (env : Env) (userId : string)
    (body_role body_approval_status : option string) (st : Store)
    : Response * Store :=
  match Js.truthy body_role, Js.truthy body_approval_status with
  | None, None => (fail 400 msg_nothing, st)
  | _, _ =>
    if fails env UpdateProfile then (fail 500 msg_update_failed, st)
    else match parse_column role_of_string body_role,
               parse_column status_of_string body_approval_status with
         | Some r, Some a =>
             (json SuccessBody,
              Db.with_profiles (alter (apply_update r a) userId (profiles st)) st)
         | _, _ => (fail 500 msg_update_failed, st)
         end
  end.

End SuperAdminUsers.

(** ** The hospital-admin router: pending doctors and assistants *)

Module HospitalAdminLists.

Record DoctorItem := mkDoctorItem {
  di_profile_id : string;
  di_full_name : string;
  di_phone : option string;
  di_specialization : string;
  di_license_number : string;
  di_cnic : string;
  di_approval_status : ApprovalStatus;
  di_hospital : option (string * Hospital)
}.

Record AssistantItem := mkAssistantItem {
  ai_profile_id : string;
  ai_full_name : string;
  ai_phone : option string;
  ai_approval_status : ApprovalStatus;
  ai_doctor : option (string * option string);
  ai_hospital : option (string * string)
}.

Inductive ListBody :=
  | ListError (error : string)
  | Doctors (doctors : list DoctorItem)
  | Assistants (assistants : list AssistantItem).

(** [from("hospitals").select(...).eq("admin_profile_id", adminProfileId)] *)
Definition admin_hospitals (adminProfileId : string) (st : Store)
    : list (string * Hospital) :=
  map_to_list (filter (λ kv, admin_profile_id kv.2 = Some adminProfileId)
                 (hospitals st)).

(** [hospitals.find((h) => h.id === id) || null] *)
Definition find_hospital (hs : list (string * Hospital)) (id : option string)
    : option (string * Hospital) :=
  List.find (λ kv, bool_decide (Some kv.1 = id)) hs.

(** [.in("hospital_id", hospitalIds)] on a nullable column *)
Definition in_ids (ids : list string) (v : option string) : Prop :=
  match v with
  | Some h => h ∈ ids
  | None => False
  end.

#[global] Instance in_ids_dec ids v : Decision (in_ids ids v).
Proof. destruct v; simpl; apply _. Defined.

(** [from("profiles").select(...).in("id", ids).eq("role", r)] followed
    by [profiles.find((p) => p.id === id)]. *)
Definition find_profile (ids : list string) (r : Role) (id : string)
    (st : Store) : option Profile :=
  if bool_decide (id ∈ ids) then
    match profiles st !! id with
    | Some p => if bool_decide (role p = r) then Some p else None
    | None => None
    end
  else None.

(** GET /pending-doctors *)
Definition get_pending_doctors (env : Env) (adminProfileId : string)
    (st : Store) : nat * ListBody :=
  if fails env ReadHospitals then (500, ListError "Failed to fetch hospitals")
  else
    let hospitals := admin_hospitals adminProfileId st in
    match hospitals with
    | [] => (200, Doctors [])
    | _ =>
      let hospitalIds := hospitals.*1 in
      if fails env ReadDoctorProfile then (500, ListError "Failed to fetch doctors")
      else
        let doctorProfiles :=
          filter (λ d, in_ids hospitalIds (dp_hospital_id d)
                       ∧ dp_approval_status d = pending) (doctor_profiles st) in
        match doctorProfiles with
        | [] => (200, Doctors [])
        | _ =>
          let doctorIds := dp_profile_id <$> doctorProfiles in
          if fails env ReadProfile then (500, ListError "Failed to fetch profiles")
          else
            (200, Doctors
               ((λ dp,
                   let profile := find_profile doctorIds doctor (dp_profile_id dp) st in
                   mkDoctorItem (dp_profile_id dp)
                     (default "Unknown doctor" (Js.truthy (profile ≫= full_name)))
                     (Js.truthy (profile ≫= phone))
                     (dp_specialization dp) (dp_license_number dp) (dp_cnic dp)
                     (dp_approval_status dp)
                     (find_hospital hospitals (dp_hospital_id dp)))
                  <$> doctorProfiles))
        end
    end.

(** GET /pending-assistants *)
Definition get_pending_assistants (env : Env) (adminProfileId : string)
    (st : Store) : nat * ListBody :=
  if fails env ReadHospitals then (500, ListError "Failed to fetch hospitals")
  else
    let hospitals := admin_hospitals adminProfileId st in
    match hospitals with
    | [] => (200, Assistants [])
    | _ =>
      let hospitalIds := hospitals.*1 in
      if fails env ReadAssistantLink
      then (500, ListError "Failed to fetch doctor assistants")
      else
        let assistantLinks :=
          filter (λ a, in_ids hospitalIds (da_hospital_id a)
                       ∧ da_approval_status a = pending)
            (doctor_assistant_profiles st) in
        match assistantLinks with
        | [] => (200, Assistants [])
        | _ =>
          let assistantIds := da_profile_id <$> assistantLinks in
          let doctorIds := omap da_doctor_profile_id assistantLinks in
          if fails env ReadProfile then (500, ListError "Failed to fetch profiles")
          else if fails env ReadDoctorProfile
          then (500, ListError "Failed to fetch doctors")
          else
            (200, Assistants
               ((λ link,
                   let assistant :=
                     find_profile assistantIds doctor_assistant
                       (da_profile_id link) st in
                   let doctor :=
                     da_doctor_profile_id link ≫= λ did,
                       (λ p, (did, full_name p)) <$>
                         find_profile doctorIds doctor did st in
                   let hospital :=
                     find_hospital hospitals (da_hospital_id link) in
                   mkAssistantItem (da_profile_id link)
                     (default "Unknown assistant"
                        (Js.truthy (assistant ≫= full_name)))
                     (Js.truthy (assistant ≫= phone))
                     (da_approval_status link)
                     doctor
                     ((λ kv, (kv.1, h_name kv.2)) <$> hospital))
                  <$> assistantLinks))
        end
    end.

End HospitalAdminLists.

(** ** The auth router: POST /api/auth/register *)

Module Register.

Record RegisterRequest := mkRegisterRequest {
  email : option string;
  password : option string;
  fullName : option string;
  req_phone : option string;
  req_gender : option string;
  req_dob : option string;
  rawRole : option string;
  specialization : option string;
  hospitalId : option string;
  licenseNumber : option string;
  cnic : option string;
  hospitalName : option string;
  hospitalAddress : option string;
  hospitalType : option string
}.

(** The store together with the table [hospital_admin_profiles], rows
    [(profile_id, hospital_id)], which only this handler writes. *)
Record RegStore := mkRegStore {
  store : Store;
  hospital_admin_profiles : list (string * string)
}.

(** The calls of this handler that can fail beside those of [Env], and
    the key the database generates for the new hospital. *)
Record RegEnv := mkRegEnv {
  env : Env;
  fails_insert_doctor_profile : bool;
  fails_insert_hospital : bool;
  fails_insert_hospital_admin_profile : bool;
  gen_hospital_id : string
}.

Inductive RegisterBody :=
  | RegisterError (error : string)
  | Registered (user_id : string).

Definition msg_missing := "Missing required fields".
Definition msg_invalid_role := "Invalid role for self-registration".
Definition msg_missing_doctor :=
  "Missing doctor fields: specialization, hospitalId, licenseNumber, cnic".
Definition msg_hospital_not_found := "Selected hospital not found".
Definition msg_hospital_not_approved := "Selected hospital is not approved yet".
Definition msg_missing_admin :=
  "Missing hospital admin fields: hospitalName, hospitalAddress, hospitalType".
Definition msg_create_user_failed := "Failed to create user".
Definition msg_profile_failed := "User created but failed to create profile".
Definition msg_doctor_failed :=
  "User created but failed to create doctor profile. Contact support.".
Definition msg_hospital_failed :=
  "User created but failed to create hospital. Contact support.".
Definition msg_admin_link_failed :=
  "User created but failed to create hospital admin profile. Contact support.".

(** [rawRole === "admin" ? "hospital_admin" : rawRole] *)
Definition mapped_role (b : RegisterRequest) : option string :=
  if decide (rawRole b = Some "admin") then Some "hospital_admin" else rawRole b.

(** The part of the handler inside [try]: the account, the profile and
    the role-specific rows. [r] is [doctor] or [hospital_admin]. *)
Definition create_account (renv : RegEnv) (b : RegisterRequest) (r : Role)
    (fullName_ : string) (rs : RegStore) : nat * RegisterBody * RegStore :=
  match createUser (env renv) with
  | inr message =>
      (400, RegisterError (default msg_create_user_failed (Js.truthy message)), rs)
  | inl userId =>
    if fails (env renv) InsertProfile then (500, RegisterError msg_profile_failed, rs)
    else match Db.insert_profile userId
                 (mkProfile (Some fullName_) (req_phone b) (req_gender b)
                    (req_dob b) r pending) (store rs) with
    | None => (500, RegisterError msg_profile_failed, rs)
    | Some st1 =>
      let rs1 := mkRegStore st1 (hospital_admin_profiles rs) in
      match r with
      | doctor =>
        if fails_insert_doctor_profile renv
        then (500, RegisterError msg_doctor_failed, rs1)
        else
          (201, Registered userId,
           mkRegStore
             (Db.with_doctor_profiles
                (doctor_profiles st1 ++
                 [mkDoctorProfile userId (default "" (specialization b))
                    (hospitalId b) (default "" (licenseNumber b))
                    (default "" (cnic b)) pending]) st1)
             (hospital_admin_profiles rs))
      | hospital_admin =>
        if fails_insert_hospital renv
        then (500, RegisterError msg_hospital_failed, rs1)
        else match hospitals st1 !! gen_hospital_id renv with
        | Some _ => (500, RegisterError msg_hospital_failed, rs1)
        | None =>
          let st2 :=
            Db.with_hospitals
              (<[gen_hospital_id renv :=
                   mkHospital (default "" (hospitalName b))
                     (default "" (hospitalAddress b))
                     (default "" (hospitalType b)) (Some userId) pending]>
                 (hospitals st1)) st1 in
          let rs2 := mkRegStore st2 (hospital_admin_profiles rs) in
          if fails_insert_hospital_admin_profile renv
          then (500, RegisterError msg_admin_link_failed, rs2)
          else
            (201, Registered userId,
             mkRegStore st2
               (hospital_admin_profiles rs ++ [(userId, gen_hospital_id renv)]))
        end
      | _ => (201, Registered userId, rs1)
      end
    end
  end.

Definition all_truthy (l : list (option string)) : bool :=
  forallb (λ v, bool_decide (is_Some (Js.truthy v))) l.

Definition register (renv : RegEnv) (b : RegisterRequest) (rs : RegStore)
    : nat * RegisterBody * RegStore :=
  match Js.truthy (fullName b), Js.truthy (mapped_role b) with
  | Some fullName_, Some role_ =>
    if negb (all_truthy [email b; password b; req_phone b; req_gender b; req_dob b])
    then (400, RegisterError msg_missing, rs)
    else if decide (role_ = "doctor") then
      if negb (all_truthy [specialization b; hospitalId b; licenseNumber b; cnic b])
      then (400, RegisterError msg_missing_doctor, rs)
      else
        match (if fails (env renv) ReadHospitals then None
               else hospitalId b ≫= λ h, hospitals (store rs) !! h) with
        | None => (400, RegisterError msg_hospital_not_found, rs)
        | Some hosp =>
          if decide (status hosp = approved)
          then create_account renv b doctor fullName_ rs
          else (400, RegisterError msg_hospital_not_approved, rs)
        end
    else if decide (role_ = "hospital_admin") then
      if negb (all_truthy [hospitalName b; hospitalAddress b; hospitalType b])
      then (400, RegisterError msg_missing_admin, rs)
      else create_account renv b hospital_admin fullName_ rs
    else (400, RegisterError msg_invalid_role, rs)
  | _, _ => (400, RegisterError msg_missing, rs)
  end.

End Register.

(** ** More sample data *)

Module MoreSamples.

Definition doc2_profile : Profile :=
  mkProfile (Some "Dr Two") None None None doctor pending.

Definition bilal : Doctor.AssistantRequest :=
  Doctor.mkAssistantRequest (Some "Bilal") (Some "b@x.pk") None (Some "pw").

Definition bilal_json : AssistantJson :=
  mkAssistantJson "as3" "Bilal" "b@x.pk" None pending.

(** The store after the pending doctor [doc2] has created [as3]. *)
Definition st_with_bilal : Store :=
  (Doctor.post_assistants Sample.env_tokens (Some ("doc2", doc2_profile)) bilal
     Sample.st_scope).2.

Definition pending_doctors_of_adm2 : list HospitalAdminLists.DoctorItem :=
  match (HospitalAdminLists.get_pending_doctors Sample.env_tokens "adm2"
           Sample.st_scope).2 with
  | HospitalAdminLists.Doctors l => l
  | _ => []
  end.

Definition pending_assistants_of_adm2 : list HospitalAdminLists.AssistantItem :=
  match (HospitalAdminLists.get_pending_assistants Sample.env_tokens "adm2"
           Sample.st_scope).2 with
  | HospitalAdminLists.Assistants l => l
  | _ => []
  end.

Definition renv (hospital_key : string) : Register.RegEnv :=
  Register.mkRegEnv Sample.env_tokens false false false hospital_key.

Definition doctor_form (hospital : string) : Register.RegisterRequest :=
  Register.mkRegisterRequest (Some "d@x.pk") (Some "pw") (Some "Dr Three")
    (Some "0300") (Some "male") (Some "1980-01-01") (Some "doctor")
    (Some "ENT") (Some hospital) (Some "L-3") (Some "35202-0000000-3")
    None None None.

Definition admin_form : Register.RegisterRequest :=
  Register.mkRegisterRequest (Some "h@x.pk") (Some "pw") (Some "Hina")
    (Some "0301") (Some "female") (Some "1985-05-05") (Some "admin")
    None None None None (Some "Nine") (Some "Street 9") (Some "private").

Definition rs_scope : Register.RegStore := Register.mkRegStore Sample.st_scope [].

Definition rs_doctor_registered : Register.RegStore :=
  (Register.register (renv "H9") (doctor_form "H1") rs_scope).2.

Definition rs_admin_registered : Register.RegStore :=
  (Register.register (renv "H9") admin_form rs_scope).2.

End MoreSamples.

(** ** Sample data for the gates and the search *)

Module GateSample.

(** A pending hospital admin, a pending doctor and a rejected assistant
    of hospital H2, and one patient registered there. *)
Definition zara : Profile :=
  mkProfile (Some "Zara Malik") (Some "0302") None None patient approved.

Definition zara_row : PatientProfile :=
  mkPatientProfile "p-7" (Some "H2") "42101-7654321-7" (Some "as2")
    "2024-12-24T00:00:00Z".

Definition adm3_profile : Profile :=
  mkProfile (Some "Hamid") None None None hospital_admin pending.

Definition doc2_profile : Profile :=
  mkProfile (Some "Dr Two") None None None doctor pending.

Definition as2_profile : Profile :=
  mkProfile (Some "Asma") None None None doctor_assistant rejected.

Definition st_gates : Store :=
  mkStore
    {[ "adm3" := adm3_profile; "doc2" := doc2_profile; "as2" := as2_profile;
       "p-7" := zara ]}
    {[ "H2" := mkHospital "Two" "Street 2" "public" (Some "adm3") pending ]}
    [Sample.doc2_row]
    [mkAssistantLink "as2" (Some "doc2") (Some "H2") rejected]
    [zara_row].

Definition env_gates : Env :=
  mkEnv (λ _, false) "p-100" "2025-01-01T00:00:00Z"
    (λ token,
       if decide (token = "t-adm3") then inl (Sample.account "adm3")
       else if decide (token = "t-doc2") then inl (Sample.account "doc2")
       else if decide (token = "t-as2") then inl (Sample.account "as2")
       else inr None)
    (inl "as3").

Definition bilal : Doctor.AssistantRequest :=
  Doctor.mkAssistantRequest (Some "Bilal") (Some "b@x.pk") None (Some "pw").

(** Names with a no-break space (code unit 160) and with a capital E
    acute (code unit 201). *)
Definition ali_nbsp_khan : string :=
  "Ali" +:+ String (Ascii.ascii_of_nat 160) "Khan".

Definition capital_elan : string := String (Ascii.ascii_of_nat 201) "lan".
Definition small_elan : string := String (Ascii.ascii_of_nat 233) "lan".

(** "Ali Khan" registered by the assistant [a1] under a CNIC submitted
    with a blank on each side: the request, the answer and the store
    after it. *)
Definition padded_cnic : string := " 12345-1234567-1 ".

Definition submit_padded : Assistant.PatientRequest :=
  Assistant.mkPatientRequest (Some "Ali Khan") (Some padded_cnic) None None None.

Definition padded_json : PatientJson :=
  mkPatientJson "p-100" (Some "Ali Khan") None None None padded_cnic
    "2025-01-01T00:00:00Z".

Definition st_padded : Store :=
  mkStore
    {[ "a1" := Sample.assistant_row; "a2" := Sample.assistant_row;
       "p-100" := Sample.ali ]}
    ∅ [] Sample.links
    [mkPatientProfile "p-100" (Some "H1") padded_cnic (Some "a1")
       "2025-01-01T00:00:00Z"].

End GateSample.

(** * Properties *)

(** ** Helper lemmas *)

Lemma truthy_Some (v : option string) (s : string) :
  Js.truthy v = Some s → v = Some s ∧ s ≠ "".
Proof.
  destruct v as [x|]; simpl; [|done].
  destruct (decide (x = "")); [done|]. by intros [= ->].
Qed.

Lemma truthy_of_Some (s : string) : s ≠ "" → Js.truthy (Some s) = Some s.
Proof. intros Hs. simpl. by destruct (decide (s = "")). Qed.

Lemma changed_same (v : option string) : Assistant.changed v v = None.
Proof.
  unfold Assistant.changed. destruct (Js.truthy v) as [x|] eqn:E; [|done].
  apply truthy_Some in E as [-> _]. by rewrite decide_True.
Qed.

Lemma find_none_Forall {A} (f : A → bool) (l : list A) :
  Forall (λ x, f x = false) l → List.find f l = None.
Proof. induction 1 as [|x l Hx _ IH]; simpl; [done|]. by rewrite Hx. Qed.

Lemma filter_fmap_preserving {A} (P : A → Prop) `{!∀ x, Decision (P x)}
    (f : A → A) (l : list A) :
  (∀ x, P (f x) ↔ P x) → filter P (f <$> l) = f <$> filter P l.
Proof.
  intros Hf. induction l as [|x l IH]; [done|].
  rewrite fmap_cons, !filter_cons.
  destruct (decide (P x)) as [Hx|Hx].
  - rewrite decide_True by by apply Hf. by rewrite fmap_cons, IH.
  - rewrite decide_False by (by rewrite Hf). done.
Qed.

Lemma filter_nil_weaker {A} (P Q : A → Prop) `{!∀ x, Decision (P x)}
    `{!∀ x, Decision (Q x)} (l : list A) :
  filter P l = [] → (∀ x, Q x → P x) → filter Q l = [].
Proof.
  intros Hnil HQP. induction l as [|x l IH]; [done|].
  rewrite filter_cons in Hnil. rewrite filter_cons.
  destruct (decide (P x)) as [|HnP]; [done|].
  rewrite decide_False by (intros HQ; by apply HnP, HQP). by apply IH.
Qed.

Lemma refresh_patient_profiles env id p st :
  patient_profiles (Assistant.refresh env id p st) = patient_profiles st.
Proof.
  unfold Assistant.refresh.
  destruct (Db.patch_is_empty p); [done|]. by destruct (fails env UpdateProfile).
Qed.

Lemma case_A_never_creates env aid H fullName cnic b row rows st c pj st' :
  Assistant.case_A env aid H fullName cnic b row rows st
    ≠ (mkResponse c (PatientBody created pj), st').
Proof.
  unfold Assistant.case_A, fail, json.
  repeat (case_match; try done).
Qed.

(** ** Patient identity reconciliation *)

(** C1. A submission whose CNIC is on record under a canonical profile
    with a non-empty name that differs, after normalisation, from the
    submitted name is answered with 400 and the name-mismatch message,
    and the store after the request is the store before it. The names
    range over the strings of code units below 256, on which
    [Assistant.normalize] is the code's [normalize]: U+00A0 is white
    space and the accented capitals are lowered. *)
Theorem name_mismatch_rejected (env : Env) (aid : string) (ap : Profile)
    (b : Assistant.PatientRequest) (st : Store)
    (fullName cnic hospitalId : string) (targetRow : PatientProfile)
    (rest : list PatientProfile) (existingProfile : Profile) (n : string) :
  Js.truthy (Assistant.req_fullName b) = Some fullName →
  Js.truthy (Assistant.req_cnic b) = Some cnic →
  Assistant.assistant_hospital env aid st = Some hospitalId →
  fails env ReadPatientProfiles = false →
  fails env ReadProfile = false →
  Db.patients_by_cnic cnic st = targetRow :: rest →
  profiles st !! pp_profile_id targetRow = Some existingProfile →
  Js.truthy (full_name existingProfile) = Some n →
  Assistant.normalize n ≠ Assistant.normalize fullName →
  Assistant.post_patients env (Some (aid, ap)) b st
    = (fail 400 Assistant.msg_name_mismatch, st).
Proof.
  intros Hname Hcnic Hlink Hread Hprof Hrows Hcanon Hfull Hneq.
  unfold Assistant.post_patients.
  rewrite Hname, Hcnic, Hlink, Hread, Hrows.
  unfold Assistant.case_A.
  rewrite Hprof, Hcanon, Hfull.
  by rewrite bool_decide_eq_true_2.
Qed.

Lemma name_mismatch_rejected_witness :
  Assistant.post_patients Sample.env_ok (Some ("a2", Sample.assistant_row))
    (Sample.submit "Sara Ahmed") Sample.st_ali
  = (fail 400 Assistant.msg_name_mismatch, Sample.st_ali).
Proof.
  apply (name_mismatch_rejected Sample.env_ok "a2" Sample.assistant_row
           (Sample.submit "Sara Ahmed") Sample.st_ali
           "Sara Ahmed" "12345-1234567-1" "H2" Sample.ali_row []
           Sample.ali "Ali Khan");
    vm_compute; congruence.
Defined.

(** White space and capitals beyond ASCII: a no-break space between
    the two parts of a name normalises to one space, E acute is lowered
    to e acute, and the multiplication sign U+00D7 is no capital. *)
Lemma normalize_beyond_ascii :
  Assistant.normalize GateSample.ali_nbsp_khan = "ali khan"
  ∧ Assistant.normalize GateSample.capital_elan = GateSample.small_elan
  ∧ Js.trim (String (Ascii.ascii_of_nat 160) "Ali Khan") = "Ali Khan"
  ∧ Js.lower_char (Ascii.ascii_of_nat 215) = Ascii.ascii_of_nat 215.
Proof. by vm_compute. Qed.

(** "Ali Khan" on record and "Ali", no-break space, "Khan" submitted are
    the same name: the submission is not a mismatch, the patient is
    re-homed to the caller's hospital and the answer is 200 "linked". *)
Lemma nbsp_name_is_linked :
  let out := Assistant.post_patients Sample.env_ok (Some ("a2", Sample.assistant_row))
               (Sample.submit GateSample.ali_nbsp_khan) Sample.st_ali in
  out.1 = mkResponse 200
            (PatientBody linked
               (mkPatientJson "p-100" (Some GateSample.ali_nbsp_khan) None None None
                  "12345-1234567-1" "2025-01-01T00:00:00Z"))
  ∧ patient_profiles out.2
    = [mkPatientProfile "p-100" (Some "H2") "12345-1234567-1" (Some "a2")
         "2025-01-01T00:00:00Z"]
  ∧ profiles out.2 = profiles Sample.st_ali.
Proof. by vm_compute. Qed.

(** A body without a non-empty [fullName] and [cnic] is refused before
    anything is read, whatever the store holds. *)
Lemma post_patients_required_fields (env : Env)
    (profile : option (string * Profile)) (b : Assistant.PatientRequest)
    (st : Store) :
  Js.truthy (Assistant.req_fullName b) = None
  ∨ Js.truthy (Assistant.req_cnic b) = None →
  Assistant.post_patients env profile b st = (fail 400 Assistant.msg_required, st).
Proof.
  unfold Assistant.post_patients. intros [-> | ->]; [done|].
  by destruct (Js.truthy (Assistant.req_fullName b)).
Qed.

(** The relink update selects on [profile_id] and [cnic]: a second row
    of the same patient under a third hospital is re-homed together with
    the first one. *)
Lemma relink_rehomes_every_row_of_the_patient :
  let other := mkPatientProfile "p-100" (Some "H3") "12345-1234567-1" (Some "a9")
                 "2025-02-02T00:00:00Z" in
  let st := Db.with_patient_profiles [Sample.ali_row; other] Sample.st_ali in
  patient_profiles
    (Assistant.post_patients Sample.env_ok (Some ("a2", Sample.assistant_row))
       (Sample.submit "Ali Khan") st).2
  = [Db.rehome "H2" "a2" Sample.ali_row; Db.rehome "H2" "a2" other].
Proof. by vm_compute. Qed.

(** C4. With no row for the submitted CNIC, the handler inserts one
    profile (role patient, status approved) under the generated key and
    appends one patient row with that key, the CNIC, the hospital of
    the caller and the caller as creator, and answers 201 "created". *)
Theorem create_branch (env : Env) (aid : string) (ap : Profile)
    (b : Assistant.PatientRequest) (st : Store)
    (fullName cnic hospitalId : string) :
  Js.truthy (Assistant.req_fullName b) = Some fullName →
  Js.truthy (Assistant.req_cnic b) = Some cnic →
  Assistant.assistant_hospital env aid st = Some hospitalId →
  fails env ReadPatientProfiles = false →
  fails env InsertProfile = false →
  fails env InsertPatientProfile = false →
  profiles st !! gen_id env = None →
  Db.patients_by_cnic cnic st = [] →
  ∃ (pj : PatientJson) (st' : Store),
    Assistant.post_patients env (Some (aid, ap)) b st
      = (mkResponse 201 (PatientBody created pj), st')
    ∧ pj_id pj = gen_id env
    ∧ profiles st' =
        <[gen_id env :=
            mkProfile (Some fullName) (Assistant.req_phone b)
              (Assistant.req_gender b) (Assistant.req_dob b) patient approved]>
          (profiles st)
    ∧ patient_profiles st' =
        patient_profiles st ++
        [mkPatientProfile (gen_id env) (Some hospitalId) cnic (Some aid) (now env)]
    ∧ hospitals st' = hospitals st
    ∧ doctor_profiles st' = doctor_profiles st
    ∧ doctor_assistant_profiles st' = doctor_assistant_profiles st.
Proof.
  intros Hname Hcnic Hlink Hread Hins Hinspp Hfresh Hrows.
  unfold Assistant.post_patients.
  rewrite Hname, Hcnic, Hlink, Hread, Hrows.
  unfold Assistant.case_B, Db.insert_profile.
  rewrite Hins, Hfresh, Hinspp. simpl.
  eexists _, _. split; [reflexivity|]. by simpl.
Qed.

Lemma create_branch_witness :
  ∃ (pj : PatientJson) (st' : Store),
    Assistant.post_patients Sample.env_ok (Some ("a1", Sample.assistant_row))
      (Sample.submit "Ali Khan") Sample.st_empty
      = (mkResponse 201 (PatientBody created pj), st')
    ∧ pj_id pj = "p-100"
    ∧ profiles st' =
        <["p-100" := mkProfile (Some "Ali Khan") None None None patient approved]>
          (profiles Sample.st_empty)
    ∧ patient_profiles st' =
        patient_profiles Sample.st_empty ++
        [mkPatientProfile "p-100" (Some "H1") "12345-1234567-1" (Some "a1")
           "2025-01-01T00:00:00Z"]
    ∧ hospitals st' = hospitals Sample.st_empty
    ∧ doctor_profiles st' = doctor_profiles Sample.st_empty
    ∧ doctor_assistant_profiles st' = doctor_assistant_profiles Sample.st_empty.
Proof.
  apply (create_branch Sample.env_ok "a1" Sample.assistant_row
           (Sample.submit "Ali Khan") Sample.st_empty
           "Ali Khan" "12345-1234567-1" "H1");
    vm_compute; reflexivity.
Defined.

(** C2. When a submission by an assistant of hospital H is answered
    "created" with patient id P, the same submission repeated at once by
    an assistant of H is answered "already_exists" with the same id P;
    the repetition leaves the store as it was, with exactly one patient
    row for that CNIC and hospital. *)
Theorem post_patients_idempotent (env1 env2 : Env) (aid1 aid2 : string)
    (ap1 ap2 : Profile) (b : Assistant.PatientRequest) (st st1 : Store)
    (H : string) (c : nat) (pj : PatientJson) :
  Assistant.assistant_hospital env1 aid1 st = Some H →
  Assistant.assistant_hospital env2 aid2 st = Some H →
  fails env2 ReadPatientProfiles = false →
  fails env2 ReadProfile = false →
  Assistant.post_patients env1 (Some (aid1, ap1)) b st
    = (mkResponse c (PatientBody created pj), st1) →
  ∃ pj2 : PatientJson,
    Assistant.post_patients env2 (Some (aid2, ap2)) b st1
      = (json (PatientBody already_exists pj2), st1)
    ∧ pj_id pj2 = pj_id pj
    ∧ ∀ cnic, Js.truthy (Assistant.req_cnic b) = Some cnic →
        length (filter (λ r, pp_cnic r = cnic ∧ pp_hospital_id r = Some H)
                  (patient_profiles st1)) = 1.
Proof.
  intros Hl1 Hl2 Hread2 Hprof2 Hfirst.
  unfold Assistant.post_patients in *.
  destruct (Js.truthy (Assistant.req_fullName b)) as [fullName|] eqn:Hname;
    [|by destruct (Js.truthy (Assistant.req_cnic b))].
  destruct (Js.truthy (Assistant.req_cnic b)) as [cnic|] eqn:Hcnic; [|done].
  rewrite Hl1 in Hfirst.
  destruct (fails env1 ReadPatientProfiles); [done|].
  destruct (Db.patients_by_cnic cnic st) as [|row rows] eqn:Hrows;
    [|by apply case_A_never_creates in Hfirst].
  unfold Assistant.case_B, Db.insert_profile in Hfirst.
  destruct (fails env1 InsertProfile); [done|].
  destruct (profiles st !! gen_id env1) eqn:Hfresh; [done|].
  destruct (fails env1 InsertPatientProfile); [done|].
  injection Hfirst as <- <- <-. simpl.
  assert (Hl2' : ∀ s p l,
    Assistant.assistant_hospital env2 aid2
      (Db.with_patient_profiles l (Db.with_profiles p s))
    = Assistant.assistant_hospital env2 aid2 s) by done.
  rewrite Hl2', Hl2, Hread2.
  unfold Db.patients_by_cnic in *. simpl.
  rewrite filter_app, Hrows, filter_cons, decide_True by done. simpl.
  unfold Assistant.case_A. simpl.
  rewrite Hprof2, lookup_insert_eq. simpl.
  apply truthy_Some in Hname as Hname'. destruct Hname' as [_ Hne].
  rewrite decide_False by done.
  rewrite bool_decide_eq_false_2 by (intros Hn; by apply Hn).
  rewrite bool_decide_eq_true_2 by done.
  unfold Assistant.updatePayload. simpl.
  rewrite decide_False, decide_True, !changed_same by done. simpl.
  eexists. split; [reflexivity|]. split; [done|].
  intros cnic' [= <-].
  rewrite filter_app, filter_cons, decide_True, filter_nil by done.
  rewrite length_app. simpl.
  assert (Hnil : filter (λ r, pp_cnic r = cnic ∧ pp_hospital_id r = Some H)
                   (patient_profiles st) = []).
  { apply (filter_nil_weaker _ _ _ Hrows). by intros r [Hc _]. }
  by rewrite Hnil.
Qed.

Lemma post_patients_idempotent_witness :
  ∃ pj2 : PatientJson,
    Assistant.post_patients Sample.env_ok (Some ("a1", Sample.assistant_row))
      (Sample.submit "Ali Khan") Sample.st_ali
      = (json (PatientBody already_exists pj2), Sample.st_ali)
    ∧ pj_id pj2 = pj_id Sample.ali_json
    ∧ ∀ cnic, Js.truthy (Assistant.req_cnic (Sample.submit "Ali Khan")) = Some cnic →
        length (filter (λ r, pp_cnic r = cnic ∧ pp_hospital_id r = Some "H1")
                  (patient_profiles Sample.st_ali)) = 1.
Proof.
  apply (post_patients_idempotent Sample.env_ok Sample.env_ok "a1" "a1"
           Sample.assistant_row Sample.assistant_row (Sample.submit "Ali Khan")
           Sample.st_empty Sample.st_ali "H1" 201 Sample.ali_json);
    vm_compute; reflexivity.
Defined.

(** C3. When rows exist for the submitted CNIC, the name check passes
    and no row belongs to the hospital of the caller, the answer is
    "linked" with the patient id and the creation time of the first
    matching row; that row, in its place, now carries the hospital of the
    caller and the caller as creator and keeps its creation time, and the
    table has as many rows as before. *)
Theorem relink_branch (env : Env) (aid : string) (ap : Profile)
    (b : Assistant.PatientRequest) (st : Store)
    (fullName cnic hospitalId : string) (targetRow : PatientProfile)
    (rest : list PatientProfile) (existingProfile : Profile) :
  Js.truthy (Assistant.req_fullName b) = Some fullName →
  Js.truthy (Assistant.req_cnic b) = Some cnic →
  Assistant.assistant_hospital env aid st = Some hospitalId →
  fails env ReadPatientProfiles = false →
  fails env ReadProfile = false →
  fails env UpdatePatientLink = false →
  Db.patients_by_cnic cnic st = targetRow :: rest →
  profiles st !! pp_profile_id targetRow = Some existingProfile →
  (∀ n, Js.truthy (full_name existingProfile) = Some n →
        Assistant.normalize n = Assistant.normalize fullName) →
  Forall (λ r, pp_hospital_id r ≠ Some hospitalId) (targetRow :: rest) →
  ∃ (pj : PatientJson) (st' : Store) (row' : PatientProfile),
    Assistant.post_patients env (Some (aid, ap)) b st
      = (json (PatientBody linked pj), st')
    ∧ pj_id pj = pp_profile_id targetRow
    ∧ pj_created_at pj = pp_created_at targetRow
    ∧ head (Db.patients_by_cnic cnic st') = Some row'
    ∧ (∀ i : nat, patient_profiles st !! i = Some targetRow →
                  patient_profiles st' !! i = Some row')
    ∧ pp_hospital_id row' = Some hospitalId
    ∧ pp_created_by row' = Some aid
    ∧ pp_created_at row' = pp_created_at targetRow
    ∧ pp_profile_id row' = pp_profile_id targetRow
    ∧ pp_cnic row' = cnic
    ∧ length (patient_profiles st') = length (patient_profiles st).
Proof.
  intros Hname Hcnic Hlink Hread Hprof Hupd Hrows Hcanon Hcheck Hother.
  assert (Htc : pp_cnic targetRow = cnic).
  { assert (targetRow ∈ Db.patients_by_cnic cnic st) as Hin
      by (rewrite Hrows; left).
    by apply list_elem_of_filter in Hin as [? _]. }
  unfold Assistant.post_patients.
  rewrite Hname, Hcnic, Hlink, Hread, Hrows.
  unfold Assistant.case_A.
  rewrite Hprof, Hcanon.
  assert (Hnm : match Js.truthy (full_name existingProfile) with
                | Some n => bool_decide (Assistant.normalize n ≠ Assistant.normalize fullName)
                | None => false
                end = false).
  { destruct (Js.truthy (full_name existingProfile)) as [n|]; [|done].
    apply bool_decide_eq_false_2. intros Hn. by apply Hn, Hcheck. }
  rewrite Hnm.
  rewrite find_none_Forall
    by (eapply Forall_impl; [exact Hother|];
        intros r Hr; by apply bool_decide_eq_false_2).
  rewrite Hupd.
  eexists _, _, (Db.rehome hospitalId aid targetRow).
  split; [reflexivity|]. simpl.
  split; [done|]. split; [done|].
  unfold Db.patients_by_cnic, Db.update_patient_link. simpl.
  rewrite refresh_patient_profiles.
  split.
  { rewrite filter_fmap_preserving.
    - unfold Db.patients_by_cnic in Hrows. rewrite Hrows. simpl.
      by rewrite decide_True.
    - intros r. by destruct (decide _). }
  split.
  { intros i Hi. rewrite list_lookup_fmap, Hi. simpl. by rewrite decide_True. }
  rewrite length_fmap. by repeat split.
Qed.

Lemma relink_branch_witness :
  ∃ (pj : PatientJson) (st' : Store) (row' : PatientProfile),
    Assistant.post_patients Sample.env_ok (Some ("a2", Sample.assistant_row))
      (Sample.submit " ali   KHAN ") Sample.st_ali
      = (json (PatientBody linked pj), st')
    ∧ pj_id pj = "p-100"
    ∧ pj_created_at pj = "2025-01-01T00:00:00Z"
    ∧ head (Db.patients_by_cnic "12345-1234567-1" st') = Some row'
    ∧ (∀ i : nat, patient_profiles Sample.st_ali !! i = Some Sample.ali_row →
                  patient_profiles st' !! i = Some row')
    ∧ pp_hospital_id row' = Some "H2"
    ∧ pp_created_by row' = Some "a2"
    ∧ pp_created_at row' = "2025-01-01T00:00:00Z"
    ∧ pp_profile_id row' = "p-100"
    ∧ pp_cnic row' = "12345-1234567-1"
    ∧ length (patient_profiles st') = length (patient_profiles Sample.st_ali).
Proof.
  apply (relink_branch Sample.env_ok "a2" Sample.assistant_row
           (Sample.submit " ali   KHAN ") Sample.st_ali
           " ali   KHAN " "12345-1234567-1" "H2" Sample.ali_row []
           Sample.ali).
  - reflexivity.
  - reflexivity.
  - reflexivity.
  - reflexivity.
  - reflexivity.
  - reflexivity.
  - reflexivity.
  - reflexivity.
  - intros n Hn. injection Hn as <-. reflexivity.
  - constructor; [|constructor]. simpl. congruence.
Defined.

(** ** Approval workflow *)

(** C5, evaluated: the approved admin of H1 approves the doctor and the
    assistant of H2, a hospital this admin does not own, and both the
    role-specific row and the profile are changed. *)
Lemma hospital_admin_approve_unscoped :
  HospitalAdmin.hospitals_of_admin "adm1" Sample.st_scope = ["H1"]
  ∧ dp_hospital_id Sample.doc2_row = Some "H2"
  ∧ da_hospital_id Sample.as2_row = Some "H2"
  ∧ (∃ st',
       Routers.hospital_admin Sample.env_tokens HospitalAdmin.DoctorApprove
         (Sample.request "t-adm1") "doc2" Sample.st_scope
       = (json SuccessBody, st')
       ∧ doctor_profiles st' = [Db.set_doctor_status approved Sample.doc2_row]
       ∧ approval_status <$> profiles st' !! "doc2" = Some approved)
  ∧ (∃ st',
       Routers.hospital_admin Sample.env_tokens HospitalAdmin.AssistantApprove
         (Sample.request "t-adm1") "as2" Sample.st_scope
       = (json SuccessBody, st')
       ∧ doctor_assistant_profiles st'
         = [Db.set_assistant_status approved Sample.as2_row]
       ∧ approval_status <$> profiles st' !! "as2" = Some approved).
Proof.
  split; [by vm_compute|]. split; [done|]. split; [done|].
  split; eexists; (split; [by vm_compute|]); by vm_compute.
Qed.

(** The handlers of the coupled operations never look at the caller. *)
Lemma coupled_ignores_caller (op : HospitalAdmin.Coupled) (env : Env)
    (req1 req2 : Middleware.Request) (profileId : string) (st : Store) :
  HospitalAdmin.run op env req1 profileId st
  = HospitalAdmin.run op env req2 profileId st.
Proof. by destruct op. Qed.

(** C7. Each of the four coupled operations writes the role-specific
    table first and [profiles] second. When the first write fails the
    answer is the generic 500 message and the store is as before. When
    the first write succeeds, the rows of the role-specific table with
    that profile id carry the new status in every later outcome (nothing
    rolls it back): if the second write fails, the answer is the 500
    message that names the first mutation ("Doctor approved but profile
    update failed" and its siblings), which differs from the generic
    one, and [profiles] is as before; if it succeeds, the answer is
    success and the profile with that id carries the new status, its
    other columns kept. Other profiles, the table of the other kind of
    account, [hospitals] and [patient_profiles] are never touched. *)
Theorem coupled_partial_failure (op : HospitalAdmin.Coupled) (env : Env)
    (req : Middleware.Request) (profileId : string) (st : Store) :
  let out := HospitalAdmin.run op env req profileId st in
  let on_doctor :=
    match op with
    | HospitalAdmin.DoctorApprove | HospitalAdmin.DoctorReject => true
    | _ => false
    end in
  let s :=
    match op with
    | HospitalAdmin.DoctorApprove | HospitalAdmin.AssistantApprove => approved
    | _ => rejected
    end in
  let generic :=
    if on_doctor then "Failed to update doctor profile"
    else "Failed to update assistant link" in
  let partial :=
    match op with
    | HospitalAdmin.DoctorApprove => "Doctor approved but profile update failed"
    | HospitalAdmin.DoctorReject => "Doctor rejected but profile update failed"
    | HospitalAdmin.AssistantApprove => "Assistant approved but profile update failed"
    | HospitalAdmin.AssistantReject => "Assistant rejected but profile update failed"
    end in
  partial ≠ generic
  ∧ hospitals out.2 = hospitals st
  ∧ patient_profiles out.2 = patient_profiles st
  ∧ (∀ id, id ≠ profileId → profiles out.2 !! id = profiles st !! id)
  ∧ if fails env (if on_doctor then UpdateDoctorProfile else UpdateAssistantLink)
    then out = (fail 500 generic, st)
    else
      doctor_profiles out.2
      = (if on_doctor
         then (λ d, if decide (dp_profile_id d = profileId)
                    then mkDoctorProfile (dp_profile_id d) (dp_specialization d)
                           (dp_hospital_id d) (dp_license_number d) (dp_cnic d) s
                    else d) <$> doctor_profiles st
         else doctor_profiles st)
      ∧ doctor_assistant_profiles out.2
        = (if on_doctor then doctor_assistant_profiles st
           else (λ a, if decide (da_profile_id a = profileId)
                      then mkAssistantLink (da_profile_id a) (da_doctor_profile_id a)
                             (da_hospital_id a) s
                      else a) <$> doctor_assistant_profiles st)
      ∧ if fails env UpdateProfile
        then out.1 = fail 500 partial ∧ profiles out.2 = profiles st
        else out.1 = json SuccessBody
             ∧ profiles out.2 !! profileId
               = (λ p, mkProfile (full_name p) (phone p) (gender p) (dob p)
                         (role p) s) <$> profiles st !! profileId.
Proof.
  cbv zeta.
  destruct op; simpl;
    unfold HospitalAdmin.approve_doctor, HospitalAdmin.reject_doctor,
      HospitalAdmin.approve_assistant, HospitalAdmin.reject_assistant.
  all: destruct (fails env UpdateDoctorProfile) eqn:Hd;
         destruct (fails env UpdateAssistantLink) eqn:Ha;
         destruct (fails env UpdateProfile) eqn:Hp; simpl;
         split_and!; try done.
  all: try (intros id Hne; by rewrite lookup_alter_ne).
  all: by rewrite lookup_alter_eq.
Qed.

(** C8. A reject of a hospital admin whose two writes succeed answers
    success; afterwards the profile with that id, when there is one, is
    [rejected] with its other columns as before, and every hospital whose
    [admin_profile_id] is that id is [rejected], the hospitals of other
    admins being as before. *)
Theorem reject_hospital_admin_cascade (env : Env) (profileId : string)
    (st : Store) :
  fails env UpdateProfile = false →
  fails env UpdateHospitals = false →
  ∃ st' : Store,
    SuperAdmin.reject_hospital_admin env profileId st = (json SuccessBody, st')
    ∧ (∀ p, profiles st !! profileId = Some p →
            profiles st' !! profileId
            = Some (Db.apply_patch (Db.approval rejected) p)
            ∧ approval_status (Db.apply_patch (Db.approval rejected) p) = rejected)
    ∧ (∀ hid h, hospitals st !! hid = Some h →
                admin_profile_id h = Some profileId →
                hospitals st' !! hid = Some (Db.set_hospital_status rejected h)
                ∧ status (Db.set_hospital_status rejected h) = rejected)
    ∧ (∀ hid h, hospitals st !! hid = Some h →
                admin_profile_id h ≠ Some profileId →
                hospitals st' !! hid = Some h)
    ∧ dom (hospitals st') = dom (hospitals st).
Proof.
  intros Hp Hh. unfold SuperAdmin.reject_hospital_admin. rewrite Hp, Hh.
  eexists. split; [reflexivity|].
  unfold Db.update_hospitals_of_admin, Db.update_profile. simpl.
  split; [|split; [|split]].
  - intros p Hlook. by rewrite lookup_alter_eq, Hlook.
  - intros hid h Hlook Hadm. rewrite lookup_fmap, Hlook. simpl.
    by rewrite decide_True.
  - intros hid h Hlook Hadm. rewrite lookup_fmap, Hlook. simpl.
    by rewrite decide_False.
  - apply dom_fmap_L.
Qed.

Lemma reject_hospital_admin_cascade_witness :
  ∃ st' : Store,
    SuperAdmin.reject_hospital_admin Sample.env_tokens "adm2" Sample.st_scope
    = (json SuccessBody, st')
    ∧ (∀ p, profiles Sample.st_scope !! "adm2" = Some p →
            profiles st' !! "adm2"
            = Some (Db.apply_patch (Db.approval rejected) p)
            ∧ approval_status (Db.apply_patch (Db.approval rejected) p) = rejected)
    ∧ (∀ hid h, hospitals Sample.st_scope !! hid = Some h →
                admin_profile_id h = Some "adm2" →
                hospitals st' !! hid = Some (Db.set_hospital_status rejected h)
                ∧ status (Db.set_hospital_status rejected h) = rejected)
    ∧ (∀ hid h, hospitals Sample.st_scope !! hid = Some h →
                admin_profile_id h ≠ Some "adm2" →
                hospitals st' !! hid = Some h)
    ∧ dom (hospitals st') = dom (hospitals Sample.st_scope).
Proof.
  apply (reject_hospital_admin_cascade Sample.env_tokens "adm2" Sample.st_scope);
    reflexivity.
Defined.

(** C9. An approve of a hospital admin leaves every table but
    [profiles] as it was, whatever the outcome: in particular every
    hospital row, pending ones included, is unchanged. In [profiles] only
    the row with that id can change, and when the write succeeds it
    differs from the old row in [approval_status] alone, now [approved]. *)
Theorem approve_hospital_admin_frame (env : Env) (profileId : string)
    (st : Store) :
  let out := SuperAdmin.approve_hospital_admin env profileId st in
  hospitals out.2 = hospitals st
  ∧ doctor_profiles out.2 = doctor_profiles st
  ∧ doctor_assistant_profiles out.2 = doctor_assistant_profiles st
  ∧ patient_profiles out.2 = patient_profiles st
  ∧ (∀ id, id ≠ profileId → profiles out.2 !! id = profiles st !! id)
  ∧ out = (if fails env UpdateProfile
           then (fail 500 SuperAdmin.msg_profile_failed, st)
           else (json SuccessBody, out.2))
  ∧ profiles out.2 !! profileId
    = (if fails env UpdateProfile then profiles st !! profileId
       else (λ p, mkProfile (full_name p) (phone p) (gender p) (dob p) (role p)
                    approved) <$> profiles st !! profileId).
Proof.
  unfold SuperAdmin.approve_hospital_admin.
  destruct (fails env UpdateProfile); simpl; repeat split; try done.
  - intros id Hid. by rewrite lookup_alter_ne.
  - rewrite lookup_alter_eq. by destruct (profiles st !! profileId).
Qed.

(** A pending hospital stays pending across the approval of its admin. *)
Lemma approve_hospital_admin_keeps_pending (env : Env) (profileId hid : string)
    (h : Hospital) (st : Store) :
  hospitals st !! hid = Some h → status h = pending →
  admin_profile_id h = Some profileId →
  ∃ h', hospitals (SuperAdmin.approve_hospital_admin env profileId st).2 !! hid
        = Some h' ∧ status h' = pending.
Proof.
  intros Hh Hs _. exists h. split; [|done].
  unfold SuperAdmin.approve_hospital_admin.
  by destruct (fails env UpdateProfile).
Qed.

(** ** Profile auto-provisioning *)

(** C6 as stated fails: an account without a profile and without a role
    in its metadata is given a profile whose role is [doctor], not
    [patient]. *)
Lemma auto_provision_default_not_patient :
  ProfileRoute.meta (Sample.account "u-1") meta_role = None
  ∧ profiles Sample.st_scope !! "u-1" = None
  ∧ ∃ (p : Profile) (st' : Store),
      ProfileRoute.get_me Sample.env_tokens (Some "Bearer t-new") Sample.st_scope
      = (json (ProfileBody (Sample.account "u-1") "u-1" p), st')
      ∧ profiles st' !! "u-1" = Some p
      ∧ role p = doctor
      ∧ role p ≠ patient.
Proof.
  split; [done|]. split; [by vm_compute|].
  eexists _, _. split; [by vm_compute|]. split; [by vm_compute|]. done.
Qed.

(** C6, amended. For an authenticated account without a profile, when
    the insert is accepted, GET /me creates a pending profile under the
    account's id and returns it; its role is the one named by the
    metadata, and [doctor] when the metadata carries no role. *)
Theorem auto_provision_role (env : Env) (authHeader : option string)
    (token : string) (u : User) (st : Store) (r : Role) :
  Middleware.bearer authHeader = Some token →
  getUser env token = inl u →
  fails env ReadProfile = false →
  profiles st !! user_id u = None →
  fails env InsertProfile = false →
  match Js.truthy (ProfileRoute.meta u meta_role) with
  | Some text => role_of_string text = Some r
  | None => r = doctor
  end →
  ProfileRoute.get_me env authHeader st
  = (json (ProfileBody u (user_id u) (ProfileRoute.new_profile u r)),
     Db.with_profiles (<[user_id u := ProfileRoute.new_profile u r]> (profiles st)) st)
  ∧ role (ProfileRoute.new_profile u r) = r
  ∧ approval_status (ProfileRoute.new_profile u r) = pending.
Proof.
  intros Hb Hu Hread Hnone Hins Hrole.
  unfold ProfileRoute.get_me. rewrite Hb, Hu, Hread, Hnone.
  unfold ProfileRoute.auto_create, ProfileRoute.inferredRole. rewrite Hins.
  assert (role_of_string (default "doctor" (Js.truthy (ProfileRoute.meta u meta_role)))
          = Some r) as ->.
  { destruct (Js.truthy (ProfileRoute.meta u meta_role)); simpl; [done|].
    by subst r. }
  unfold Db.insert_profile. by rewrite Hnone.
Qed.

Lemma auto_provision_role_witness :
  ProfileRoute.get_me Sample.env_tokens (Some "Bearer t-new") Sample.st_scope
  = (json (ProfileBody (Sample.account "u-1") "u-1"
             (ProfileRoute.new_profile (Sample.account "u-1") doctor)),
     Db.with_profiles
       (<["u-1" := ProfileRoute.new_profile (Sample.account "u-1") doctor]>
          (profiles Sample.st_scope)) Sample.st_scope)
  ∧ role (ProfileRoute.new_profile (Sample.account "u-1") doctor) = doctor
  ∧ approval_status (ProfileRoute.new_profile (Sample.account "u-1") doctor)
    = pending.
Proof.
  apply (auto_provision_role Sample.env_tokens (Some "Bearer t-new") "t-new"
           (Sample.account "u-1") Sample.st_scope doctor);
    reflexivity.
Defined.

(** The variant behind [authMiddleware] falls back to [patient], but an
    account without a profile never reaches its handler: the middleware
    answers 403, and the route never writes to the store. *)
Lemma guarded_default_is_patient (u : User) :
  Js.truthy (ProfileRoute.meta u meta_role) = None →
  ProfileRouteGuarded.inferredRole u = patient.
Proof. intros H. unfold ProfileRouteGuarded.inferredRole. by rewrite H. Qed.

Lemma guarded_never_provisions (env : Env) (req : Middleware.Request) (st : Store) :
  (ProfileRouteGuarded.get_me env req st).2 = st.
Proof.
  unfold ProfileRouteGuarded.get_me, Middleware.authMiddleware.
  repeat case_match; simplify_eq; done.
Qed.

Lemma guarded_without_profile (env : Env) (req : Middleware.Request)
    (token : string) (u : User) (st : Store) :
  Middleware.bearer (Middleware.authorization req) = Some token →
  getUser env token = inl u →
  profiles st !! user_id u = None →
  ProfileRouteGuarded.get_me env req st = (fail 403 Middleware.msg_no_profile, st).
Proof.
  intros Hb Hu Hnone.
  unfold ProfileRouteGuarded.get_me, Middleware.authMiddleware.
  rewrite Hb, Hu, Hnone. by destruct (fails env ReadCallerProfile).
Qed.

(** ** Approval gating at the API surface *)



(** The pending doctor [doc2] creates an assistant, and the pending
    assistant [as2] registers a patient and then finds it. *)
Lemma pending_accounts_pass_the_gates :
  (approval_status <$> profiles Sample.st_scope !! "doc2" = Some pending)
  ∧ (approval_status <$> profiles Sample.st_scope !! "as2" = Some pending)
  ∧ (Routers.doctor_post_assistants Sample.env_tokens (Sample.request "t-doc2")
       (Doctor.mkAssistantRequest (Some "Bilal") (Some "b@x.pk") None (Some "pw"))
       Sample.st_scope).1
    = mkResponse 201
        (AssistantBody (mkAssistantJson "as3" "Bilal" "b@x.pk" None pending))
  ∧ ∃ st',
      Routers.assistant_post_patients Sample.env_tokens (Sample.request "t-as2")
        (Sample.submit "Ali Khan") Sample.st_scope
      = (mkResponse 201
           (PatientBody created
              (mkPatientJson "p-100" (Some "Ali Khan") None None None
                 "12345-1234567-1" "2025-01-01T00:00:00Z")), st')
      ∧ (Routers.assistant_get_patients_search Sample.env_tokens
           (Sample.request "t-as2") (Some "12345-1234567-1") st').1
        = json (FoundBody "p-100"
                  (mkProfile (Some "Ali Khan") None None None patient approved)
                  "12345-1234567-1" [("H2", "Two")]).
Proof.
  split; [by vm_compute|]. split; [by vm_compute|]. split; [by vm_compute|].
  eexists. split; by vm_compute.
Qed.

(** * Further properties *)

(** ** Name normalisation *)

Lemma is_white_lower (c : ascii) : Js.is_white (Js.lower_char c) = Js.is_white c.
Proof. destruct c as [[] [] [] [] [] [] [] []]; vm_compute; reflexivity. Qed.

Lemma lower_char_idem (c : ascii) : Js.lower_char (Js.lower_char c) = Js.lower_char c.
Proof. destruct c as [[] [] [] [] [] [] [] []]; vm_compute; reflexivity. Qed.

Lemma toLowerCase_idem (s : string) :
  Js.toLowerCase (Js.toLowerCase s) = Js.toLowerCase s.
Proof. induction s as [|c r IH]; simpl; [done|]. by rewrite lower_char_idem, IH. Qed.

Lemma trimStart_lower (s : string) :
  Js.trimStart (Js.toLowerCase s) = Js.toLowerCase (Js.trimStart s).
Proof.
  induction s as [|c r IH]; simpl; [done|].
  rewrite is_white_lower. by destruct (Js.is_white c).
Qed.

Lemma trimEnd_lower (s : string) :
  Js.trimEnd (Js.toLowerCase s) = Js.toLowerCase (Js.trimEnd s).
Proof.
  induction s as [|c r IH]; simpl; [done|].
  rewrite IH, is_white_lower.
  destruct (Js.trimEnd r); simpl; [|done]. by destruct (Js.is_white c).
Qed.

Lemma collapse_lower (b : bool) (s : string) :
  Js.collapse_go b (Js.toLowerCase s) = Js.toLowerCase (Js.collapse_go b s).
Proof.
  revert b. induction s as [|c r IH]; intros b; simpl; [done|].
  rewrite is_white_lower.
  destruct (Js.is_white c); [destruct b|]; simpl; by rewrite IH.
Qed.

Lemma normalize_lower_first (s : string) :
  Assistant.normalize s
  = Js.collapse_spaces (Js.trim (Js.toLowerCase s)).
Proof.
  unfold Assistant.normalize, Js.collapse_spaces, Js.trim.
  by rewrite trimStart_lower, trimEnd_lower, collapse_lower.
Qed.

Lemma trimEnd_idem (s : string) : Js.trimEnd (Js.trimEnd s) = Js.trimEnd s.
Proof.
  induction s as [|c r IH]; simpl; [done|].
  destruct (Js.trimEnd r) as [|c' r'] eqn:E.
  - destruct (Js.is_white c) eqn:Hc; simpl; [done|]. by rewrite Hc.
  - simpl in *. by rewrite IH.
Qed.

Lemma trimStart_trimEnd (s : string) :
  Js.trimStart s = s → Js.trimStart (Js.trimEnd s) = Js.trimEnd s.
Proof.
  destruct s as [|c r]; simpl; [done|].
  destruct (Js.is_white c) eqn:Hc.
  - intros Heq. exfalso.
    assert (Hlen : ∀ t, String.length (Js.trimStart t) ≤ String.length t).
    { induction t as [|a t IH]; simpl; [done|]. destruct (Js.is_white a); simpl; lia. }
    specialize (Hlen r). rewrite Heq in Hlen. simpl in Hlen. lia.
  - intros _. destruct (Js.trimEnd r); simpl; by rewrite Hc.
Qed.

Lemma trimStart_idem (s : string) : Js.trimStart (Js.trimStart s) = Js.trimStart s.
Proof.
  induction s as [|c r IH]; simpl; [done|].
  destruct (Js.is_white c) eqn:Hc; [done|]. simpl. by rewrite Hc.
Qed.

Lemma trim_idem (s : string) : Js.trim (Js.trim s) = Js.trim s.
Proof.
  unfold Js.trim.
  rewrite (trimStart_trimEnd (Js.trimStart s)) by apply trimStart_idem.
  apply trimEnd_idem.
Qed.

Lemma collapse_go_idem (s : string) :
  (∀ b, Js.collapse_go b (Js.collapse_go true s) = Js.collapse_go true s)
  ∧ Js.collapse_go false (Js.collapse_go false s) = Js.collapse_go false s.
Proof.
  induction s as [|c r [IH1 IH2]]; simpl; [done|].
  destruct (Js.is_white c) eqn:Hc.
  - split; [done|]. simpl. by rewrite IH1.
  - split; [intros b|]; simpl; by rewrite Hc, IH2.
Qed.

Lemma collapse_nonempty (b : bool) (s : string) :
  Js.trimEnd s = s → s ≠ EmptyString → Js.collapse_go b s ≠ EmptyString.
Proof.
  revert b. induction s as [|c r IH]; intros b Ht Hne; [done|].
  simpl in *. destruct (Js.is_white c) eqn:Hc; [|done].
  destruct b; [|done].
  destruct (Js.trimEnd r) as [|c' r'] eqn:E; [done|].
  injection Ht as Ht. apply IH; [done|]. by rewrite <- Ht.
Qed.

Lemma trimEnd_collapse (b : bool) (s : string) :
  Js.trimEnd s = s → Js.trimEnd (Js.collapse_go b s) = Js.collapse_go b s.
Proof.
  revert b. induction s as [|c r IH]; intros b Ht; [done|].
  simpl in Ht.
  destruct (Js.trimEnd r) as [|c' r'] eqn:E.
  - destruct (Js.is_white c) eqn:Hc; [done|].
    injection Ht as Hr. subst r. simpl. rewrite Hc. simpl. by rewrite Hc.
  - injection Ht as Ht. subst r.
    assert (Hr : Js.trimEnd (String c' r') = String c' r')
      by (by rewrite <- E, trimEnd_idem).
    change (Js.collapse_go b (String c (String c' r')))
      with (if Js.is_white c
            then (if b then Js.collapse_go true (String c' r')
                  else String " "%char (Js.collapse_go true (String c' r')))
            else String c (Js.collapse_go false (String c' r'))).
    destruct (Js.is_white c) eqn:Hc.
    + destruct b; [by apply (IH true)|].
      pose proof (collapse_nonempty true (String c' r') Hr) as Hn.
      pose proof (IH true eq_refl) as Hi.
      destruct (Js.collapse_go true (String c' r')) as [|x y];
        [by exfalso; apply Hn|].
      change (Js.trimEnd (String " "%char (String x y)))
        with (match Js.trimEnd (String x y) with
              | EmptyString => EmptyString
              | r0 => String " "%char r0
              end).
      by rewrite Hi.
    + pose proof (IH false eq_refl) as Hi.
      destruct (Js.collapse_go false (String c' r')) as [|x y].
      * simpl. by rewrite Hc.
      * change (Js.trimEnd (String c (String x y)))
          with (match Js.trimEnd (String x y) with
                | EmptyString => if Js.is_white c then EmptyString
                                 else String c EmptyString
                | r0 => String c r0
                end).
        by rewrite Hi.
Qed.

Lemma trimStart_collapse (s : string) :
  Js.trimStart s = s → Js.trimStart (Js.collapse_go false s) = Js.collapse_go false s.
Proof.
  destruct s as [|c r]; [done|]. simpl.
  destruct (Js.is_white c) eqn:Hc.
  - intros Heq. exfalso.
    assert (Hlen : ∀ t, String.length (Js.trimStart t) ≤ String.length t).
    { induction t as [|a t IH]; simpl; [done|]. destruct (Js.is_white a); simpl; lia. }
    specialize (Hlen r). rewrite Heq in Hlen. simpl in Hlen. lia.
  - intros _. simpl. by rewrite Hc.
Qed.

Lemma trim_collapse_trim (s : string) :
  Js.trim (Js.collapse_spaces (Js.trim s)) = Js.collapse_spaces (Js.trim s).
Proof.
  unfold Js.trim at 1. unfold Js.collapse_spaces.
  rewrite trimStart_collapse.
  - apply trimEnd_collapse. unfold Js.trim. apply trimEnd_idem.
  - unfold Js.trim. apply trimStart_trimEnd, trimStart_idem.
Qed.

(** X1. For every name of code units below 256 (white space there is
    TAB, LF, VT, FF, CR, SPACE and U+00A0; capitals are A-Z and the
    accented ones U+00C0-U+00DE): normalising it twice is the same as
    normalising it once, and the normalised name is left unchanged by
    [trim], by the collapse of white space and by [toLowerCase]. *)
Theorem normalize_idempotent (s : string) :
  Assistant.normalize (Assistant.normalize s) = Assistant.normalize s
  ∧ Js.trim (Assistant.normalize s) = Assistant.normalize s
  ∧ Js.collapse_spaces (Assistant.normalize s) = Assistant.normalize s
  ∧ Js.toLowerCase (Assistant.normalize s) = Assistant.normalize s.
Proof.
  assert (Ht : Js.trim (Assistant.normalize s) = Assistant.normalize s).
  { rewrite normalize_lower_first. apply trim_collapse_trim. }
  assert (Hc : Js.collapse_spaces (Assistant.normalize s) = Assistant.normalize s).
  { rewrite normalize_lower_first. apply collapse_go_idem. }
  assert (Hl : Js.toLowerCase (Assistant.normalize s) = Assistant.normalize s).
  { unfold Assistant.normalize. apply toLowerCase_idem. }
  split; [|done].
  unfold Assistant.normalize at 1. by rewrite Ht, Hc, Hl.
Qed.

Lemma collapse_true_trimStart (s : string) :
  Js.collapse_go false (Js.trimStart s) = Js.collapse_go true s.
Proof.
  induction s as [|c r IH]; simpl; [done|].
  destruct (Js.is_white c) eqn:Hc; [done|]. simpl. by rewrite Hc.
Qed.

Lemma collapse_trimEnd (b : bool) (s : string) :
  Js.collapse_go b (Js.trimEnd s) = Js.trimEnd (Js.collapse_go b s).
Proof.
  revert b. induction s as [|c r IH]; intros b; [done|].
  change (Js.trimEnd (String c r))
    with (match Js.trimEnd r with
          | EmptyString => if Js.is_white c then EmptyString else String c EmptyString
          | r0 => String c r0
          end).
  change (Js.collapse_go b (String c r))
    with (if Js.is_white c
          then (if b then Js.collapse_go true r
                else String " "%char (Js.collapse_go true r))
          else String c (Js.collapse_go false r)).
  destruct (Js.trimEnd r) as [|c' r'] eqn:E.
  - destruct (Js.is_white c) eqn:Hc.
    + destruct b; [by rewrite <- IH|].
      simpl. by rewrite <- IH.
    + simpl. rewrite Hc. by rewrite <- IH.
  - assert (Hr : Js.trimEnd (String c' r') = String c' r')
      by (by rewrite <- E, trimEnd_idem).
    pose proof (collapse_nonempty true _ Hr) as Hn.
    change (Js.collapse_go b (String c (String c' r')))
      with (if Js.is_white c
            then (if b then Js.collapse_go true (String c' r')
                  else String " "%char (Js.collapse_go true (String c' r')))
            else String c (Js.collapse_go false (String c' r'))).
    destruct (Js.is_white c) eqn:Hc.
    + destruct b; [apply IH|].
      rewrite (IH true).
      change (Js.trimEnd (String " "%char (Js.collapse_go true r)))
        with (match Js.trimEnd (Js.collapse_go true r) with
              | EmptyString => EmptyString
              | r0 => String " "%char r0
              end).
      rewrite <- (IH true).
      by destruct (Js.collapse_go true (String c' r')); [exfalso; apply Hn|].
    + rewrite (IH false).
      change (Js.trimEnd (String c (Js.collapse_go false r)))
        with (match Js.trimEnd (Js.collapse_go false r) with
              | EmptyString => if Js.is_white c then EmptyString
                               else String c EmptyString
              | r0 => String c r0
              end).
      rewrite Hc. by destruct (Js.trimEnd (Js.collapse_go false r)).
Qed.

(** The normal form read from the left: skip leading white space while
    collapsing, then drop what white space is left at the end. *)
Lemma normalize_alt (s : string) :
  Assistant.normalize s = Js.toLowerCase (Js.trimEnd (Js.collapse_go true s)).
Proof.
  unfold Assistant.normalize, Js.collapse_spaces, Js.trim.
  by rewrite collapse_trimEnd, collapse_true_trimStart.
Qed.

Lemma collapse_true_white_prefix (w s : string) :
  Js.trimStart w = EmptyString →
  Js.collapse_go true (w +:+ s) = Js.collapse_go true s.
Proof.
  induction w as [|c r IH]; simpl; [done|].
  destruct (Js.is_white c); [done|]. discriminate.
Qed.

Lemma collapse_white_run (b : bool) (x w y : string) :
  Js.trimStart w = EmptyString → w ≠ EmptyString →
  Js.collapse_go b (x +:+ w +:+ y) = Js.collapse_go b (x +:+ " " +:+ y).
Proof.
  intros Hw Hne. revert b. induction x as [|c r IH]; intros b.
  - destruct w as [|a w']; [done|]. simpl in *.
    destruct (Js.is_white a); [|done].
    rewrite collapse_true_white_prefix by done. by destruct b.
  - simpl. destruct (Js.is_white c); [destruct b|]; by rewrite IH.
Qed.

Lemma trimEnd_white (w : string) :
  Js.trimStart w = EmptyString → Js.trimEnd w = EmptyString.
Proof.
  induction w as [|a w' IHw]; simpl; [done|].
  destruct (Js.is_white a); [|done]. intros Hw. by rewrite IHw.
Qed.

Lemma trimEnd_white_suffix (s w : string) :
  Js.trimStart w = EmptyString → Js.trimEnd (s +:+ w) = Js.trimEnd s.
Proof.
  intros Hw. induction s as [|c r IH]; simpl.
  - by apply trimEnd_white.
  - by rewrite IH.
Qed.

Lemma trimEnd_collapse_white_suffix (b : bool) (s w : string) :
  Js.trimStart w = EmptyString →
  Js.trimEnd (Js.collapse_go b (s +:+ w)) = Js.trimEnd (Js.collapse_go b s).
Proof.
  intros Hw. rewrite <- !collapse_trimEnd. by rewrite trimEnd_white_suffix.
Qed.

Lemma toLowerCase_app (a b : string) :
  Js.toLowerCase (a +:+ b) = Js.toLowerCase a +:+ Js.toLowerCase b.
Proof. induction a as [|c r IH]; simpl; [done|]. by rewrite IH. Qed.

(** X2. Two names of code units below 256 that differ only in letter
    case (of A-Z and of the accented capitals U+00C0-U+00DE) and in white
    space around them (U+00A0 included) have the same normal form. *)
Theorem normalize_ignores_case_and_margins (a b w1 w2 : string) :
  Js.toLowerCase a = Js.toLowerCase b →
  Js.trimStart w1 = EmptyString →
  Js.trimStart w2 = EmptyString →
  Assistant.normalize (w1 +:+ a +:+ w2) = Assistant.normalize b.
Proof.
  intros Hab H1 H2.
  rewrite normalize_alt, collapse_true_white_prefix, trimEnd_collapse_white_suffix
    by done.
  rewrite <- normalize_alt, !normalize_lower_first. by rewrite Hab.
Qed.

Lemma normalize_ignores_case_and_margins_witness :
  Assistant.normalize
    (String (Ascii.ascii_of_nat 160) " " +:+ GateSample.capital_elan +:+
     String (Ascii.ascii_of_nat 9) (String (Ascii.ascii_of_nat 160) ""))
  = Assistant.normalize GateSample.small_elan.
Proof.
  apply (normalize_ignores_case_and_margins GateSample.capital_elan
           GateSample.small_elan (String (Ascii.ascii_of_nat 160) " ")
           (String (Ascii.ascii_of_nat 9) (String (Ascii.ascii_of_nat 160) "")));
    reflexivity.
Defined.

(** X3. A run of white space inside a name of code units below 256
    counts as one space, whichever of TAB, LF, VT, FF, CR, SPACE and
    U+00A0 it is made of: replacing it by a single space does not change
    the normal form. *)
Theorem normalize_collapses_inner_runs (x w y : string) :
  Js.trimStart w = EmptyString → w ≠ EmptyString →
  Assistant.normalize (x +:+ w +:+ y) = Assistant.normalize (x +:+ " " +:+ y).
Proof.
  intros Hw Hne. rewrite !normalize_alt. by rewrite (collapse_white_run true x w y).
Qed.

Lemma normalize_collapses_inner_runs_witness :
  Assistant.normalize
    ("Ali" +:+ String (Ascii.ascii_of_nat 160) (String (Ascii.ascii_of_nat 9) " ")
     +:+ "Khan")
  = Assistant.normalize ("Ali" +:+ " " +:+ "Khan").
Proof.
  apply (normalize_collapses_inner_runs "Ali"
           (String (Ascii.ascii_of_nat 160) (String (Ascii.ascii_of_nat 9) " "))
           "Khan"); [reflexivity|].
  discriminate.
Defined.

(** ** The auth middleware *)

Lemma rev_app_rev_app (t a b : string) :
  String.rev_app (String.rev_app t a) b = String.rev_app a (t +:+ b).
Proof.
  revert a. induction t as [|c r IH]; intros a; simpl; [done|]. by rewrite IH.
Qed.

Lemma append_empty_r (t : string) : t +:+ EmptyString = t.
Proof.
  induction t as [|c r IH]; [done|].
  change (String c (r +:+ EmptyString) = String c r). by rewrite IH.
Qed.

Lemma split_go_no_space (cur t : string) :
  " "%char ∉ String.list_ascii_of_string t →
  Js.split_go cur t = [String.rev (String.rev_app t cur)].
Proof.
  revert cur. induction t as [|c r IH]; intros cur Hns; simpl; [done|].
  simpl in Hns. apply not_elem_of_cons in Hns as [Hc Hr].
  rewrite decide_False by done. by apply IH.
Qed.

(** X4. The middleware reads back the token of a header built as
    [Bearer <token>], for every token without a space; a header that does
    not start with [Bearer ] carries no token. *)
Theorem bearer_round_trip (token : string) :
  " "%char ∉ String.list_ascii_of_string token →
  Middleware.bearer (Some ("Bearer " +:+ token)) = Some token
  ∧ ∀ h, Js.startsWith "Bearer " h = false → Middleware.bearer (Some h) = None.
Proof.
  intros Hns. split.
  - unfold Middleware.bearer. simpl.
    unfold Js.split_space. simpl.
    rewrite split_go_no_space by done. simpl.
    unfold String.rev. by rewrite rev_app_rev_app, append_empty_r.
  - intros h Hh. unfold Middleware.bearer. by rewrite Hh.
Qed.

Lemma bearer_round_trip_witness :
  Middleware.bearer (Some ("Bearer " +:+ "t-adm1")) = Some "t-adm1"
  ∧ ∀ h, Js.startsWith "Bearer " h = false → Middleware.bearer (Some h) = None.
Proof.
  apply (bearer_round_trip "t-adm1"). vm_compute.
  intros H. repeat (apply elem_of_cons in H as [H|H]; [discriminate H|]).
  by apply not_elem_of_nil in H.
Defined.

(** X5. A handler mounted behind [authMiddleware] and [requireRole]
    runs only for a caller whose token the identity provider accepts and
    whose profile is in the store with one of the listed roles; behind
    [requireApprovedRole] the profile is moreover [approved]. Every other
    request is answered 401 or 403 and leaves the store as it was. *)
Theorem gates_are_sound (env : Env) (roles : list Role)
    (handler : Middleware.Request → Store → Response * Store)
    (req : Middleware.Request) (st : Store) :
  let admitted (approved_only : bool) (out : Response * Store) :=
    ∃ token u p,
      Middleware.bearer (Middleware.authorization req) = Some token
      ∧ getUser env token = inl u
      ∧ profiles st !! user_id u = Some p
      ∧ role p ∈ roles
      ∧ (approved_only = true → approval_status p = approved)
      ∧ out = handler (Middleware.mkRequest (Middleware.authorization req)
                         (Some u) (Some (user_id u, p))) st in
  let refused (out : Response * Store) :=
    out.2 = st ∧ (code out.1 = 401 ∨ code out.1 = 403) in
  (refused (Middleware.use env (Middleware.requireRole roles) handler req st)
   ∨ admitted false (Middleware.use env (Middleware.requireRole roles) handler req st))
  ∧ (refused (Middleware.use env (Middleware.requireApprovedRole roles) handler req st)
     ∨ admitted true
         (Middleware.use env (Middleware.requireApprovedRole roles) handler req st)).
Proof.
  intros admitted refused. subst admitted refused.
  unfold Middleware.use, Middleware.authMiddleware.
  destruct (Middleware.bearer (Middleware.authorization req)) as [token|] eqn:Hb;
    [|split; left; simpl; auto].
  destruct (getUser env token) as [u|m] eqn:Hu; [|split; left; simpl; auto].
  destruct (fails env ReadCallerProfile); [split; left; simpl; auto|].
  destruct (profiles st !! user_id u) as [p|] eqn:Hp; [|split; left; simpl; auto].
  unfold Middleware.requireRole, Middleware.requireApprovedRole. simpl.
  split.
  - case_bool_decide as Hr; [|left; simpl; auto].
    right. exists token, u, p. repeat split; done.
  - case_bool_decide as Hr; [|left; simpl; auto].
    case_bool_decide as Ha; [left; simpl; auto|].
    right. exists token, u, p. repeat split; try done.
Qed.

(** ** POST /api/assistant/patients: what it leaves alone *)

(** Every way in which the handler can change [profiles] and
    [patient_profiles]. *)
Lemma post_patients_effect (env : Env) (profile : option (string * Profile))
    (b : Assistant.PatientRequest) (st : Store) :
  let st' := (Assistant.post_patients env profile b st).2 in
  hospitals st' = hospitals st
  ∧ doctor_profiles st' = doctor_profiles st
  ∧ doctor_assistant_profiles st' = doctor_assistant_profiles st
  ∧ (profiles st' = profiles st
     ∨ (∃ eid ep fullName,
          profiles st !! eid = Some ep
          ∧ (∀ n, Js.truthy (full_name ep) = Some n →
                  Assistant.normalize n = Assistant.normalize fullName)
          ∧ profiles st'
            = alter (Db.apply_patch (Assistant.updatePayload ep fullName b)) eid
                (profiles st))
     ∨ (∃ id p, profiles st !! id = None ∧ profiles st' = <[id := p]> (profiles st)))
  ∧ (patient_profiles st' = patient_profiles st
     ∨ (∃ f : PatientProfile → PatientProfile,
          patient_profiles st' = f <$> patient_profiles st)
     ∨ (∃ row, patient_profiles st' = patient_profiles st ++ [row])).
Proof.
  assert (Hcheck : ∀ (ep : Profile) (fullName : string),
    match Js.truthy (full_name ep) with
    | Some n => bool_decide (Assistant.normalize n ≠ Assistant.normalize fullName)
    | None => false
    end = false →
    ∀ n, Js.truthy (full_name ep) = Some n →
         Assistant.normalize n = Assistant.normalize fullName).
  { intros ep fullName Hm n Hn. rewrite Hn in Hm.
    apply bool_decide_eq_false in Hm.
    by destruct (decide (Assistant.normalize n = Assistant.normalize fullName)). }
  unfold Assistant.post_patients.
  destruct (Js.truthy (Assistant.req_fullName b)) as [fullName|];
    [|by destruct (Js.truthy (Assistant.req_cnic b)); simpl; split_and!; try left].
  destruct (Js.truthy (Assistant.req_cnic b)) as [cnic|];
    [|by simpl; split_and!; try left].
  destruct profile as [[aid ap]|]; [|by simpl; split_and!; try left].
  destruct (Assistant.assistant_hospital env aid st) as [hospitalId|];
    [|by simpl; split_and!; try left].
  destruct (fails env ReadPatientProfiles); [by simpl; split_and!; try left|].
  destruct (Db.patients_by_cnic cnic st) as [|targetRow rest].
  - unfold Assistant.case_B, Db.insert_profile.
    destruct (fails env InsertProfile); [by simpl; split_and!; try left|].
    destruct (profiles st !! gen_id env) eqn:Hfresh;
      [by simpl; split_and!; try left|].
    destruct (fails env InsertPatientProfile); simpl; split_and!; try done.
    + right; right. eauto.
    + by left.
    + right; right. eauto.
    + right; right. eauto.
  - unfold Assistant.case_A.
    destruct (fails env ReadProfile); [by simpl; split_and!; try left|].
    destruct (profiles st !! pp_profile_id targetRow) as [ep|] eqn:Hep;
      [|by simpl; split_and!; try left].
    destruct (match Js.truthy (full_name ep) with
              | Some n => bool_decide (Assistant.normalize n ≠ Assistant.normalize fullName)
              | None => false
              end) eqn:Hm; [by simpl; split_and!; try left|].
    pose proof (Hcheck ep fullName Hm) as Hn.
    assert (Hprof : ∀ s : Store,
      profiles s = profiles (Assistant.refresh env (pp_profile_id targetRow)
                     (Assistant.updatePayload ep fullName b) st) →
      profiles s = profiles st
      ∨ (∃ eid ep0 fullName0,
          profiles st !! eid = Some ep0
          ∧ (∀ n, Js.truthy (full_name ep0) = Some n →
                  Assistant.normalize n = Assistant.normalize fullName0)
          ∧ profiles s
            = alter (Db.apply_patch (Assistant.updatePayload ep0 fullName0 b)) eid
                (profiles st))
      ∨ (∃ id p, profiles st !! id = None ∧ profiles s = <[id := p]> (profiles st))).
    { intros s ->. unfold Assistant.refresh.
      destruct (Db.patch_is_empty _); [by left|].
      destruct (fails env UpdateProfile); [by left|].
      right; left. exists (pp_profile_id targetRow), ep, fullName. by split_and!. }
    assert (Hframe :
      let s := Assistant.refresh env (pp_profile_id targetRow)
                 (Assistant.updatePayload ep fullName b) st in
      hospitals s = hospitals st ∧ doctor_profiles s = doctor_profiles st
      ∧ doctor_assistant_profiles s = doctor_assistant_profiles st
      ∧ patient_profiles s = patient_profiles st).
    { unfold Assistant.refresh.
      destruct (Db.patch_is_empty _); [done|].
      by destruct (fails env UpdateProfile). }
    destruct Hframe as (Hf1 & Hf2 & Hf3 & Hf4).
    destruct (List.find _ _).
    + simpl. split_and!; try done; [by apply Hprof|by left].
    + destruct (fails env UpdatePatientLink); simpl.
      * split_and!; try done; [by apply Hprof|by left].
      * split_and!; try done; [by apply Hprof|].
        right; left. rewrite Hf4. eauto.
Qed.

(** X6. Whatever the request and whatever fails, POST /patients leaves
    [hospitals], [doctor_profiles] and [doctor_assistant_profiles] as
    they were, removes no patient row, and keeps every existing profile
    with its role and its approval status. *)
Theorem post_patients_frame (env : Env) (profile : option (string * Profile))
    (b : Assistant.PatientRequest) (st : Store) :
  let st' := (Assistant.post_patients env profile b st).2 in
  hospitals st' = hospitals st
  ∧ doctor_profiles st' = doctor_profiles st
  ∧ doctor_assistant_profiles st' = doctor_assistant_profiles st
  ∧ length (patient_profiles st) ≤ length (patient_profiles st')
  ∧ ∀ id p, profiles st !! id = Some p →
      ∃ p', profiles st' !! id = Some p'
            ∧ role p' = role p ∧ approval_status p' = approval_status p.
Proof.
  destruct (post_patients_effect env profile b st) as (H1 & H2 & H3 & Hp & Hr).
  simpl. split_and!; try done.
  - destruct Hr as [-> | [[f ->] | [row ->]]].
    + done.
    + by rewrite length_fmap.
    + rewrite length_app. lia.
  - intros id p Hid.
    destruct Hp as [-> | [(eid & ep & fullName & Hep & _ & ->) | (nid & np & Hnone & ->)]].
    + eauto.
    + destruct (decide (eid = id)) as [->|Hne].
      * rewrite lookup_alter_eq, Hid. simpl. eauto.
      * rewrite lookup_alter_ne by done. eauto.
    + rewrite lookup_insert_ne by congruence. eauto.
Qed.



(** X8. An answer of POST /patients with a 4xx status (missing fields,
    no session profile, assistant without hospital, name mismatch) comes
    with the store untouched. *)
Theorem post_patients_4xx_unchanged (env : Env)
    (profile : option (string * Profile)) (b : Assistant.PatientRequest)
    (st : Store) :
  400 ≤ code (Assistant.post_patients env profile b st).1 < 500 →
  (Assistant.post_patients env profile b st).2 = st.
Proof.
  unfold Assistant.post_patients, Assistant.case_A, Assistant.case_B.
  repeat case_match; simpl; try done; lia.
Qed.

Lemma post_patients_4xx_unchanged_witness :
  (Assistant.post_patients Sample.env_ok (Some ("a2", Sample.assistant_row))
     (Sample.submit "Sara Ahmed") Sample.st_ali).2 = Sample.st_ali.
Proof.
  apply (post_patients_4xx_unchanged Sample.env_ok
           (Some ("a2", Sample.assistant_row)) (Sample.submit "Sara Ahmed")
           Sample.st_ali).
  vm_compute. lia.
Defined.

(** ** GET /api/assistant/patients/search *)

Lemma elem_of_unique (seen ids : list string) (x : string) :
  x ∈ AssistantSearch.unique seen ids ↔ x ∈ ids ∧ x ∉ seen.
Proof.
  revert seen. induction ids as [|i r IH]; intros seen; simpl.
  - split.
    + intros Hx. by apply not_elem_of_nil in Hx.
    + intros [Hx _]. by apply not_elem_of_nil in Hx.
  - case_bool_decide as Hi.
    + rewrite IH, elem_of_cons. split.
      * intros [Hr Hs]. split; [by right|done].
      * intros [[Hx|Hr] Hs]; [by subst x|done].
    + rewrite elem_of_cons, IH, not_elem_of_cons, elem_of_cons. split.
      * intros [Hx|[Hr [Hxi Hs]]]; [subst x; by split; [left|]|].
        split; [by right|done].
      * intros [[Hx|Hr] Hs]; [by left|].
        destruct (decide (x = i)) as [Hxi|Hne]; [by left|]. by right.
Qed.

(** X9. When the search answers "found", the CNIC it reports is the
    trimmed query ([trim] removes TAB, LF, VT, FF, CR, SPACE and U+00A0;
    queries are strings of code units below 256) and is not empty, the
    patient is the profile of the first row with that CNIC, the store is
    untouched, and every hospital listed is the hospital of some row
    with that CNIC, under its name in [hospitals]; when the read of
    [hospitals] succeeds, every such hospital that exists is listed. *)
Theorem search_found_sound (env : Env) (query_cnic : option string)
    (st st' : Store) (id : string) (p : Profile) (cnic : string)
    (hs : list (string * string)) :
  AssistantSearch.get_patients_search env query_cnic st
    = (json (FoundBody id p cnic hs), st') →
  st' = st
  ∧ (∃ q, query_cnic = Some q ∧ cnic = Js.trim q)
  ∧ cnic ≠ "" ∧ Js.trim cnic = cnic
  ∧ (∃ first, head (Db.patients_by_cnic cnic st) = Some first
              ∧ pp_profile_id first = id)
  ∧ profiles st !! id = Some p
  ∧ (∀ h nm, (h, nm) ∈ hs →
       (∃ r, r ∈ Db.patients_by_cnic cnic st ∧ pp_hospital_id r = Some h)
       ∧ h_name <$> hospitals st !! h = Some nm)
  ∧ (fails env ReadHospitals = false →
     ∀ r h hrow, r ∈ Db.patients_by_cnic cnic st →
       Js.truthy (pp_hospital_id r) = Some h →
       hospitals st !! h = Some hrow → (h, h_name hrow) ∈ hs).
Proof.
  unfold AssistantSearch.get_patients_search.
  destruct (Js.truthy (Js.trim <$> query_cnic)) as [c|] eqn:Hq; [|done].
  apply truthy_Some in Hq as [Hq Hne].
  destruct query_cnic as [q|]; [|done]. simpl in Hq. injection Hq as Hq.
  destruct (fails env ReadPatientProfiles); [done|].
  destruct (Db.patients_by_cnic c st) as [|first rest] eqn:Hrows; [done|].
  destruct (fails env ReadProfile); [done|].
  destruct (profiles st !! pp_profile_id first) as [p0|] eqn:Hp; [|done].
  cbv zeta.
  set (ids := AssistantSearch.unique []
                (omap (λ r, Js.truthy (pp_hospital_id r)) (first :: rest))).
  intros Heq. injection Heq as <- <- <- <- <-.
  split; [done|]. split; [by eauto|]. split; [done|].
  split; [by rewrite <- Hq, trim_idem|].
  rewrite Hrows. split; [by eauto|]. split; [done|].
  assert (Hids : ∀ h, h ∈ ids ↔
            ∃ r, r ∈ first :: rest ∧ Js.truthy (pp_hospital_id r) = Some h).
  { intros h. unfold ids. rewrite elem_of_unique, list_elem_of_omap.
    split; [by intros [Hr _]|]. intros Hr. split; [done|]. apply not_elem_of_nil. }
  split.
  - intros h nm Hin.
    assert (Hin' : (h, nm) ∈ (λ kv : string * Hospital, (kv.1, h_name kv.2)) <$>
              filter (λ kv, kv.1 ∈ ids) (map_to_list (hospitals st))).
    { destruct ids; [by apply not_elem_of_nil in Hin|].
      by destruct (fails env ReadHospitals); [apply not_elem_of_nil in Hin|]. }
    apply list_elem_of_fmap in Hin' as ([k hrow] & [= -> ->] & Hk).
    apply list_elem_of_filter in Hk as [Hk Hm]. simpl in Hk.
    apply elem_of_map_to_list in Hm.
    apply Hids in Hk as (r & Hr & Ht). apply truthy_Some in Ht as [Ht _].
    split; [by eauto|]. by rewrite Hm.
  - intros Hread r h hrow Hr Ht Hh. rewrite Hread.
    assert (Hk : h ∈ ids) by (apply Hids; eauto).
    assert (Hin' : (h, h_name hrow) ∈
              (λ kv : string * Hospital, (kv.1, h_name kv.2)) <$>
              filter (λ kv, kv.1 ∈ ids) (map_to_list (hospitals st))).
    { apply list_elem_of_fmap. exists (h, hrow). split; [done|].
      apply list_elem_of_filter. split; [done|]. by apply elem_of_map_to_list. }
    by destruct ids; [apply not_elem_of_nil in Hk|].
Qed.

Lemma search_found_sound_witness :
  let q := String (Ascii.ascii_of_nat 160) "42101-7654321-7 " in
  GateSample.st_gates = GateSample.st_gates
  ∧ (∃ q', Some q = Some q' ∧ "42101-7654321-7" = Js.trim q')
  ∧ "42101-7654321-7" ≠ "" ∧ Js.trim "42101-7654321-7" = "42101-7654321-7"
  ∧ (∃ first, head (Db.patients_by_cnic "42101-7654321-7" GateSample.st_gates)
              = Some first
              ∧ pp_profile_id first = "p-7")
  ∧ profiles GateSample.st_gates !! "p-7" = Some GateSample.zara
  ∧ (∀ h nm, (h, nm) ∈ [("H2", "Two")] →
       (∃ r, r ∈ Db.patients_by_cnic "42101-7654321-7" GateSample.st_gates
             ∧ pp_hospital_id r = Some h)
       ∧ h_name <$> hospitals GateSample.st_gates !! h = Some nm)
  ∧ (fails GateSample.env_gates ReadHospitals = false →
     ∀ r h hrow, r ∈ Db.patients_by_cnic "42101-7654321-7" GateSample.st_gates →
       Js.truthy (pp_hospital_id r) = Some h →
       hospitals GateSample.st_gates !! h = Some hrow →
       (h, h_name hrow) ∈ [("H2", "Two")]).
Proof.
  apply (search_found_sound GateSample.env_gates
           (Some (String (Ascii.ascii_of_nat 160) "42101-7654321-7 "))
           GateSample.st_gates GateSample.st_gates "p-7" GateSample.zara
           "42101-7654321-7" [("H2", "Two")]).
  vm_compute. reflexivity.
Defined.

(** The search sees a row only under the trimmed query: a row whose
    CNIC has white space around it is reported by no query. *)
Lemma search_reports_trimmed (env : Env) (query_cnic : option string)
    (st st' : Store) (id : string) (p : Profile) (cnic : string)
    (hs : list (string * string)) :
  AssistantSearch.get_patients_search env query_cnic st
    = (json (FoundBody id p cnic hs), st') →
  Js.trim cnic = cnic.
Proof.
  unfold AssistantSearch.get_patients_search.
  destruct (Js.truthy (Js.trim <$> query_cnic)) as [c|] eqn:Hq; [|done].
  apply truthy_Some in Hq as [Hq Hne].
  destruct query_cnic as [q|]; [|done]. simpl in Hq. injection Hq as Hq.
  destruct (fails env ReadPatientProfiles); [done|].
  destruct (Db.patients_by_cnic c st) as [|first rest]; [done|].
  destruct (fails env ReadProfile); [done|].
  destruct (profiles st !! pp_profile_id first) as [p0|]; [|done].
  cbv zeta. intros Heq. injection Heq as _ _ Hc _ _.
  rewrite <- Hc, <- Hq. apply trim_idem.
Qed.

(** X10. POST /patients stores the CNIC as it was submitted, the search
    compares the stored CNIC with the trimmed query. So a patient that
    POST /patients has just created is found, with the same id and name
    and as an approved patient profile, by every query whose trimmed
    form is the stored CNIC; a query with another trimmed form does not
    see the new row (with no older row for it the answer is "not
    found"); and a patient created under a CNIC with white space around
    it is reported by no query at all: searching for that same CNIC
    answers "not found" unless an older row holds the trimmed CNIC. *)
Theorem created_then_found (env1 env2 : Env) (profile : option (string * Profile))
    (b : Assistant.PatientRequest) (st st1 : Store) (c : nat) (pj : PatientJson) :
  Assistant.post_patients env1 profile b st
    = (mkResponse c (PatientBody created pj), st1) →
  fails env2 ReadPatientProfiles = false →
  fails env2 ReadProfile = false →
  Js.truthy (Assistant.req_cnic b) = Some (pj_cnic pj)
  ∧ (∃ row, Db.patients_by_cnic (pj_cnic pj) st1 = [row]
            ∧ pp_profile_id row = pj_id pj ∧ pp_cnic row = pj_cnic pj)
  ∧ (∀ q, Js.trim q = pj_cnic pj →
       ∃ p hs,
         AssistantSearch.get_patients_search env2 (Some q) st1
           = (json (FoundBody (pj_id pj) p (pj_cnic pj) hs), st1)
         ∧ full_name p = pj_full_name pj
         ∧ role p = patient ∧ approval_status p = approved)
  ∧ (∀ q, Js.trim q ≠ pj_cnic pj →
       Db.patients_by_cnic (Js.trim q) st1 = Db.patients_by_cnic (Js.trim q) st
       ∧ (Js.trim q ≠ "" → Db.patients_by_cnic (Js.trim q) st = [] →
          AssistantSearch.get_patients_search env2 (Some q) st1
            = (json NotFoundBody, st1)))
  ∧ (Js.trim (pj_cnic pj) ≠ pj_cnic pj →
       (∀ q id p cn hs st2,
          AssistantSearch.get_patients_search env2 q st1
            = (json (FoundBody id p cn hs), st2) → cn ≠ pj_cnic pj)
       ∧ (Js.trim (pj_cnic pj) ≠ "" →
          Db.patients_by_cnic (Js.trim (pj_cnic pj)) st = [] →
          AssistantSearch.get_patients_search env2 (Some (pj_cnic pj)) st1
            = (json NotFoundBody, st1))).
Proof.
  intros Hfirst Hread Hprof.
  unfold Assistant.post_patients in Hfirst.
  destruct (Js.truthy (Assistant.req_fullName b)) as [fullName|] eqn:Hname;
    [|by destruct (Js.truthy (Assistant.req_cnic b))].
  destruct (Js.truthy (Assistant.req_cnic b)) as [cnic|] eqn:Hcnic; [|done].
  destruct profile as [[aid ap]|]; [|done].
  destruct (Assistant.assistant_hospital env1 aid st) as [H|]; [|done].
  destruct (fails env1 ReadPatientProfiles); [done|].
  destruct (Db.patients_by_cnic cnic st) as [|row rows] eqn:Hrows;
    [|by apply case_A_never_creates in Hfirst].
  unfold Assistant.case_B, Db.insert_profile in Hfirst.
  destruct (fails env1 InsertProfile); [done|].
  destruct (profiles st !! gen_id env1) eqn:Hfresh; [done|].
  destruct (fails env1 InsertPatientProfile); [done|].
  injection Hfirst as <- <- <-. simpl in *.
  apply truthy_Some in Hcnic as [_ Hne].
  assert (Hnew : Db.patients_by_cnic cnic
            (Db.with_patient_profiles
               (patient_profiles st ++
                [mkPatientProfile (gen_id env1) (Some H) cnic (Some aid) (now env1)])
               (Db.with_profiles
                  (<[gen_id env1 := mkProfile (Some fullName) (Assistant.req_phone b)
                                      (Assistant.req_gender b) (Assistant.req_dob b)
                                      patient approved]> (profiles st)) st))
          = [mkPatientProfile (gen_id env1) (Some H) cnic (Some aid) (now env1)]).
  { unfold Db.patients_by_cnic in *. simpl.
    by rewrite filter_app, Hrows, filter_cons, decide_True. }
  assert (Hother : ∀ c', c' ≠ cnic →
          Db.patients_by_cnic c'
            (Db.with_patient_profiles
               (patient_profiles st ++
                [mkPatientProfile (gen_id env1) (Some H) cnic (Some aid) (now env1)])
               (Db.with_profiles
                  (<[gen_id env1 := mkProfile (Some fullName) (Assistant.req_phone b)
                                      (Assistant.req_gender b) (Assistant.req_dob b)
                                      patient approved]> (profiles st)) st))
          = Db.patients_by_cnic c' st).
  { intros c' Hc'. unfold Db.patients_by_cnic. simpl.
    rewrite filter_app, filter_cons, decide_False by (simpl; congruence).
    by rewrite filter_nil, app_nil_r. }
  assert (Hmiss : ∀ q, Js.trim q ≠ cnic → Js.trim q ≠ "" →
          Db.patients_by_cnic (Js.trim q) st = [] →
          AssistantSearch.get_patients_search env2 (Some q)
            (Db.with_patient_profiles
               (patient_profiles st ++
                [mkPatientProfile (gen_id env1) (Some H) cnic (Some aid) (now env1)])
               (Db.with_profiles
                  (<[gen_id env1 := mkProfile (Some fullName) (Assistant.req_phone b)
                                      (Assistant.req_gender b) (Assistant.req_dob b)
                                      patient approved]> (profiles st)) st))
          = (json NotFoundBody,
             Db.with_patient_profiles
               (patient_profiles st ++
                [mkPatientProfile (gen_id env1) (Some H) cnic (Some aid) (now env1)])
               (Db.with_profiles
                  (<[gen_id env1 := mkProfile (Some fullName) (Assistant.req_phone b)
                                      (Assistant.req_gender b) (Assistant.req_dob b)
                                      patient approved]> (profiles st)) st))).
  { intros q Hq Hqne Hnone. unfold AssistantSearch.get_patients_search.
    change (Js.trim <$> Some q) with (Some (Js.trim q)).
    rewrite truthy_of_Some by done. rewrite Hread, Hother by done.
    by rewrite Hnone. }
  split; [done|].
  split; [by eexists|].
  split; [|split].
  - intros q Hq. unfold AssistantSearch.get_patients_search.
    change (Js.trim <$> Some q) with (Some (Js.trim q)).
    rewrite Hq, truthy_of_Some, Hread, Hnew by done. simpl.
    rewrite Hprof, lookup_insert_eq.
    eexists _, _. split; [reflexivity|]. done.
  - intros q Hq. split; [by apply Hother|]. by apply Hmiss.
  - intros Hraw. split.
    + intros q id p cn hs st2 Hfound ->.
      apply search_reports_trimmed in Hfound. done.
    + intros Hqne Hnone. by apply Hmiss.
Qed.

Lemma created_then_found_witness :
  (∃ p hs,
     AssistantSearch.get_patients_search Sample.env_ok (Some " 12345-1234567-1 ")
       Sample.st_ali
     = (json (FoundBody "p-100" p "12345-1234567-1" hs), Sample.st_ali)
     ∧ full_name p = Some "Ali Khan"
     ∧ role p = patient ∧ approval_status p = approved)
  ∧ AssistantSearch.get_patients_search Sample.env_ok (Some "99999-0000000-9")
      Sample.st_ali
    = (json NotFoundBody, Sample.st_ali)
  ∧ AssistantSearch.get_patients_search Sample.env_ok
      (Some GateSample.padded_cnic) GateSample.st_padded
    = (json NotFoundBody, GateSample.st_padded).
Proof.
  destruct (created_then_found Sample.env_ok Sample.env_ok
              (Some ("a1", Sample.assistant_row)) (Sample.submit "Ali Khan")
              Sample.st_empty Sample.st_ali 201 Sample.ali_json)
    as (_ & _ & Hfound & Hother & _); [vm_compute; reflexivity..|].
  destruct (created_then_found Sample.env_ok Sample.env_ok
              (Some ("a1", Sample.assistant_row)) GateSample.submit_padded
              Sample.st_empty GateSample.st_padded 201 GateSample.padded_json)
    as (_ & _ & _ & _ & Hpadded); [vm_compute; reflexivity..|].
  split; [|split].
  - apply (Hfound " 12345-1234567-1 "). vm_compute. reflexivity.
  - apply (Hother "99999-0000000-9"); vm_compute; [congruence..|reflexivity].
  - apply Hpadded; vm_compute; [congruence..|reflexivity].
Defined.

(** A patient registered under " 12345-1234567-1 ", with the blanks: the
    row keeps the blanks, and the search for that same string, which
    looks for "12345-1234567-1", answers "not found"; the search for the
    CNIC without the blanks does so too. *)
Lemma padded_cnic_is_not_found :
  let padded := " 12345-1234567-1 " in
  let b := Assistant.mkPatientRequest (Some "Ali Khan") (Some padded) None None None in
  let out := Assistant.post_patients Sample.env_ok (Some ("a1", Sample.assistant_row))
               b Sample.st_empty in
  out.1 = mkResponse 201
            (PatientBody created
               (mkPatientJson "p-100" (Some "Ali Khan") None None None padded
                  "2025-01-01T00:00:00Z"))
  ∧ patient_profiles out.2
    = [mkPatientProfile "p-100" (Some "H1") padded (Some "a1") "2025-01-01T00:00:00Z"]
  ∧ AssistantSearch.get_patients_search Sample.env_ok (Some padded) out.2
    = (json NotFoundBody, out.2)
  ∧ AssistantSearch.get_patients_search Sample.env_ok (Some "12345-1234567-1") out.2
    = (json NotFoundBody, out.2).
Proof. by vm_compute. Qed.

(** ** POST /api/doctor/assistants *)

(** Every way in which the handler can end, with the store it leaves. *)
Lemma post_assistants_effect (env : Env) (profile : option (string * Profile))
    (b : Doctor.AssistantRequest) (st : Store) :
  let out := Doctor.post_assistants env profile b st in
  (out.2 = st ∧ code out.1 ≠ 201)
  ∨ (∃ did dp dprow aid fullName,
       profile = Some (did, dp)
       ∧ Db.single (Db.doctor_profiles_of did st) = Some dprow
       ∧ createUser env = inl aid
       ∧ profiles st !! aid = None
       ∧ Js.truthy (Doctor.req_fullName b) = Some fullName
       ∧ let st1 :=
           Db.with_profiles
             (<[aid := mkProfile (Some fullName) (Doctor.req_phone b) None None
                         doctor_assistant pending]> (profiles st)) st in
         (out.2 = st1 ∧ out.1 = fail 500 Doctor.msg_link_failed)
         ∨ (out.2 = Db.with_assistant_links
                      (doctor_assistant_profiles st ++
                       [mkAssistantLink aid (Some did) (dp_hospital_id dprow) pending])
                      st1
            ∧ ∃ email, out.1 = mkResponse 201
                 (AssistantBody (mkAssistantJson aid fullName email
                                   (Doctor.req_phone b) pending)))).
Proof.
  unfold Doctor.post_assistants, Doctor.post_assistants_run, Db.insert_profile.
  destruct (Js.truthy (Doctor.req_fullName b)) as [fullName|] eqn:Hn;
    [|by left].
  destruct (Js.truthy (Doctor.req_email b)) as [email|]; [|by left].
  destruct (Js.truthy (Doctor.req_password b)); [|by left].
  destruct profile as [[did dp]|]; [|by left].
  destruct (fails env ReadDoctorProfile); [by left|].
  destruct (Db.single (Db.doctor_profiles_of did st)) as [dprow|] eqn:Hd;
    [|by left].
  destruct (createUser env) as [aid|m] eqn:Hc; [|by left].
  destruct (fails env InsertProfile); [by left|].
  destruct (profiles st !! aid) eqn:Hfresh; [by left|].
  right. exists did, dp, dprow, aid, fullName. split_and!; try done.
  destruct (fails env InsertAssistantLink); simpl; [by left|].
  right. split; [done|]. by eexists.
Qed.



(** The insert into [profiles] fails after the account was created: the
    answer is 500, the tables are as before, and the account "as3"
    exists at the identity provider without a profile. *)
Lemma profile_insert_failure_keeps_account :
  let env :=
    mkEnv (λ c, match c with InsertProfile => true | _ => false end)
      "p-100" "2025-01-01T00:00:00Z" (getUser GateSample.env_gates) (inl "as3") in
  Doctor.post_assistants_run env (Some ("doc2", GateSample.doc2_profile))
    GateSample.bilal GateSample.st_gates
  = (fail 500 Doctor.msg_profile_failed, GateSample.st_gates, Some "as3").
Proof. by vm_compute. Qed.

(** X12. An assistant that a doctor has just created is resolved by POST
    /patients to the hospital of that doctor, and, with its profile still
    pending, registers a new patient there: the new patient row carries
    that hospital and the assistant as creator. *)
Theorem new_assistant_registers_for_doctors_hospital (env1 env2 : Env)
    (did : string) (dp : Profile) (ab : Doctor.AssistantRequest)
    (st st1 : Store) (aj : AssistantJson) (dprow : DoctorProfile) (H : string)
    (pb : Assistant.PatientRequest) (fullName cnic : string) :
  Doctor.post_assistants env1 (Some (did, dp)) ab st
    = (mkResponse 201 (AssistantBody aj), st1) →
  Db.single (Db.doctor_profiles_of did st) = Some dprow →
  Js.truthy (dp_hospital_id dprow) = Some H →
  Db.assistant_links_of (aj_id aj) st = [] →
  Js.truthy (Assistant.req_fullName pb) = Some fullName →
  Js.truthy (Assistant.req_cnic pb) = Some cnic →
  Db.patients_by_cnic cnic st = [] →
  (∀ c, fails env2 c = false) →
  profiles st1 !! gen_id env2 = None →
  ∃ p pj st2,
    profiles st1 !! aj_id aj = Some p
    ∧ role p = doctor_assistant ∧ approval_status p = pending
    ∧ Assistant.assistant_hospital env2 (aj_id aj) st1 = Some H
    ∧ Assistant.post_patients env2 (Some (aj_id aj, p)) pb st1
      = (mkResponse 201 (PatientBody created pj), st2)
    ∧ patient_profiles st2
      = patient_profiles st ++
        [mkPatientProfile (gen_id env2) (Some H) cnic (Some (aj_id aj)) (now env2)].
Proof.
  intros Hfirst Hd HH Hnolink Hname Hcnic Hrows Hok Hfresh.
  pose proof (post_assistants_effect env1 (Some (did, dp)) ab st) as Heff.
  cbv zeta in Heff. rewrite Hfirst in Heff. simpl in Heff.
  destruct Heff
    as [[_ Hc] | (did' & dp' & dprow' & aid & fn & [= <- <-] & Hd' & Hu & Hfr & Hn & Hout)];
    [done|].
  rewrite Hd in Hd'. injection Hd' as <-.
  destruct Hout as [[_ [=]] | [-> [email [= ->]]]]. simpl in *.
  assert (Hlink : Assistant.assistant_hospital env2 aid
            (Db.with_assistant_links
               (doctor_assistant_profiles st ++
                [mkAssistantLink aid (Some did) (dp_hospital_id dprow) pending])
               (Db.with_profiles
                  (<[aid := mkProfile (Some fn) (Doctor.req_phone ab) None None
                              doctor_assistant pending]> (profiles st)) st))
            = Some H).
  { unfold Assistant.assistant_hospital, Db.assistant_links_of in *. simpl.
    rewrite Hok, filter_app, Hnolink, filter_cons, decide_True by done. by simpl. }
  eexists _, _, _. split; [apply lookup_insert_eq|].
  split; [done|]. split; [done|]. split; [exact Hlink|].
  unfold Assistant.post_patients. rewrite Hname, Hcnic, Hlink, Hok.
  unfold Db.patients_by_cnic in *. simpl. rewrite Hrows.
  unfold Assistant.case_B, Db.insert_profile. simpl.
  rewrite !Hok, Hfresh. simpl. split; reflexivity.
Qed.

Lemma new_assistant_registers_for_doctors_hospital_witness :
  ∃ p pj st2,
    profiles MoreSamples.st_with_bilal !! aj_id MoreSamples.bilal_json = Some p
    ∧ role p = doctor_assistant ∧ approval_status p = pending
    ∧ Assistant.assistant_hospital Sample.env_ok (aj_id MoreSamples.bilal_json)
        MoreSamples.st_with_bilal = Some "H2"
    ∧ Assistant.post_patients Sample.env_ok
        (Some (aj_id MoreSamples.bilal_json, p)) (Sample.submit "Ali Khan")
        MoreSamples.st_with_bilal
      = (mkResponse 201 (PatientBody created pj), st2)
    ∧ patient_profiles st2
      = patient_profiles Sample.st_scope ++
        [mkPatientProfile (gen_id Sample.env_ok) (Some "H2") "12345-1234567-1"
           (Some (aj_id MoreSamples.bilal_json)) (now Sample.env_ok)].
Proof.
  apply (new_assistant_registers_for_doctors_hospital Sample.env_tokens
           Sample.env_ok "doc2" MoreSamples.doc2_profile MoreSamples.bilal
           Sample.st_scope MoreSamples.st_with_bilal MoreSamples.bilal_json
           Sample.doc2_row "H2" (Sample.submit "Ali Khan") "Ali Khan"
           "12345-1234567-1");
    vm_compute; reflexivity.
Defined.

(** ** Approve and reject of doctors and assistants: composition *)

Lemma update_doctor_profile_twice (pid : string) (s1 s2 : ApprovalStatus)
    (l : list DoctorProfile) :
  ((λ d, if decide (dp_profile_id d = pid) then Db.set_doctor_status s2 d else d)
     <$> ((λ d, if decide (dp_profile_id d = pid) then Db.set_doctor_status s1 d else d)
            <$> l))
  = (λ d, if decide (dp_profile_id d = pid) then Db.set_doctor_status s2 d else d)
      <$> l.
Proof.
  rewrite <- list_fmap_compose. apply list_fmap_ext. intros _ d _. simpl.
  destruct (decide (dp_profile_id d = pid)) as [Hd|Hd]; simpl.
  - by rewrite decide_True.
  - by rewrite decide_False.
Qed.

Lemma update_assistant_link_twice (pid : string) (s1 s2 : ApprovalStatus)
    (l : list DoctorAssistantProfile) :
  ((λ a, if decide (da_profile_id a = pid) then Db.set_assistant_status s2 a else a)
     <$> ((λ a, if decide (da_profile_id a = pid) then Db.set_assistant_status s1 a else a)
            <$> l))
  = (λ a, if decide (da_profile_id a = pid) then Db.set_assistant_status s2 a else a)
      <$> l.
Proof.
  rewrite <- list_fmap_compose. apply list_fmap_ext. intros _ d _. simpl.
  destruct (decide (da_profile_id d = pid)) as [Hd|Hd]; simpl.
  - by rewrite decide_True.
  - by rewrite decide_False.
Qed.

Lemma approval_patch_twice (pid : string) (s1 s2 : ApprovalStatus)
    (m : gmap string Profile) :
  alter (Db.apply_patch (Db.approval s2)) pid
    (alter (Db.apply_patch (Db.approval s1)) pid m)
  = alter (Db.apply_patch (Db.approval s2)) pid m.
Proof.
  apply map_eq. intros i. destruct (decide (pid = i)) as [->|Hne].
  - rewrite !lookup_alter_eq. by destruct (m !! i).
  - by rewrite !lookup_alter_ne.
Qed.

(** X13. Of two operations on the same profile id and the same kind of
    account (two on a doctor, or two on an assistant) whose writes
    succeed, the later one decides: the store after both is the store
    after the later one alone. So repeating an operation changes nothing
    more, and a rejected account can be approved afterwards. *)
Theorem coupled_later_wins (op1 op2 : HospitalAdmin.Coupled) (env1 env2 : Env)
    (req1 req2 : Middleware.Request) (profileId : string) (st : Store) :
  HospitalAdmin.first_call op1 = HospitalAdmin.first_call op2 →
  fails env1 (HospitalAdmin.first_call op1) = false →
  fails env1 UpdateProfile = false →
  fails env2 (HospitalAdmin.first_call op2) = false →
  fails env2 UpdateProfile = false →
  HospitalAdmin.run op2 env2 req2 profileId
    (HospitalAdmin.run op1 env1 req1 profileId st).2
  = (json SuccessBody, (HospitalAdmin.run op2 env2 req2 profileId st).2).
Proof.
  intros Hsame H1 H1p H2 H2p.
  destruct op1, op2; try discriminate Hsame; simpl in *;
    unfold HospitalAdmin.approve_doctor, HospitalAdmin.reject_doctor,
      HospitalAdmin.approve_assistant, HospitalAdmin.reject_assistant;
    rewrite H1, H1p, H2, H2p; simpl; f_equal;
    unfold Db.update_profile, Db.update_doctor_profile, Db.update_assistant_link,
      Db.with_profiles, Db.with_doctor_profiles, Db.with_assistant_links; simpl;
    by rewrite ?approval_patch_twice, ?update_doctor_profile_twice,
      ?update_assistant_link_twice.
Qed.

Lemma coupled_later_wins_witness :
  HospitalAdmin.run HospitalAdmin.DoctorApprove Sample.env_tokens
    (Sample.request "t-adm2") "doc2"
    (HospitalAdmin.run HospitalAdmin.DoctorReject Sample.env_tokens
       (Sample.request "t-adm2") "doc2" Sample.st_scope).2
  = (json SuccessBody,
     (HospitalAdmin.run HospitalAdmin.DoctorApprove Sample.env_tokens
        (Sample.request "t-adm2") "doc2" Sample.st_scope).2).
Proof.
  apply (coupled_later_wins HospitalAdmin.DoctorReject HospitalAdmin.DoctorApprove
           Sample.env_tokens Sample.env_tokens (Sample.request "t-adm2")
           (Sample.request "t-adm2") "doc2" Sample.st_scope);
    reflexivity.
Defined.

(** X14. In every outcome an approve or reject of a doctor or an
    assistant leaves [hospitals] and [patient_profiles] untouched, adds
    or removes no row and no profile (the keys of [profiles] are the
    same, and the profile of the given id, when there is one, is still
    there), leaves the profiles and the rows of every other profile id
    as they were, and changes nothing but [approval_status] in what it
    touches. *)
Theorem coupled_frame (op : HospitalAdmin.Coupled) (env : Env)
    (req : Middleware.Request) (profileId : string) (st : Store) :
  let st' := (HospitalAdmin.run op env req profileId st).2 in
  hospitals st' = hospitals st
  ∧ patient_profiles st' = patient_profiles st
  ∧ (∀ id, id ≠ profileId → profiles st' !! id = profiles st !! id)
  ∧ (∀ p', profiles st' !! profileId = Some p' →
       ∃ p, profiles st !! profileId = Some p
            ∧ p' = mkProfile (full_name p) (phone p) (gender p) (dob p) (role p)
                     (approval_status p'))
  ∧ (profiles st !! profileId = None → profiles st' !! profileId = None)
  ∧ Forall2 (λ d d', d' = d ∨ (dp_profile_id d = profileId
                               ∧ d' = Db.set_doctor_status (dp_approval_status d') d))
      (doctor_profiles st) (doctor_profiles st')
  ∧ Forall2 (λ a a', a' = a ∨ (da_profile_id a = profileId
                               ∧ a' = Db.set_assistant_status (da_approval_status a') a))
      (doctor_assistant_profiles st) (doctor_assistant_profiles st')
  ∧ dom (profiles st') = dom (profiles st)
  ∧ (∀ p, profiles st !! profileId = Some p →
       ∃ s, profiles st' !! profileId
            = Some (mkProfile (full_name p) (phone p) (gender p) (dob p) (role p) s))
  ∧ length (doctor_profiles st') = length (doctor_profiles st)
  ∧ length (doctor_assistant_profiles st') = length (doctor_assistant_profiles st).
Proof.
  assert (Hkeep : ∀ p, profiles st !! profileId = Some p →
       ∃ s, profiles st !! profileId
            = Some (mkProfile (full_name p) (phone p) (gender p) (dob p) (role p) s)).
  { intros p Hl. exists (approval_status p). rewrite Hl. by destruct p. }
  assert (Hset : ∀ s0 p, profiles st !! profileId = Some p →
       ∃ s, alter (Db.apply_patch (Db.approval s0)) profileId (profiles st)
              !! profileId
            = Some (mkProfile (full_name p) (phone p) (gender p) (dob p) (role p) s)).
  { intros s0 p Hl. exists s0. by rewrite lookup_alter_eq, Hl. }
  assert (Hd : ∀ s,
    Forall2 (λ d d', d' = d ∨ (dp_profile_id d = profileId
                               ∧ d' = Db.set_doctor_status (dp_approval_status d') d))
      (doctor_profiles st)
      ((λ d, if decide (dp_profile_id d = profileId)
             then Db.set_doctor_status s d else d) <$> doctor_profiles st)).
  { intros s. apply Forall2_fmap_r, Forall_Forall2_diag, Forall_forall.
    intros d _. simpl.
    destruct (decide (dp_profile_id d = profileId));
      [right; split; [done|reflexivity] | by left]. }
  assert (Ha : ∀ s,
    Forall2 (λ a a', a' = a ∨ (da_profile_id a = profileId
                               ∧ a' = Db.set_assistant_status (da_approval_status a') a))
      (doctor_assistant_profiles st)
      ((λ a, if decide (da_profile_id a = profileId)
             then Db.set_assistant_status s a else a)
         <$> doctor_assistant_profiles st)).
  { intros s. apply Forall2_fmap_r, Forall_Forall2_diag, Forall_forall.
    intros d _. simpl.
    destruct (decide (da_profile_id d = profileId));
      [right; split; [done|reflexivity] | by left]. }
  assert (Hrefl_d : Forall2 (λ d d', d' = d ∨ (dp_profile_id d = profileId
                       ∧ d' = Db.set_doctor_status (dp_approval_status d') d))
                      (doctor_profiles st) (doctor_profiles st)).
  { apply Forall_Forall2_diag, Forall_forall. by left. }
  assert (Hrefl_a : Forall2 (λ a a', a' = a ∨ (da_profile_id a = profileId
                       ∧ a' = Db.set_assistant_status (da_approval_status a') a))
                      (doctor_assistant_profiles st) (doctor_assistant_profiles st)).
  { apply Forall_Forall2_diag, Forall_forall. by left. }
  assert (Hp : ∀ s p', alter (Db.apply_patch (Db.approval s)) profileId (profiles st)
                         !! profileId = Some p' →
       ∃ p, profiles st !! profileId = Some p
            ∧ p' = mkProfile (full_name p) (phone p) (gender p) (dob p) (role p)
                     (approval_status p')).
  { intros s p'. rewrite lookup_alter_eq.
    destruct (profiles st !! profileId) as [p|]; [|done].
    simpl. intros [= <-]. by exists p. }
  assert (Hid : ∀ p', profiles st !! profileId = Some p' →
       ∃ p, profiles st !! profileId = Some p
            ∧ p' = mkProfile (full_name p) (phone p) (gender p) (dob p) (role p)
                     (approval_status p')).
  { intros p' Hl. exists p'. split; [done|]. by destruct p'. }
  destruct op; simpl;
    unfold HospitalAdmin.approve_doctor, HospitalAdmin.reject_doctor,
      HospitalAdmin.approve_assistant, HospitalAdmin.reject_assistant;
    repeat case_match; simpl; split_and!; try done;
    try (intros id Hne; by rewrite lookup_alter_ne);
    try (by apply Hp); try (by apply Hd); try (by apply Ha);
    try (intros Hn; by rewrite lookup_alter_eq, Hn);
    try (by apply dom_alter_L); try (by apply Hset);
    try (by rewrite length_fmap).
Qed.

(** X15. The doctor-approve handler asks neither for a
    [doctor_profiles] row nor for the role [doctor]: for any profile id
    without such a row it answers success, leaves [doctor_profiles] as it
    was and sets that profile, whatever its role, to [approved]. *)
Theorem doctor_approve_any_profile (env : Env) (req : Middleware.Request)
    (profileId : string) (p : Profile) (st : Store) :
  profiles st !! profileId = Some p →
  Db.doctor_profiles_of profileId st = [] →
  fails env UpdateDoctorProfile = false →
  fails env UpdateProfile = false →
  ∃ st',
    HospitalAdmin.approve_doctor env req profileId st = (json SuccessBody, st')
    ∧ doctor_profiles st' = doctor_profiles st
    ∧ profiles st' !! profileId
      = Some (mkProfile (full_name p) (phone p) (gender p) (dob p) (role p) approved).
Proof.
  intros Hp Hnone H1 H2. unfold HospitalAdmin.approve_doctor. rewrite H1, H2.
  eexists. split; [reflexivity|]. simpl. split.
  - rewrite <- (list_fmap_id (doctor_profiles st)) at 2.
    apply list_fmap_ext. intros i d Hd. simpl.
    destruct (decide (dp_profile_id d = profileId)) as [Heq|]; [|done].
    exfalso. apply list_elem_of_lookup_2 in Hd.
    assert (d ∈ Db.doctor_profiles_of profileId st) as Hin
      by (by apply list_elem_of_filter).
    rewrite Hnone in Hin. by apply not_elem_of_nil in Hin.
  - by rewrite lookup_alter_eq, Hp.
Qed.

Lemma doctor_approve_any_profile_witness :
  ∃ st',
    HospitalAdmin.approve_doctor Sample.env_tokens (Sample.request "t-adm1") "as2"
      Sample.st_scope = (json SuccessBody, st')
    ∧ doctor_profiles st' = doctor_profiles Sample.st_scope
    ∧ profiles st' !! "as2"
      = Some (mkProfile (Some "Asma") None None None doctor_assistant approved).
Proof.
  apply (doctor_approve_any_profile Sample.env_tokens (Sample.request "t-adm1")
           "as2" (mkProfile (Some "Asma") None None None doctor_assistant pending)
           Sample.st_scope);
    vm_compute; reflexivity.
Defined.

(** ** Pending doctors and assistants of a hospital admin *)

Lemma filter_none {A} (P : A → Prop) `{!∀ x, Decision (P x)} (l : list A) :
  (∀ x, x ∈ l → ¬ P x) → filter P l = [].
Proof.
  induction l as [|x l IH]; intros Hno; [done|].
  rewrite filter_cons, decide_False by (apply Hno; left).
  apply IH. intros y Hy. apply Hno. by right.
Qed.

Lemma admin_hospitals_spec (admin : string) (st : Store) (h : string)
    (hrow : Hospital) :
  (h, hrow) ∈ HospitalAdminLists.admin_hospitals admin st
  ↔ hospitals st !! h = Some hrow ∧ admin_profile_id hrow = Some admin.
Proof.
  unfold HospitalAdminLists.admin_hospitals.
  rewrite elem_of_map_to_list, map_lookup_filter_Some. simpl. tauto.
Qed.

Lemma in_admin_hospital_ids (admin : string) (st : Store) (v : option string) :
  HospitalAdminLists.in_ids (HospitalAdminLists.admin_hospitals admin st).*1 v
  ↔ ∃ h hrow, v = Some h ∧ hospitals st !! h = Some hrow
              ∧ admin_profile_id hrow = Some admin.
Proof.
  destruct v as [h|]; simpl.
  - rewrite list_elem_of_fmap. split.
    + intros ([k hrow] & -> & Hin). apply admin_hospitals_spec in Hin as [Hl Ha].
      by exists k, hrow.
    + intros (h' & hrow & [= <-] & Hh & Ha). exists (h, hrow).
      split; [done|]. by apply admin_hospitals_spec.
  - split; [done|]. by intros (? & ? & ? & _).
Qed.

Lemma find_admin_hospital (admin : string) (st : Store) (h : string)
    (hrow : Hospital) :
  hospitals st !! h = Some hrow → admin_profile_id hrow = Some admin →
  HospitalAdminLists.find_hospital (HospitalAdminLists.admin_hospitals admin st)
    (Some h) = Some (h, hrow).
Proof.
  intros Hh Ha. unfold HospitalAdminLists.find_hospital.
  assert (Hin : (h, hrow) ∈ HospitalAdminLists.admin_hospitals admin st)
    by (by apply admin_hospitals_spec).
  destruct (List.find _ _) as [[k v]|] eqn:Hf.
  - apply find_some in Hf as [Hkv Hk]. apply bool_decide_eq_true in Hk.
    simpl in Hk. injection Hk as ->.
    apply list_elem_of_In, admin_hospitals_spec in Hkv as [Hv _]. congruence.
  - exfalso. apply list_elem_of_In in Hin.
    pose proof (find_none _ _ Hf (h, hrow) Hin) as Hno. simpl in Hno.
    by rewrite bool_decide_eq_true_2 in Hno.
Qed.

(** X16. When GET /pending-doctors answers with a list, the list is, in
    order, the [doctor_profiles] rows that are pending and whose hospital
    has the caller as [admin_profile_id]; each entry carries that
    hospital. No doctor of another admin's hospital is listed and none of
    the caller's pending doctors is missing. *)
Theorem pending_doctors_scoped (env : Env) (admin : string) (st : Store)
    (c : nat) (items : list HospitalAdminLists.DoctorItem) :
  HospitalAdminLists.get_pending_doctors env admin st
    = (c, HospitalAdminLists.Doctors items) →
  ∃ rows : list DoctorProfile,
    Forall2 (λ d it,
               HospitalAdminLists.di_profile_id it = dp_profile_id d
               ∧ HospitalAdminLists.di_cnic it = dp_cnic d
               ∧ HospitalAdminLists.di_approval_status it = pending
               ∧ ∃ h hrow, dp_hospital_id d = Some h
                           ∧ hospitals st !! h = Some hrow
                           ∧ admin_profile_id hrow = Some admin
                           ∧ HospitalAdminLists.di_hospital it = Some (h, hrow))
      rows items
    ∧ rows `sublist_of` doctor_profiles st
    ∧ ∀ d, d ∈ rows ↔
        d ∈ doctor_profiles st ∧ dp_approval_status d = pending
        ∧ ∃ h hrow, dp_hospital_id d = Some h ∧ hospitals st !! h = Some hrow
                    ∧ admin_profile_id hrow = Some admin.
Proof.
  unfold HospitalAdminLists.get_pending_doctors.
  destruct (fails env ReadHospitals); [done|]. cbv zeta.
  set (hs := HospitalAdminLists.admin_hospitals admin st).
  set (rows := filter (λ d, HospitalAdminLists.in_ids hs.*1 (dp_hospital_id d)
                            ∧ dp_approval_status d = pending) (doctor_profiles st)).
  assert (Hrows : ∀ d, d ∈ rows ↔
            d ∈ doctor_profiles st ∧ dp_approval_status d = pending
            ∧ ∃ h hrow, dp_hospital_id d = Some h ∧ hospitals st !! h = Some hrow
                        ∧ admin_profile_id hrow = Some admin).
  { intros d. unfold rows. rewrite list_elem_of_filter.
    unfold hs. rewrite in_admin_hospital_ids. tauto. }
  assert (Hsub : rows `sublist_of` doctor_profiles st) by apply sublist_filter.
  intros Heq. exists rows. split; [|by split].
  assert (Hitems : items = [] ∧ rows = [] ∨
    items = (λ dp,
      let profile := HospitalAdminLists.find_profile (dp_profile_id <$> rows) doctor
                       (dp_profile_id dp) st in
      HospitalAdminLists.mkDoctorItem (dp_profile_id dp)
        (default "Unknown doctor" (Js.truthy (profile ≫= full_name)))
        (Js.truthy (profile ≫= phone))
        (dp_specialization dp) (dp_license_number dp) (dp_cnic dp)
        (dp_approval_status dp)
        (HospitalAdminLists.find_hospital hs (dp_hospital_id dp))) <$> rows).
  { destruct hs as [|kv hs'] eqn:Hhs.
    - left. injection Heq as _ <-. split; [done|].
      unfold rows. simpl. apply filter_none.
      intros d _ [Hin _]. by destruct (dp_hospital_id d); [apply not_elem_of_nil in Hin|].
    - destruct (fails env ReadDoctorProfile); [done|].
      destruct rows as [|r rs] eqn:Hr.
      + left. by injection Heq as _ <-.
      + destruct (fails env ReadProfile); [done|].
        right. by injection Heq as _ <-. }
  destruct Hitems as [[-> ->] | ->]; [constructor|].
  apply Forall2_fmap_r, Forall_Forall2_diag, Forall_forall.
  intros d Hd. apply Hrows in Hd as (_ & Hpend & h & hrow & Hh & Hl & Ha).
  simpl. split_and!; try done.
  exists h, hrow. split_and!; try done.
  rewrite Hh. by apply find_admin_hospital.
Qed.

Lemma pending_doctors_scoped_witness :
  ∃ rows : list DoctorProfile,
    Forall2 (λ d it,
               HospitalAdminLists.di_profile_id it = dp_profile_id d
               ∧ HospitalAdminLists.di_cnic it = dp_cnic d
               ∧ HospitalAdminLists.di_approval_status it = pending
               ∧ ∃ h hrow, dp_hospital_id d = Some h
                           ∧ hospitals Sample.st_scope !! h = Some hrow
                           ∧ admin_profile_id hrow = Some "adm2"
                           ∧ HospitalAdminLists.di_hospital it = Some (h, hrow))
      rows MoreSamples.pending_doctors_of_adm2
    ∧ rows `sublist_of` doctor_profiles Sample.st_scope
    ∧ ∀ d, d ∈ rows ↔
        d ∈ doctor_profiles Sample.st_scope ∧ dp_approval_status d = pending
        ∧ ∃ h hrow, dp_hospital_id d = Some h
                    ∧ hospitals Sample.st_scope !! h = Some hrow
                    ∧ admin_profile_id hrow = Some "adm2".
Proof.
  apply (pending_doctors_scoped Sample.env_tokens "adm2" Sample.st_scope 200
           MoreSamples.pending_doctors_of_adm2).
  vm_compute. reflexivity.
Defined.

(** X17. The same for GET /pending-assistants: the list is, in order,
    the pending [doctor_assistant_profiles] rows whose hospital has the
    caller as [admin_profile_id], each with that hospital's id and name. *)
Theorem pending_assistants_scoped (env : Env) (admin : string) (st : Store)
    (c : nat) (items : list HospitalAdminLists.AssistantItem) :
  HospitalAdminLists.get_pending_assistants env admin st
    = (c, HospitalAdminLists.Assistants items) →
  ∃ rows : list DoctorAssistantProfile,
    Forall2 (λ a it,
               HospitalAdminLists.ai_profile_id it = da_profile_id a
               ∧ HospitalAdminLists.ai_approval_status it = pending
               ∧ ∃ h hrow, da_hospital_id a = Some h
                           ∧ hospitals st !! h = Some hrow
                           ∧ admin_profile_id hrow = Some admin
                           ∧ HospitalAdminLists.ai_hospital it
                             = Some (h, h_name hrow))
      rows items
    ∧ rows `sublist_of` doctor_assistant_profiles st
    ∧ ∀ a, a ∈ rows ↔
        a ∈ doctor_assistant_profiles st ∧ da_approval_status a = pending
        ∧ ∃ h hrow, da_hospital_id a = Some h ∧ hospitals st !! h = Some hrow
                    ∧ admin_profile_id hrow = Some admin.
Proof.
  unfold HospitalAdminLists.get_pending_assistants.
  destruct (fails env ReadHospitals); [done|]. cbv zeta.
  set (hs := HospitalAdminLists.admin_hospitals admin st).
  set (rows := filter (λ a, HospitalAdminLists.in_ids hs.*1 (da_hospital_id a)
                            ∧ da_approval_status a = pending)
                 (doctor_assistant_profiles st)).
  assert (Hrows : ∀ a, a ∈ rows ↔
            a ∈ doctor_assistant_profiles st ∧ da_approval_status a = pending
            ∧ ∃ h hrow, da_hospital_id a = Some h ∧ hospitals st !! h = Some hrow
                        ∧ admin_profile_id hrow = Some admin).
  { intros d. unfold rows. rewrite list_elem_of_filter.
    unfold hs. rewrite in_admin_hospital_ids. tauto. }
  assert (Hsub : rows `sublist_of` doctor_assistant_profiles st)
    by apply sublist_filter.
  intros Heq. exists rows. split; [|by split].
  assert (Hitems : items = [] ∧ rows = [] ∨
    ∃ f : DoctorAssistantProfile → option (string * option string),
    items = (λ link,
      let assistant :=
        HospitalAdminLists.find_profile (da_profile_id <$> rows) doctor_assistant
          (da_profile_id link) st in
      HospitalAdminLists.mkAssistantItem (da_profile_id link)
        (default "Unknown assistant" (Js.truthy (assistant ≫= full_name)))
        (Js.truthy (assistant ≫= phone))
        (da_approval_status link)
        (f link)
        ((λ kv : string * Hospital, (kv.1, h_name kv.2)) <$>
           HospitalAdminLists.find_hospital hs (da_hospital_id link))) <$> rows).
  { destruct hs as [|kv hs'] eqn:Hhs.
    - left. injection Heq as _ <-. split; [done|].
      unfold rows. simpl. apply filter_none.
      intros d _ [Hin _]. by destruct (da_hospital_id d); [apply not_elem_of_nil in Hin|].
    - destruct (fails env ReadAssistantLink); [done|].
      destruct rows as [|r rs] eqn:Hr.
      + left. by injection Heq as _ <-.
      + destruct (fails env ReadProfile); [done|].
        destruct (fails env ReadDoctorProfile); [done|].
        right. injection Heq as _ <-.
        by exists (λ link,
          da_doctor_profile_id link ≫= λ did,
            (λ p, (did, full_name p)) <$>
              HospitalAdminLists.find_profile
                (omap da_doctor_profile_id (r :: rs)) doctor did st). }
  destruct Hitems as [[-> ->] | [f ->]]; [constructor|].
  apply Forall2_fmap_r, Forall_Forall2_diag, Forall_forall.
  intros d Hd. apply Hrows in Hd as (_ & Hpend & h & hrow & Hh & Hl & Ha).
  simpl. split_and!; try done.
  exists h, hrow. split_and!; try done.
  rewrite Hh. unfold hs. by rewrite (find_admin_hospital admin st h hrow).
Qed.

Lemma pending_assistants_scoped_witness :
  ∃ rows : list DoctorAssistantProfile,
    Forall2 (λ a it,
               HospitalAdminLists.ai_profile_id it = da_profile_id a
               ∧ HospitalAdminLists.ai_approval_status it = pending
               ∧ ∃ h hrow, da_hospital_id a = Some h
                           ∧ hospitals Sample.st_scope !! h = Some hrow
                           ∧ admin_profile_id hrow = Some "adm2"
                           ∧ HospitalAdminLists.ai_hospital it
                             = Some (h, h_name hrow))
      rows MoreSamples.pending_assistants_of_adm2
    ∧ rows `sublist_of` doctor_assistant_profiles Sample.st_scope
    ∧ ∀ a, a ∈ rows ↔
        a ∈ doctor_assistant_profiles Sample.st_scope ∧ da_approval_status a = pending
        ∧ ∃ h hrow, da_hospital_id a = Some h
                    ∧ hospitals Sample.st_scope !! h = Some hrow
                    ∧ admin_profile_id hrow = Some "adm2".
Proof.
  apply (pending_assistants_scoped Sample.env_tokens "adm2" Sample.st_scope 200
           MoreSamples.pending_assistants_of_adm2).
  vm_compute. reflexivity.
Defined.

(** ** Super-admin: hospitals and users *)

Lemma store_eta (st : Store) :
  mkStore (profiles st) (hospitals st) (doctor_profiles st)
    (doctor_assistant_profiles st) (patient_profiles st) = st.
Proof. by destruct st. Qed.

Lemma alter_absent {A} (f : A → A) (k : string) (m : gmap string A) :
  m !! k = None → alter f k m = m.
Proof.
  intros Hk. apply map_eq. intros i. destruct (decide (k = i)) as [->|Hne].
  - by rewrite lookup_alter_eq, Hk.
  - by rewrite lookup_alter_ne.
Qed.


(** X19. Approving a hospital admin after a reject does not undo the
    cascade: the profile is [approved] again, but every hospital of that
    admin stays [rejected]. *)
Theorem reject_then_approve_admin (env1 env2 : Env) (profileId : string)
    (st : Store) :
  fails env1 UpdateProfile = false →
  fails env1 UpdateHospitals = false →
  fails env2 UpdateProfile = false →
  let st2 :=
    (SuperAdmin.approve_hospital_admin env2 profileId
       (SuperAdmin.reject_hospital_admin env1 profileId st).2).2 in
  (∀ p, profiles st !! profileId = Some p →
        profiles st2 !! profileId
        = Some (mkProfile (full_name p) (phone p) (gender p) (dob p) (role p) approved))
  ∧ (∀ hid h, hospitals st !! hid = Some h → admin_profile_id h = Some profileId →
        hospitals st2 !! hid = Some (Db.set_hospital_status rejected h)).
Proof.
  intros H1 H2 H3. cbv zeta.
  unfold SuperAdmin.approve_hospital_admin, SuperAdmin.reject_hospital_admin.
  rewrite H1, H2. simpl. rewrite H3. simpl. split.
  - intros p Hp. by rewrite !lookup_alter_eq, Hp.
  - intros hid h Hh Ha. rewrite lookup_fmap, Hh. simpl. by rewrite decide_True.
Qed.

Lemma reject_then_approve_admin_witness :
  let st2 :=
    (SuperAdmin.approve_hospital_admin Sample.env_tokens "adm2"
       (SuperAdmin.reject_hospital_admin Sample.env_tokens "adm2"
          Sample.st_scope).2).2 in
  (∀ p, profiles Sample.st_scope !! "adm2" = Some p →
        profiles st2 !! "adm2"
        = Some (mkProfile (full_name p) (phone p) (gender p) (dob p) (role p) approved))
  ∧ (∀ hid h, hospitals Sample.st_scope !! hid = Some h →
        admin_profile_id h = Some "adm2" →
        hospitals st2 !! hid = Some (Db.set_hospital_status rejected h)).
Proof.
  apply (reject_then_approve_admin Sample.env_tokens Sample.env_tokens "adm2"
           Sample.st_scope); reflexivity.
Defined.

(** X20. The approve and reject handlers do not check that anything
    matched: for an id that names no profile, no hospital and no
    role-specific row they answer success and leave the store exactly as
    it was. *)
Theorem unknown_id_answers_success (env : Env) (req : Middleware.Request)
    (id : string) (st : Store) :
  (∀ c, fails env c = false) →
  profiles st !! id = None →
  hospitals st !! id = None →
  (∀ h hrow, hospitals st !! h = Some hrow → admin_profile_id hrow ≠ Some id) →
  Db.doctor_profiles_of id st = [] →
  Db.assistant_links_of id st = [] →
  SuperAdmin.approve_hospital_admin env id st = (json SuccessBody, st)
  ∧ SuperAdmin.reject_hospital_admin env id st = (json SuccessBody, st)
  ∧ SuperAdminHospitals.approve_hospital env id st = (json SuccessBody, st)
  ∧ SuperAdminHospitals.reject_hospital env id st = (json SuccessBody, st)
  ∧ ∀ op, HospitalAdmin.run op env req id st = (json SuccessBody, st).
Proof.
  intros Hok Hp Hh Hadm Hd Ha.
  assert (Hprof : ∀ s, Db.update_profile id (Db.approval s) st = st).
  { intros s. unfold Db.update_profile, Db.with_profiles.
    rewrite alter_absent by done. apply store_eta. }
  assert (Hhosp : ∀ s, Db.update_hospitals_of_admin id s st = st).
  { intros s. unfold Db.update_hospitals_of_admin, Db.with_hospitals.
    etrans; [|apply (store_eta st)]. f_equal.
    apply map_eq. intros h. rewrite lookup_fmap.
    destruct (hospitals st !! h) as [hrow|] eqn:Hl; [|done]. simpl.
    by rewrite decide_False by by apply (Hadm h). }
  assert (Hdoc : ∀ s, Db.update_doctor_profile id s st = st).
  { intros s. unfold Db.update_doctor_profile, Db.with_doctor_profiles.
    etrans; [|apply (store_eta st)]. f_equal.
    rewrite <- (list_fmap_id (doctor_profiles st)) at 2.
    apply list_fmap_ext. intros i d Hi. simpl.
    destruct (decide (dp_profile_id d = id)) as [Heq|]; [|done].
    exfalso. apply list_elem_of_lookup_2 in Hi.
    assert (d ∈ Db.doctor_profiles_of id st) as Hin by (by apply list_elem_of_filter).
    rewrite Hd in Hin. by apply not_elem_of_nil in Hin. }
  assert (Hast : ∀ s, Db.update_assistant_link id s st = st).
  { intros s. unfold Db.update_assistant_link, Db.with_assistant_links.
    etrans; [|apply (store_eta st)]. f_equal.
    rewrite <- (list_fmap_id (doctor_assistant_profiles st)) at 2.
    apply list_fmap_ext. intros i d Hi. simpl.
    destruct (decide (da_profile_id d = id)) as [Heq|]; [|done].
    exfalso. apply list_elem_of_lookup_2 in Hi.
    assert (d ∈ Db.assistant_links_of id st) as Hin by (by apply list_elem_of_filter).
    rewrite Ha in Hin. by apply not_elem_of_nil in Hin. }
  unfold SuperAdmin.approve_hospital_admin, SuperAdmin.reject_hospital_admin,
    SuperAdminHospitals.approve_hospital, SuperAdminHospitals.reject_hospital,
    SuperAdminHospitals.update_hospital.
  rewrite !Hok, !Hprof, !Hhosp. rewrite !alter_absent by done.
  unfold Db.with_hospitals. rewrite store_eta. split_and!; try done.
  intros op. destruct op; simpl;
    unfold HospitalAdmin.approve_doctor, HospitalAdmin.reject_doctor,
      HospitalAdmin.approve_assistant, HospitalAdmin.reject_assistant;
    by rewrite !Hok, ?Hdoc, ?Hast, Hprof.
Qed.

Lemma unknown_id_answers_success_witness :
  SuperAdmin.approve_hospital_admin Sample.env_ok "nobody" Sample.st_ali
    = (json SuccessBody, Sample.st_ali)
  ∧ SuperAdmin.reject_hospital_admin Sample.env_ok "nobody" Sample.st_ali
    = (json SuccessBody, Sample.st_ali)
  ∧ SuperAdminHospitals.approve_hospital Sample.env_ok "nobody" Sample.st_ali
    = (json SuccessBody, Sample.st_ali)
  ∧ SuperAdminHospitals.reject_hospital Sample.env_ok "nobody" Sample.st_ali
    = (json SuccessBody, Sample.st_ali)
  ∧ ∀ op, HospitalAdmin.run op Sample.env_ok (Sample.request "t-adm1") "nobody"
            Sample.st_ali = (json SuccessBody, Sample.st_ali).
Proof.
  apply (unknown_id_answers_success Sample.env_ok (Sample.request "t-adm1")
           "nobody" Sample.st_ali).
  - intros c. reflexivity.
  - vm_compute. reflexivity.
  - reflexivity.
  - intros h hrow Hl. simpl in Hl. by rewrite lookup_empty in Hl.
  - reflexivity.
  - vm_compute. reflexivity.
Defined.

(** X21. PATCH /users/:userId writes one profile row and nothing else,
    in every outcome: marking a hospital admin rejected this way does not
    reject the admin's hospitals. It needs a truthy [role] or
    [approval_status]; a text that is not a value of the enum is
    refused with 500 and nothing written. On success the row takes the
    given role and status and keeps the other columns, so the role of
    an account can be changed after its creation. *)
Theorem patch_user_effect (env : Env) (userId : string)
    (body_role body_approval_status : option string) (st : Store) :
  let out := SuperAdminUsers.patch_user env userId body_role body_approval_status st in
  hospitals out.2 = hospitals st
  ∧ doctor_profiles out.2 = doctor_profiles st
  ∧ doctor_assistant_profiles out.2 = doctor_assistant_profiles st
  ∧ patient_profiles out.2 = patient_profiles st
  ∧ (∀ id, id ≠ userId → profiles out.2 !! id = profiles st !! id)
  ∧ (code out.1 ≠ 200 → out.2 = st)
  ∧ (code out.1 = 200 →
     ∃ r a,
       (Js.truthy body_role ≠ None ∨ Js.truthy body_approval_status ≠ None)
       ∧ SuperAdminUsers.parse_column role_of_string body_role = Some r
       ∧ SuperAdminUsers.parse_column SuperAdminUsers.status_of_string
           body_approval_status = Some a
       ∧ profiles out.2 !! userId
         = (λ p, mkProfile (full_name p) (phone p) (gender p) (dob p)
                   (default (role p) r) (default (approval_status p) a))
             <$> profiles st !! userId)
  ∧ (fails env UpdateProfile = false →
     ∀ r a,
       (Js.truthy body_role ≠ None ∨ Js.truthy body_approval_status ≠ None) →
       SuperAdminUsers.parse_column role_of_string body_role = Some r →
       SuperAdminUsers.parse_column SuperAdminUsers.status_of_string
         body_approval_status = Some a →
       out.1 = json SuccessBody).
Proof.
  cbv zeta. unfold SuperAdminUsers.patch_user.
  assert (Hsome : ∀ x : string, Some x ≠ None) by done.
  destruct (Js.truthy body_role) as [rt|] eqn:Hr;
    destruct (Js.truthy body_approval_status) as [at_|] eqn:Ha.
  4: { simpl. split_and!; try done. intros _ r a [?|?]; done. }
  all: destruct (fails env UpdateProfile); [simpl; split_and!; done|].
  all: destruct (SuperAdminUsers.parse_column role_of_string body_role)
         as [r|] eqn:Hpr; [|simpl; split_and!; done].
  all: destruct (SuperAdminUsers.parse_column SuperAdminUsers.status_of_string
                   body_approval_status) as [a|] eqn:Hpa;
         [|simpl; split_and!; done].
  all: simpl; split_and!; try done.
  all: try (intros id Hne; by rewrite lookup_alter_ne).
  all: intros _; exists r, a; split_and!; try done;
         [ first [by left | by right] | by rewrite lookup_alter_eq ].
Qed.

(** ** POST /api/auth/register *)

(** Every way in which [create_account] can end. *)
Lemma create_account_effect (renv : Register.RegEnv) (b : Register.RegisterRequest)
    (r : Role) (fullName_ : string) (rs : Register.RegStore) :
  r = doctor ∨ r = hospital_admin →
  let out := Register.create_account renv b r fullName_ rs in
  (out.2 = rs ∧ (out.1.1 = 400 ∨ out.1.1 = 500))
  ∨ ∃ uid,
      createUser (Register.env renv) = inl uid
      ∧ profiles (Register.store rs) !! uid = None
      ∧ let p := mkProfile (Some fullName_) (Register.req_phone b)
                   (Register.req_gender b) (Register.req_dob b) r pending in
        let st1 := Db.with_profiles (<[uid := p]> (profiles (Register.store rs)))
                     (Register.store rs) in
        let rs1 := Register.mkRegStore st1 (Register.hospital_admin_profiles rs) in
        (out.2 = rs1 ∧ out.1.1 = 500)
        ∨ (r = doctor
           ∧ out.1 = (201, Register.Registered uid)
           ∧ ∃ row, dp_profile_id row = uid ∧ dp_approval_status row = pending
                    ∧ dp_hospital_id row = Register.hospitalId b
                    ∧ out.2 = Register.mkRegStore
                                (Db.with_doctor_profiles (doctor_profiles st1 ++ [row]) st1)
                                (Register.hospital_admin_profiles rs))
        ∨ (r = hospital_admin
           ∧ hospitals (Register.store rs) !! Register.gen_hospital_id renv = None
           ∧ ∃ hrow, admin_profile_id hrow = Some uid ∧ status hrow = pending
               ∧ let st2 := Db.with_hospitals
                              (<[Register.gen_hospital_id renv := hrow]> (hospitals st1))
                              st1 in
                 (out.2 = Register.mkRegStore st2 (Register.hospital_admin_profiles rs)
                  ∧ out.1.1 = 500)
                 ∨ (out.2 = Register.mkRegStore st2
                              (Register.hospital_admin_profiles rs ++
                               [(uid, Register.gen_hospital_id renv)])
                    ∧ out.1 = (201, Register.Registered uid))).
Proof.
  intros Hr. cbv zeta. unfold Register.create_account, Db.insert_profile.
  destruct (createUser (Register.env renv)) as [uid|m] eqn:Hu;
    [|left; simpl; auto].
  destruct (fails (Register.env renv) InsertProfile); [left; simpl; auto|].
  destruct (profiles (Register.store rs) !! uid) eqn:Hfresh; [left; simpl; auto|].
  right. exists uid. split_and!; try done.
  destruct Hr as [-> | ->].
  - destruct (Register.fails_insert_doctor_profile renv); simpl; [by left|].
    right; left. split_and!; try done.
    by exists (mkDoctorProfile uid (default "" (Register.specialization b))
                 (Register.hospitalId b) (default "" (Register.licenseNumber b))
                 (default "" (Register.cnic b)) pending).
  - destruct (Register.fails_insert_hospital renv); simpl; [by left|].
    destruct (hospitals (Register.store rs) !! Register.gen_hospital_id renv)
      eqn:Hh; simpl; [by left|].
    right; right. split_and!; try done.
    exists (mkHospital (default "" (Register.hospitalName b))
              (default "" (Register.hospitalAddress b))
              (default "" (Register.hospitalType b)) (Some uid) pending).
    split_and!; [done|done|].
    destruct (Register.fails_insert_hospital_admin_profile renv); simpl;
      [by left|by right].
Qed.

(** What has to hold of the body for [register] to reach
    [create_account]. *)
Lemma register_cases (renv : Register.RegEnv) (b : Register.RegisterRequest)
    (rs : Register.RegStore) :
  let out := Register.register renv b rs in
  (out.2 = rs ∧ out.1.1 = 400)
  ∨ (∃ fullName_,
       Js.truthy (Register.fullName b) = Some fullName_
       ∧ Js.truthy (Register.mapped_role b) = Some "doctor"
       ∧ (∃ h hrow, Register.hospitalId b = Some h
                    ∧ hospitals (Register.store rs) !! h = Some hrow
                    ∧ status hrow = approved)
       ∧ out = Register.create_account renv b doctor fullName_ rs)
  ∨ (∃ fullName_,
       Js.truthy (Register.fullName b) = Some fullName_
       ∧ Js.truthy (Register.mapped_role b) = Some "hospital_admin"
       ∧ out = Register.create_account renv b hospital_admin fullName_ rs).
Proof.
  cbv zeta. unfold Register.register.
  destruct (Js.truthy (Register.fullName b)) as [fn|]; [|by left].
  destruct (Js.truthy (Register.mapped_role b)) as [rl|]; [|by left].
  destruct (negb _); [by left|].
  destruct (decide (rl = "doctor")) as [->|Hnd].
  - destruct (negb _); [by left|].
    destruct (fails (Register.env renv) ReadHospitals); [by left|].
    destruct (Register.hospitalId b) as [h|] eqn:Hh; [|by left]. simpl.
    destruct (hospitals (Register.store rs) !! h) as [hrow|] eqn:Hl; [|by left].
    destruct (decide (status hrow = approved)); [|by left].
    right; left. exists fn. split_and!; try done. by exists h, hrow.
  - destruct (decide (rl = "hospital_admin")) as [->|Hna]; [|by left].
    destruct (negb _); [by left|].
    right; right. by exists fn.
Qed.

(** X22. Self-registration creates accounts of two roles only: when
    [register] answers 201 the submitted role is [doctor], [admin] or
    [hospital_admin], and the new profile is stored under the id of the
    new account with the role [doctor] or [hospital_admin] and the status
    [pending]. Any other outcome with status 400 leaves every table as it
    was. *)
Theorem register_roles (renv : Register.RegEnv) (b : Register.RegisterRequest)
    (rs : Register.RegStore) :
  let out := Register.register renv b rs in
  (out.1.1 = 400 → out.2 = rs)
  ∧ (out.1.1 = 201 →
     ∃ uid r,
       out.1.2 = Register.Registered uid
       ∧ (r = doctor ∨ r = hospital_admin)
       ∧ Js.truthy (Register.mapped_role b) = Some (role_name r)
       ∧ profiles (Register.store rs) !! uid = None
       ∧ ∃ p, profiles (Register.store out.2) !! uid = Some p
              ∧ role p = r ∧ approval_status p = pending
              ∧ full_name p = Register.fullName b).
Proof.
  pose proof (register_cases renv b rs) as Hc. cbv zeta in Hc |- *.
  destruct Hc as [[-> Hcode] | [(fn & Hfn & Hrole & _ & ->) | (fn & Hfn & Hrole & ->)]].
  - rewrite Hcode. by split.
  - pose proof (create_account_effect renv b doctor fn rs (or_introl eq_refl)) as He.
    cbv zeta in He.
    apply truthy_Some in Hfn as [Hfn _].
    destruct He as [[-> [Hcd|Hcd]] | (uid & Hu & Hfresh & He)].
    + rewrite Hcd. by split.
    + rewrite Hcd. by split.
    + destruct He as [[-> Hcd] | [(_ & Hout & row & _ & _ & _ & ->) | (Hbad & _)]];
        [rewrite Hcd; by split | | done].
      rewrite Hout. simpl. split; [done|]. intros _.
      exists uid, doctor. split_and!; try done; [by left|].
      eexists. split; [apply lookup_insert_eq|]. by rewrite Hfn.
  - pose proof (create_account_effect renv b hospital_admin fn rs
                  (or_intror eq_refl)) as He.
    cbv zeta in He.
    apply truthy_Some in Hfn as [Hfn _].
    destruct He as [[-> [Hcd|Hcd]] | (uid & Hu & Hfresh & He)].
    + rewrite Hcd. by split.
    + rewrite Hcd. by split.
    + destruct He as [[-> Hcd] | [(Hbad & _) | (_ & Hh & hrow & _ & _ & He)]];
        [rewrite Hcd; by split | done | ].
      destruct He as [[-> Hcd] | [-> Hout]]; [rewrite Hcd; by split|].
      rewrite Hout. simpl. split; [done|]. intros _.
      exists uid, hospital_admin. split_and!; try done; [by right|].
      eexists. split; [apply lookup_insert_eq|]. by rewrite Hfn.
Qed.

(** X23. A doctor is registered only at a hospital that exists and is
    [approved] at that moment: a 201 for the role [doctor] implies it,
    and the new [doctor_profiles] row is pending at that hospital. *)
Theorem register_doctor_needs_approved_hospital (renv : Register.RegEnv)
    (b : Register.RegisterRequest) (rs rs' : Register.RegStore) (uid : string) :
  Register.register renv b rs = (201, Register.Registered uid, rs') →
  Js.truthy (Register.mapped_role b) = Some "doctor" →
  ∃ h hrow row,
    Register.hospitalId b = Some h
    ∧ hospitals (Register.store rs) !! h = Some hrow
    ∧ status hrow = approved
    ∧ doctor_profiles (Register.store rs')
      = doctor_profiles (Register.store rs) ++ [row]
    ∧ dp_profile_id row = uid
    ∧ dp_hospital_id row = Some h
    ∧ dp_approval_status row = pending
    ∧ hospitals (Register.store rs') = hospitals (Register.store rs).
Proof.
  intros Hreg Hrole.
  pose proof (register_cases renv b rs) as Hc. cbv zeta in Hc.
  rewrite Hreg in Hc. simpl in Hc.
  destruct Hc as [[_ [=]] | [(fn & Hfn & _ & (h & hrow & Hh & Hl & Hs) & Hout)
                            | (fn & _ & Hrole' & _)]];
    [|congruence].
  pose proof (create_account_effect renv b doctor fn rs (or_introl eq_refl)) as He.
  cbv zeta in He. rewrite <- Hout in He. simpl in He.
  destruct He as [[_ [[=]|[=]]] | (uid' & Hu & Hfresh & He)].
  destruct He as [[_ [=]] | [(_ & [= <-] & row & Hr1 & Hr2 & Hr3 & ->) | (Hbad & _)]];
    [|done].
  exists h, hrow, row. simpl. split_and!; try done. by rewrite Hr3.
Qed.

(** X24. Registration never produces anything approved, whatever
    fails on the way: a profile or a hospital that is in the store
    afterwards and was not there before is [pending], and a new hospital
    belongs to the new account. Existing profiles and hospitals are
    unchanged, no row of [doctor_profiles] is removed or altered, and the
    assistant and patient tables are untouched. *)
Theorem register_never_approves (renv : Register.RegEnv)
    (b : Register.RegisterRequest) (rs : Register.RegStore) :
  let st := Register.store rs in
  let st' := Register.store (Register.register renv b rs).2 in
  (∀ id p, profiles st !! id = Some p → profiles st' !! id = Some p)
  ∧ (∀ id p, profiles st' !! id = Some p → profiles st !! id = None →
       approval_status p = pending
       ∧ createUser (Register.env renv) = inl id)
  ∧ (∀ h hrow, hospitals st !! h = Some hrow → hospitals st' !! h = Some hrow)
  ∧ (∀ h hrow, hospitals st' !! h = Some hrow → hospitals st !! h = None →
       status hrow = pending
       ∧ ∃ uid, admin_profile_id hrow = Some uid
                ∧ createUser (Register.env renv) = inl uid)
  ∧ (doctor_profiles st' = doctor_profiles st
     ∨ ∃ row, doctor_profiles st' = doctor_profiles st ++ [row]
              ∧ dp_approval_status row = pending)
  ∧ doctor_assistant_profiles st' = doctor_assistant_profiles st
  ∧ patient_profiles st' = patient_profiles st.
Proof.
  assert (Hgoal : ∀ (r : Role) (fn : string), r = doctor ∨ r = hospital_admin →
    let st := Register.store rs in
    let st' := Register.store (Register.create_account renv b r fn rs).2 in
    (∀ id p, profiles st !! id = Some p → profiles st' !! id = Some p)
    ∧ (∀ id p, profiles st' !! id = Some p → profiles st !! id = None →
         approval_status p = pending
         ∧ createUser (Register.env renv) = inl id)
    ∧ (∀ h hrow, hospitals st !! h = Some hrow → hospitals st' !! h = Some hrow)
    ∧ (∀ h hrow, hospitals st' !! h = Some hrow → hospitals st !! h = None →
         status hrow = pending
         ∧ ∃ uid, admin_profile_id hrow = Some uid
                  ∧ createUser (Register.env renv) = inl uid)
    ∧ (doctor_profiles st' = doctor_profiles st
       ∨ ∃ row, doctor_profiles st' = doctor_profiles st ++ [row]
                ∧ dp_approval_status row = pending)
    ∧ doctor_assistant_profiles st' = doctor_assistant_profiles st
    ∧ patient_profiles st' = patient_profiles st).
  { intros r fn Hr.
    pose proof (create_account_effect renv b r fn rs Hr) as He.
    cbv zeta in He |- *.
    assert (Hsame : ∀ s : Register.RegStore, s = rs →
      (∀ id p, profiles (Register.store rs) !! id = Some p →
               profiles (Register.store s) !! id = Some p)
      ∧ (∀ id p, profiles (Register.store s) !! id = Some p →
           profiles (Register.store rs) !! id = None →
           approval_status p = pending
           ∧ createUser (Register.env renv) = inl id)
      ∧ (∀ h hrow, hospitals (Register.store rs) !! h = Some hrow →
                   hospitals (Register.store s) !! h = Some hrow)
      ∧ (∀ h hrow, hospitals (Register.store s) !! h = Some hrow →
           hospitals (Register.store rs) !! h = None →
           status hrow = pending
           ∧ ∃ uid, admin_profile_id hrow = Some uid
                    ∧ createUser (Register.env renv) = inl uid)
      ∧ (doctor_profiles (Register.store s) = doctor_profiles (Register.store rs)
         ∨ ∃ row, doctor_profiles (Register.store s)
                  = doctor_profiles (Register.store rs) ++ [row]
                  ∧ dp_approval_status row = pending)
      ∧ doctor_assistant_profiles (Register.store s)
        = doctor_assistant_profiles (Register.store rs)
      ∧ patient_profiles (Register.store s) = patient_profiles (Register.store rs)).
    { intros s ->. split_and!; try done; [congruence|congruence|by left]. }
    destruct He as [[Heq _] | (uid & Hu & Hfresh & He)]; [by apply Hsame|].
    assert (Hp1 : ∀ id p, profiles (Register.store rs) !! id = Some p →
      (<[uid := mkProfile (Some fn) (Register.req_phone b) (Register.req_gender b)
                  (Register.req_dob b) r pending]> (profiles (Register.store rs)))
        !! id = Some p).
    { intros id p Hid. rewrite lookup_insert_ne; [done|congruence]. }
    assert (Hp2 : ∀ id p,
      (<[uid := mkProfile (Some fn) (Register.req_phone b) (Register.req_gender b)
                  (Register.req_dob b) r pending]> (profiles (Register.store rs)))
        !! id = Some p →
      profiles (Register.store rs) !! id = None →
      approval_status p = pending ∧ createUser (Register.env renv) = inl id).
    { intros id p Hid Hnone. destruct (decide (uid = id)) as [->|Hne].
      - rewrite lookup_insert_eq in Hid. by injection Hid as <-.
      - rewrite lookup_insert_ne in Hid by done. congruence. }
    destruct He as [[-> _] | [(_ & _ & row & _ & Hpend & _ & ->)
                             | (_ & Hh & hrow & Hadm & Hst & He)]]; simpl.
    - split_and!; try done; [congruence|by left].
    - split_and!; try done; [congruence|]. right. by exists row.
    - assert (Hh1 : ∀ h hr, hospitals (Register.store rs) !! h = Some hr →
        (<[Register.gen_hospital_id renv := hrow]> (hospitals (Register.store rs)))
          !! h = Some hr).
      { intros h hr Hl. rewrite lookup_insert_ne; [done|congruence]. }
      assert (Hh2 : ∀ h hr,
        (<[Register.gen_hospital_id renv := hrow]> (hospitals (Register.store rs)))
          !! h = Some hr →
        hospitals (Register.store rs) !! h = None →
        status hr = pending
        ∧ ∃ uid0, admin_profile_id hr = Some uid0
                  ∧ createUser (Register.env renv) = inl uid0).
      { intros h hr Hl Hnone.
        destruct (decide (Register.gen_hospital_id renv = h)) as [Heq|Hne].
        - subst h. rewrite lookup_insert_eq in Hl. injection Hl as <-. eauto.
        - rewrite lookup_insert_ne in Hl by done. congruence. }
      destruct He as [[-> _] | [-> _]]; simpl;
        split_and!; try done; by left. }
  pose proof (register_cases renv b rs) as Hc. cbv zeta in Hc |- *.
  destruct Hc as [[-> _] | [(fn & _ & _ & _ & ->) | (fn & _ & _ & ->)]].
  - split_and!; try done; [congruence|congruence|by left].
  - apply Hgoal. by left.
  - apply Hgoal. by right.
Qed.

(** X25. The hospital of a newly registered admin is pending, so a
    doctor cannot register at it: the registration is refused with "not
    approved yet" and nothing is written. Once the super admin has
    approved that hospital, the same form passes the hospital check and
    reaches the creation of the account. *)
Theorem hospital_must_be_approved_first (renv1 renv2 : Register.RegEnv)
    (env3 : Env) (b_admin b_doc : Register.RegisterRequest)
    (rs rs1 : Register.RegStore) (uid fn : string) :
  Register.register renv1 b_admin rs = (201, Register.Registered uid, rs1) →
  Js.truthy (Register.mapped_role b_admin) = Some "hospital_admin" →
  Js.truthy (Register.fullName b_doc) = Some fn →
  Js.truthy (Register.mapped_role b_doc) = Some "doctor" →
  Register.all_truthy [Register.email b_doc; Register.password b_doc;
                       Register.req_phone b_doc; Register.req_gender b_doc;
                       Register.req_dob b_doc] = true →
  Register.all_truthy [Register.specialization b_doc; Register.hospitalId b_doc;
                       Register.licenseNumber b_doc; Register.cnic b_doc] = true →
  Register.hospitalId b_doc = Some (Register.gen_hospital_id renv1) →
  fails (Register.env renv2) ReadHospitals = false →
  fails env3 UpdateHospitals = false →
  Register.register renv2 b_doc rs1
    = (400, Register.RegisterError Register.msg_hospital_not_approved, rs1)
  ∧ let rs2 :=
      Register.mkRegStore
        (SuperAdminHospitals.approve_hospital env3 (Register.gen_hospital_id renv1)
           (Register.store rs1)).2
        (Register.hospital_admin_profiles rs1) in
    Register.register renv2 b_doc rs2
    = Register.create_account renv2 b_doc doctor fn rs2.
Proof.
  intros Hreg Hrole Hfn Hdoc Hall1 Hall2 Hhid Hread Hupd.
  assert (Hpending : ∃ hrow,
    hospitals (Register.store rs1) !! Register.gen_hospital_id renv1 = Some hrow
    ∧ status hrow = pending).
  { pose proof (register_cases renv1 b_admin rs) as Hc. cbv zeta in Hc.
    rewrite Hreg in Hc. simpl in Hc.
    destruct Hc as [[_ [=]] | [(f & _ & Hr & _) | (f & _ & _ & Hout)]];
      [congruence|].
    pose proof (create_account_effect renv1 b_admin hospital_admin f rs
                  (or_intror eq_refl)) as He.
    cbv zeta in He. rewrite <- Hout in He. simpl in He.
    destruct He as [[_ [[=]|[=]]] | (u & _ & _ & He)].
    destruct He as [[_ [=]] | [(Hbad & _) | (_ & _ & hrow & _ & Hst & He)]];
      [done|].
    destruct He as [[_ [=]] | [-> _]]. simpl.
    exists hrow. by rewrite lookup_insert_eq. }
  destruct Hpending as (hrow & Hl & Hst).
  unfold Register.register. rewrite Hfn, Hdoc, Hall1, Hall2. simpl.
  rewrite Hread, Hhid. simpl. split.
  - rewrite Hl, Hst. reflexivity.
  - unfold SuperAdminHospitals.approve_hospital. rewrite Hupd. simpl.
    rewrite lookup_alter_eq, Hl. reflexivity.
Qed.

Lemma hospital_must_be_approved_first_witness :
  Register.register (MoreSamples.renv "H8") (MoreSamples.doctor_form "H9")
    MoreSamples.rs_admin_registered
    = (400, Register.RegisterError Register.msg_hospital_not_approved,
       MoreSamples.rs_admin_registered)
  ∧ let rs2 :=
      Register.mkRegStore
        (SuperAdminHospitals.approve_hospital Sample.env_tokens "H9"
           (Register.store MoreSamples.rs_admin_registered)).2
        (Register.hospital_admin_profiles MoreSamples.rs_admin_registered) in
    Register.register (MoreSamples.renv "H8") (MoreSamples.doctor_form "H9") rs2
    = Register.create_account (MoreSamples.renv "H8") (MoreSamples.doctor_form "H9")
        doctor "Dr Three" rs2.
Proof.
  apply (hospital_must_be_approved_first (MoreSamples.renv "H9")
           (MoreSamples.renv "H8") Sample.env_tokens MoreSamples.admin_form
           (MoreSamples.doctor_form "H9") MoreSamples.rs_scope
           MoreSamples.rs_admin_registered "as3" "Dr Three");
    vm_compute; reflexivity.
Defined.

Lemma register_doctor_needs_approved_hospital_witness :
  ∃ h hrow row,
    Register.hospitalId (MoreSamples.doctor_form "H1") = Some h
    ∧ hospitals (Register.store MoreSamples.rs_scope) !! h = Some hrow
    ∧ status hrow = approved
    ∧ doctor_profiles (Register.store MoreSamples.rs_doctor_registered)
      = doctor_profiles (Register.store MoreSamples.rs_scope) ++ [row]
    ∧ dp_profile_id row = "as3"
    ∧ dp_hospital_id row = Some h
    ∧ dp_approval_status row = pending
    ∧ hospitals (Register.store MoreSamples.rs_doctor_registered)
      = hospitals (Register.store MoreSamples.rs_scope).
Proof.
  apply (register_doctor_needs_approved_hospital (MoreSamples.renv "H9")
           (MoreSamples.doctor_form "H1") MoreSamples.rs_scope
           MoreSamples.rs_doctor_registered "as3");
    vm_compute; reflexivity.
Defined.

(** ** GET /api/profile/me *)

(** X26. The profile that GET /me returns, found or just provisioned,
    is the one stored under the account's id: a following GET /me of that
    account returns the same profile and writes nothing. *)
Theorem me_is_stable (env1 env2 : Env) (h1 h2 : option string) (token2 : string)
    (u1 u2 : User) (id : string) (p : Profile) (st st1 : Store) :
  ProfileRoute.get_me env1 h1 st = (json (ProfileBody u1 id p), st1) →
  Middleware.bearer h2 = Some token2 →
  getUser env2 token2 = inl u2 →
  user_id u2 = id →
  fails env2 ReadProfile = false →
  id = user_id u1
  ∧ profiles st1 !! id = Some p
  ∧ ProfileRoute.get_me env2 h2 st1 = (json (ProfileBody u2 id p), st1).
Proof.
  intros Hfirst Hb Hu Hid Hread.
  assert (Hstored : id = user_id u1 ∧ profiles st1 !! id = Some p).
  { unfold ProfileRoute.get_me in Hfirst.
    destruct (Middleware.bearer h1) as [t|]; [|done].
    destruct (getUser env1 t) as [u|]; [|done].
    destruct (if fails env1 ReadProfile then None else profiles st !! user_id u)
      as [p0|] eqn:Hl.
    - injection Hfirst as <- <- <- <-. split; [done|].
      by destruct (fails env1 ReadProfile).
    - unfold ProfileRoute.auto_create, Db.insert_profile in Hfirst.
      destruct (fails env1 InsertProfile); [done|].
      destruct (role_of_string (ProfileRoute.inferredRole u)); [|done].
      destruct (profiles st !! user_id u); [done|].
      injection Hfirst as <- <- <- <-. split; [done|]. simpl.
      apply lookup_insert_eq. }
  destruct Hstored as [Hid1 Hp]. split; [done|]. split; [done|].
  unfold ProfileRoute.get_me. rewrite Hb, Hu, Hread, Hid, Hp. by rewrite <- Hid.
Qed.

Lemma me_is_stable_witness :
  "u-1" = user_id (Sample.account "u-1")
  ∧ profiles
      (ProfileRoute.get_me Sample.env_tokens (Some "Bearer t-new") Sample.st_scope).2
      !! "u-1"
    = Some (ProfileRoute.new_profile (Sample.account "u-1") doctor)
  ∧ ProfileRoute.get_me Sample.env_tokens (Some "Bearer t-new")
      (ProfileRoute.get_me Sample.env_tokens (Some "Bearer t-new") Sample.st_scope).2
    = (json (ProfileBody (Sample.account "u-1") "u-1"
               (ProfileRoute.new_profile (Sample.account "u-1") doctor)),
       (ProfileRoute.get_me Sample.env_tokens (Some "Bearer t-new")
          Sample.st_scope).2).
Proof.
  apply (me_is_stable Sample.env_tokens Sample.env_tokens (Some "Bearer t-new")
           (Some "Bearer t-new") "t-new" (Sample.account "u-1")
           (Sample.account "u-1") "u-1"
           (ProfileRoute.new_profile (Sample.account "u-1") doctor)
           Sample.st_scope
           (ProfileRoute.get_me Sample.env_tokens (Some "Bearer t-new")
              Sample.st_scope).2);
    vm_compute; reflexivity.
Defined.

(** X27. In the route variant mounted behind [authMiddleware] the
    provisioning code is never reached: the route writes nothing in any
    outcome, and an account whose token is valid but which has no profile
    is answered 403 "Profile not found". Its fallback role for an account
    that it would provision is [patient] when the metadata names no role
    of the enum. *)
Theorem guarded_route_never_provisions (env : Env) (req : Middleware.Request)
    (st : Store) :
  (ProfileRouteGuarded.get_me env req st).2 = st
  ∧ (∀ token u,
       Middleware.bearer (Middleware.authorization req) = Some token →
       getUser env token = inl u →
       profiles st !! user_id u = None →
       ProfileRouteGuarded.get_me env req st
       = (fail 403 Middleware.msg_no_profile, st))
  ∧ (∀ u text,
       ProfileRoute.meta u meta_role = Some text →
       role_of_string text = None →
       ProfileRouteGuarded.inferredRole u = patient).
Proof.
  split; [|split].
  - unfold ProfileRouteGuarded.get_me, Middleware.authMiddleware.
    repeat case_match; simplify_eq; done.
  - intros token u Hb Hu Hnone.
    unfold ProfileRouteGuarded.get_me, Middleware.authMiddleware.
    rewrite Hb, Hu, Hnone. by destruct (fails env ReadCallerProfile).
  - intros u text Hm Hr. unfold ProfileRouteGuarded.inferredRole.
    rewrite Hm. simpl. destruct (decide (text = "")) as [->|]; simpl; [done|].
    by rewrite Hr.
Qed.
